(** * The CDP code generator ([build/generate.py]) and the code it emits

    The generator reads the Chrome DevTools Protocol description and writes
    one Python module per domain.  This development embeds

    - the pieces of the Python standard library and of [inflection] the
      generator calls ([str.split], [str.join], [textwrap.indent],
      [textwrap.dedent], [inflection.underscore], [inflection.camelize]);
    - the intermediate representation ([CdpItems], [CdpProperty], [CdpType],
      [CdpCommand], [CdpEvent], [CdpDomain]) and its [from_json] loaders;
    - the text generators, function by function, with Python exceptions as
      an error result;
    - a small abstract syntax of the Python fragments the generators emit,
      printed back to exactly the emitted text, and an evaluator for it;
    - the driver ([parse], [clear_dirs], [main]) over a model of the
      output directory.

    Strings are sequences of ASCII characters. *)

From Stdlib Require Import String Ascii List Bool Arith ZArith Lia.
From Stdlib Require Import Permutation Sorted DecimalString.
Import ListNotations.

Set Warnings "-register-all".

Open Scope list_scope.
Open Scope string_scope.

(** ** Python exceptions as an error result *)

Inductive exn : Type :=
| KeyError
| ValueError
| TypeError
| AttributeError
| NameError
| AssertionError
| FileExistsError
| FileNotFoundError
| IsADirectoryError
| OutOfModel.

Inductive result (A : Type) : Type :=
| Ok (a : A)
| Raise (e : exn).

Arguments Ok {A} a.
Arguments Raise {A} e.

Definition bind {A B : Type} (m : result A) (k : A -> result B) : result B :=
  match m with
  | Ok a => k a
  | Raise e => Raise e
  end.

Notation "x <- m ;; k" := (bind m (fun x => k))
  (at level 61, m at next level, right associativity).

Definition fmap {A B : Type} (f : A -> B) (m : result A) : result B :=
  x <- m ;; Ok (f x).

(** A generator expression consumed left to right: the first exception
    ends the iteration. *)
Fixpoint mapM {A B : Type} (f : A -> result B) (l : list A) : result (list B) :=
  match l with
  | [] => Ok []
  | a :: l' => b <- f a ;; bs <- mapM f l' ;; Ok (b :: bs)
  end.

Definition is_ok {A : Type} (m : result A) : bool :=
  match m with Ok _ => true | Raise _ => false end.

(** ** Strings: the library functions the generator calls *)

Module PyStr.

Definition chr (n : nat) : string := String (ascii_of_nat n) EmptyString.

(** ["\n"], ["'"] and the double quote. *)
Definition nl : string := chr 10.
Definition dq : string := chr 34.

Definition code (c : ascii) : nat := nat_of_ascii c.

Definition between (lo hi : nat) (c : ascii) : bool :=
  Nat.leb lo (code c) && Nat.leb (code c) hi.

Definition is_upper : ascii -> bool := between 65 90.
Definition is_lower : ascii -> bool := between 97 122.
Definition is_digit : ascii -> bool := between 48 57.

Definition to_upper (c : ascii) : ascii :=
  if is_lower c then ascii_of_nat (code c - 32) else c.
Definition to_lower (c : ascii) : ascii :=
  if is_upper c then ascii_of_nat (code c + 32) else c.

Fixpoint map_chars (f : ascii -> ascii) (s : string) : string :=
  match s with
  | EmptyString => EmptyString
  | String c s' => String (f c) (map_chars f s')
  end.

(** [s.upper()] and [s.lower()]. *)
Definition upper : string -> string := map_chars to_upper.
Definition lower : string -> string := map_chars to_lower.

(** [c in s] for a one-character [c]. *)
Fixpoint contains (c : ascii) (s : string) : bool :=
  match s with
  | EmptyString => false
  | String a s' => Ascii.eqb a c || contains c s'
  end.

Fixpoint count (c : ascii) (s : string) : nat :=
  match s with
  | EmptyString => 0
  | String a s' => (if Ascii.eqb a c then 1 else 0) + count c s'
  end.

(** [s.split(c)]: one more part than there are separators. *)
Fixpoint split (c : ascii) (s : string) : list string :=
  match s with
  | EmptyString => [EmptyString]
  | String a s' =>
      if Ascii.eqb a c then EmptyString :: split c s'
      else match split c s' with
           | [] => [String a EmptyString]
           | h :: t => String a h :: t
           end
  end.

(** [sep.join(l)]. *)
Fixpoint join (sep : string) (l : list string) : string :=
  match l with
  | [] => EmptyString
  | [x] => x
  | x :: l' => x ++ sep ++ join sep l'
  end.

Definition concat_all (l : list string) : string := join EmptyString l.

Fixpoint spaces (n : nat) : string :=
  match n with
  | O => EmptyString
  | S n' => String " " (spaces n')
  end.

(** The ASCII characters [str.splitlines] breaks a line at, and the ASCII
    characters [str.isspace] accepts. *)
Definition is_linebreak (c : ascii) : bool :=
  existsb (Nat.eqb (code c)) [10; 11; 12; 13; 28; 29; 30].

Definition is_space (c : ascii) : bool :=
  existsb (Nat.eqb (code c)) [32; 9; 31] || is_linebreak c.

(** [s.splitlines(True)]: the lines with their line ends; a carriage return
    followed by a line feed is one line end. *)
Fixpoint splitlines_keep (s : string) : list string :=
  match s with
  | EmptyString => []
  | String c s' =>
      if is_linebreak c then
        match s' with
        | String d s'' =>
            if Nat.eqb (code c) 13 && Nat.eqb (code d) 10
            then String c (String d EmptyString) :: splitlines_keep s''
            else String c EmptyString :: splitlines_keep s'
        | EmptyString => [String c EmptyString]
        end
      else match splitlines_keep s' with
           | [] => [String c EmptyString]
           | l :: ls => String c l :: ls
           end
  end.

Fixpoint all_chars (f : ascii -> bool) (s : string) : bool :=
  match s with
  | EmptyString => true
  | String c s' => f c && all_chars f s'
  end.

(** [textwrap.indent(text, prefix)]: the prefix goes before every line that
    does not consist of white space only. *)
Definition tw_indent (text prefix : string) : string :=
  concat_all
    (map (fun line => if all_chars is_space line then line else prefix ++ line)
         (splitlines_keep text)).

(** [textwrap.dedent]. *)
Definition is_blank (c : ascii) : bool :=
  existsb (Nat.eqb (code c)) [32; 9].

Fixpoint leading_blanks (s : string) : string :=
  match s with
  | EmptyString => EmptyString
  | String c s' => if is_blank c then String c (leading_blanks s') else EmptyString
  end.

Fixpoint common_prefix (a b : string) : string :=
  match a, b with
  | String x a', String y b' =>
      if Ascii.eqb x y then String x (common_prefix a' b') else EmptyString
  | _, _ => EmptyString
  end.

Fixpoint strip_prefix (p s : string) : option string :=
  match p, s with
  | EmptyString, _ => Some s
  | String x p', String y s' =>
      if Ascii.eqb x y then strip_prefix p' s' else None
  | String _ _, EmptyString => None
  end.

Definition margin_of (lines : list string) : option string :=
  fold_left
    (fun margin line =>
       match line with
       | EmptyString => margin
       | _ =>
           let ind := leading_blanks line in
           match margin with
           | None => Some ind
           | Some m => Some (common_prefix m ind)
           end
       end)
    lines None.

Definition dedent (text : string) : string :=
  let lines :=
    map (fun l => if all_chars is_blank l then EmptyString else l)
        (split (ascii_of_nat 10) text) in
  let lines :=
    match margin_of lines with
    | None | Some EmptyString => lines
    | Some m =>
        map (fun l => match strip_prefix m l with Some r => r | None => l end)
            lines
    end in
  join nl lines.

(** [inflection.underscore]: two regular-expression substitutions, the
    replacement of hyphens, and [lower()].

    The first substitution, of [([A-Z]+)([A-Z][a-z])] by the two groups with
    an underscore between them, matches where a run of at least two capitals
    is followed by a small letter, and the underscore goes before the last
    capital of the run: [c] is that capital when the character before it is
    a capital and the one after it a small letter. *)
Fixpoint underscore_acronyms (prev_upper : bool) (s : string) : string :=
  match s with
  | EmptyString => EmptyString
  | String c s' =>
      let next_lower :=
        match s' with String d _ => is_lower d | EmptyString => false end in
      let rest := String c (underscore_acronyms (is_upper c) s') in
      if prev_upper && is_upper c && next_lower then String "_" rest else rest
  end.

(** The second substitution, of [([a-z\d])([A-Z])]: an underscore between a
    small letter or digit and a capital. *)
Fixpoint underscore_words (prev_low : bool) (s : string) : string :=
  match s with
  | EmptyString => EmptyString
  | String c s' =>
      let rest := String c (underscore_words (is_lower c || is_digit c) s') in
      if prev_low && is_upper c then String "_" rest else rest
  end.

Definition hyphen_to_underscore (c : ascii) : ascii :=
  if Ascii.eqb c "-" then "_"%char else c.

Definition underscore (word : string) : string :=
  lower (map_chars hyphen_to_underscore
           (underscore_words false (underscore_acronyms false word))).

(** [inflection.camelize(s, uppercase_first_letter=True)]: the substitution
    of [(?:^|_)(.)] by the capital of its group.  The first character is
    capitalised; afterwards an underscore is dropped and the character that
    follows it capitalised.  The dot does not match a line feed. *)
Fixpoint camelize_rest (s : string) : string :=
  match s with
  | EmptyString => EmptyString
  | String c s' =>
      match s' with
      | String d s'' =>
          if Ascii.eqb c "_" && negb (Nat.eqb (code d) 10)
          then String (to_upper d) (camelize_rest s'')
          else String c (camelize_rest s')
      | EmptyString => String c EmptyString
      end
  end.

Definition camelize (s : string) : string :=
  match s with
  | EmptyString => EmptyString
  | String c s' =>
      if Nat.eqb (code c) 10 then String c (camelize_rest s')
      else String (to_upper c) (camelize_rest s')
  end.

(** A character [inflection.underscore] has nothing to do with: no capital
    and no hyphen. *)
Definition plain_char (c : ascii) : bool :=
  negb (is_upper c) && negb (Ascii.eqb c "-").

(** String comparison, by character codes. *)
Definition ltb (a b : string) : bool :=
  match String.compare a b with Lt => true | _ => false end.

End PyStr.

Import PyStr.


(** [s.replace(c, r)] for a one-character [c]. *)
Fixpoint replace_char (c : ascii) (r : string) (s : string) : string :=
  match s with
  | EmptyString => EmptyString
  | String a s' =>
      if Ascii.eqb a c then r ++ replace_char c r s'
      else String a (replace_char c r s')
  end.

(** [str(n)] for a natural number. *)
Definition string_of_nat (n : nat) : string :=
  NilEmpty.string_of_uint (Nat.to_uint n).

(** Truth value of an optional string: [None] and [''] are false, and a
    true one is a string with a first character. *)
Definition truthy (o : option string) : option string :=
  match o with
  | Some (String c s) => Some (String c s)
  | _ => None
  end.

(** ** The loaded protocol description: what [json.load] returns *)

Inductive json : Type :=
| JNull
| JBool (b : bool)
| JNum (z : Z)
| JStr (s : string)
| JArr (l : list json)
| JObj (m : list (string * json)).

Module Json.

Fixpoint assoc {A : Type} (k : string) (m : list (string * A)) : option A :=
  match m with
  | [] => None
  | (k', v) :: m' => if String.eqb k k' then Some v else assoc k m'
  end.

(** [j[k]]: a [KeyError] on a dictionary without the key, a [TypeError] on
    anything that is not a dictionary. *)
Definition getitem (j : json) (k : string) : result json :=
  match j with
  | JObj m => match assoc k m with Some v => Ok v | None => Raise KeyError end
  | _ => Raise TypeError
  end.

(** [j.get(k)]: only dictionaries have the method. *)
Definition get (j : json) (k : string) : result (option json) :=
  match j with
  | JObj m => Ok (assoc k m)
  | _ => Raise AttributeError
  end.

(** [k in j], asked of a dictionary. *)
Definition has (j : json) (k : string) : bool :=
  match j with
  | JObj m => match assoc k m with Some _ => true | None => false end
  | _ => false
  end.

(** The typed fields of the intermediate representation hold strings,
    booleans and lists; a description that puts a value of another type
    there is not followed. *)
Definition as_str (o : option json) : result (option string) :=
  match o with
  | None | Some JNull => Ok None
  | Some (JStr s) => Ok (Some s)
  | Some _ => Raise OutOfModel
  end.

Definition as_name (j : json) : result string :=
  match j with
  | JStr s => Ok s
  | _ => Raise OutOfModel
  end.

Definition as_bool (o : option json) (default : bool) : result bool :=
  match o with
  | None => Ok default
  | Some (JBool b) => Ok b
  | Some _ => Raise OutOfModel
  end.

Definition as_list (o : option json) : result (list json) :=
  match o with
  | None => Ok []
  | Some (JArr l) => Ok l
  | Some _ => Raise OutOfModel
  end.

Definition as_str_list (o : option json) : result (option (list string)) :=
  match o with
  | None | Some JNull => Ok None
  | Some (JArr l) => fmap Some (mapM as_name l)
  | Some _ => Raise OutOfModel
  end.

End Json.

(** ** The generator: helpers *)

(** [indent(s, n)]: [textwrap.indent] with [n] spaces. *)
Definition indent (s : string) (n : nat) : string := tw_indent s (spaces n).

(** [inline_doc(description)]. *)
Definition inline_doc (description : option string) : string :=
  match truthy description with
  | None => ""
  | Some d =>
      concat_all (map (fun l => "#: " ++ l ++ nl) (split (ascii_of_nat 10) d))
  end.

(** [docstring(description)]: the template is dedented before the
    description is put into it, and has no margin to lose. *)
Definition docstring (description : option string) : string :=
  match truthy description with
  | None => ""
  | Some d => "'''" ++ nl ++ d ++ nl ++ "'''"
  end.

(** [ref_to_python(ref)]: the unpacking of [ref.split('.')] into two names
    raises [ValueError] unless there are exactly two parts. *)
Definition ref_to_python (ref : string) : result string :=
  if contains "." ref then
    match split "." ref with
    | [domain; subtype] => Ok (underscore domain ++ "." ++ subtype)
    | _ => Raise ValueError
    end
  else Ok ref.

Module CdpPrimitiveType.

Inductive t : Type := any | boolean | integer | number | object | string.

Definition value (m : t) : String.string :=
  match m with
  | any => "typing.Any"
  | boolean => "bool"
  | integer => "int"
  | number => "float"
  | object => "dict"
  | string => "str"
  end.

Definition members : list (String.string * t) :=
  [("any", any); ("boolean", boolean); ("integer", integer);
   ("number", number); ("object", object); ("string", string)].

(** [CdpPrimitiveType[name]]: a [KeyError] for anything that is not the
    name of a member, [None] included. *)
Definition getitem (name : option String.string) : result t :=
  match name with
  | Some n =>
      match Json.assoc n members with
      | Some m => Ok m
      | None => Raise KeyError
      end
  | None => Raise KeyError
  end.

End CdpPrimitiveType.

(** ** The intermediate representation *)

Module CdpItems.

Record t : Type := mk {
  type : option string;
  ref : option string
}.

Definition from_json (j : json) : result t :=
  ty <- Json.get j "type" ;;
  ty <- Json.as_str ty ;;
  rf <- Json.get j "$ref" ;;
  rf <- Json.as_str rf ;;
  Ok (mk ty rf).

End CdpItems.

Module CdpProperty.

Record t : Type := mk {
  name : string;
  description : option string;
  type : option string;
  ref : option string;
  enum : option (list string);
  items : option CdpItems.t;
  optional : bool
}.

Definition py_name (p : t) : string := underscore (name p).

(** The annotation without the [typing.Optional] wrapper. *)
Definition bare_annotation (p : t) : result string :=
  match items p with
  | Some it =>
      match truthy (CdpItems.ref it) with
      | Some r =>
          py_ref <- ref_to_python r ;;
          Ok ("typing.List['" ++ py_ref ++ "']")
      | None =>
          m <- CdpPrimitiveType.getitem (CdpItems.type it) ;;
          Ok ("typing.List[" ++ CdpPrimitiveType.value m ++ "]")
      end
  | None =>
      match truthy (ref p) with
      | Some r =>
          py_ref <- ref_to_python r ;;
          Ok ("'" ++ py_ref ++ "'")
      | None =>
          m <- CdpPrimitiveType.getitem (type p) ;;
          Ok (CdpPrimitiveType.value m)
      end
  end.

Definition py_annotation (p : t) : result string :=
  ann <- bare_annotation p ;;
  Ok (if optional p then "typing.Optional[" ++ ann ++ "]" else ann).

Definition from_json (property : json) : result t :=
  nm <- Json.getitem property "name" ;;
  nm <- Json.as_name nm ;;
  de <- Json.get property "description" ;;
  de <- Json.as_str de ;;
  ty <- Json.get property "type" ;;
  ty <- Json.as_str ty ;;
  rf <- Json.get property "$ref" ;;
  rf <- Json.as_str rf ;;
  en <- Json.get property "enum" ;;
  en <- Json.as_str_list en ;;
  it <- (if Json.has property "items"
         then i <- Json.getitem property "items" ;;
              fmap Some (CdpItems.from_json i)
         else Ok None) ;;
  op <- Json.get property "optional" ;;
  op <- Json.as_bool op false ;;
  Ok (mk nm de ty rf en it op).

Definition generate_decl (p : t) : result string :=
  let code := inline_doc (description p) in
  ann <- py_annotation p ;;
  let code := code ++ py_name p ++ ": " ++ ann in
  Ok (if optional p then code ++ " = None" else code).

Definition to_json_value (p : t) (self_ref : string) : string :=
  match items p with
  | Some it =>
      match truthy (CdpItems.ref it) with
      | Some _ => "[i.to_json() for i in " ++ self_ref ++ py_name p ++ "]"
      | None => "[i for i in " ++ self_ref ++ py_name p ++ "]"
      end
  | None =>
      match truthy (ref p) with
      | Some _ => self_ref ++ py_name p ++ ".to_json()"
      | None => self_ref ++ py_name p
      end
  end.

Definition generate_to_json (p : t) (dict_ : string) (use_self : bool) : string :=
  let self_ref := if use_self then "self." else "" in
  let assign := dict_ ++ "['" ++ name p ++ "'] = " in
  let assign := assign ++ to_json_value p self_ref in
  if optional p then
    dedent ("                if " ++ self_ref ++ py_name p ++ " is not None:" ++ nl ++
            "                    " ++ assign)
  else assign.

Definition generate_from_json (p : t) (dict_ : string) : result string :=
  expr <-
    match items p with
    | Some it =>
        match truthy (CdpItems.ref it) with
        | Some r =>
            py_ref <- ref_to_python r ;;
            Ok ("[" ++ py_ref ++ ".from_json(i) for i in "
                    ++ dict_ ++ "['" ++ name p ++ "']]")
        | None =>
            m <- CdpPrimitiveType.getitem (CdpItems.type it) ;;
            Ok ("[" ++ CdpPrimitiveType.value m ++ "(i) for i in "
                    ++ dict_ ++ "['" ++ name p ++ "']]")
        end
    | None =>
        match truthy (ref p) with
        | Some r =>
            py_ref <- ref_to_python r ;;
            Ok (py_ref ++ ".from_json(" ++ dict_ ++ "['" ++ name p ++ "'])")
        | None => Ok (dict_ ++ "['" ++ name p ++ "']")
        end
    end ;;
  Ok (if optional p
      then expr ++ " if '" ++ name p ++ "' in " ++ dict_ ++ " else None"
      else expr).

End CdpProperty.

(** [l.sort(key=...)]: a stable sort; an element goes before the first one
    whose key is not smaller than its own. *)
Section Sort.

Context {A K : Type} (key : A -> K) (lt : K -> K -> bool).

Fixpoint insert_by_key (x : A) (l : list A) : list A :=
  match l with
  | [] => [x]
  | y :: l' =>
      if lt (key y) (key x) then y :: insert_by_key x l' else x :: y :: l'
  end.

Definition sort_by_key (l : list A) : list A :=
  fold_right insert_by_key [] l.

End Sort.

(** [False < True]. *)
Definition bool_lt (a b : bool) : bool := negb a && b.

Module CdpType.

Record t : Type := mk {
  id : string;
  description : option string;
  type : option string;
  items : option CdpItems.t;
  enum : option (list string);
  properties : list CdpProperty.t
}.

Definition from_json (type_ : json) : result t :=
  i <- Json.getitem type_ "id" ;;
  i <- Json.as_name i ;;
  de <- Json.get type_ "description" ;;
  de <- Json.as_str de ;;
  ty <- Json.getitem type_ "type" ;;
  ty <- Json.as_str (Some ty) ;;
  it <- (if Json.has type_ "items"
         then j <- Json.getitem type_ "items" ;;
              fmap Some (CdpItems.from_json j)
         else Ok None) ;;
  en <- Json.get type_ "enum" ;;
  en <- Json.as_str_list en ;;
  ps <- Json.get type_ "properties" ;;
  ps <- Json.as_list ps ;;
  ps <- mapM CdpProperty.from_json ps ;;
  Ok (mk i de ty it en ps).

Definition generate_primitive_code (t0 : t) : result string :=
  ts <-
    match items t0 with
    | Some it =>
        py_type <-
          match truthy (CdpItems.ref it) with
          | Some r =>
              nested_type <- ref_to_python r ;;
              Ok ("typing.List['" ++ nested_type ++ "']")
          | None =>
              m <- CdpPrimitiveType.getitem (CdpItems.type it) ;;
              Ok ("typing.List[" ++ CdpPrimitiveType.value m ++ "]")
          end ;;
        Ok (py_type, "list")
    | None =>
        m <- CdpPrimitiveType.getitem (type t0) ;;
        Ok (CdpPrimitiveType.value m, CdpPrimitiveType.value m)
    end ;;
  let '(py_type, superclass) := ts in
  let code := "class " ++ id t0 ++ "(" ++ superclass ++ "):" ++ nl in
  let doc := docstring (description t0) in
  let code :=
    match doc with
    | EmptyString => code
    | _ => code ++ indent doc 4 ++ nl
    end in
  let def_to_json := dedent (
"            def to_json(self) -> " ++ py_type ++ ":
                return self") in
  let code := code ++ indent def_to_json 4 in
  let def_from_json := dedent (
"            @classmethod
            def from_json(cls, json: " ++ py_type ++ ") -> '" ++ id t0 ++ "':
                return cls(json)") in
  let code := code ++ nl ++ nl ++ indent def_from_json 4 in
  let def_repr := dedent (
"            def __repr__(self):
                return '" ++ id t0 ++ "({})'.format(super().__repr__())") in
  let code := code ++ nl ++ nl ++ indent def_repr 4 in
  Ok code.

(** The class member of one literal: its upper-snake-case name bound to
    the literal. *)
Definition enum_member_code (enum_member : string) : string :=
  let snake_case := upper (underscore enum_member) in
  snake_case ++ " = " ++ dq ++ enum_member ++ dq ++ nl.

Definition generate_enum_code (t0 : t) : result string :=
  let def_to_json := dedent (
"            def to_json(self) -> str:
                return self.value") in
  let def_from_json := dedent (
"            @classmethod
            def from_json(cls, json: str) -> '" ++ id t0 ++ "':
                return cls(json)") in
  let code := "class " ++ id t0 ++ "(enum.Enum):" ++ nl in
  let doc := docstring (description t0) in
  let code :=
    match doc with
    | EmptyString => code
    | _ => code ++ indent doc 4 ++ nl
    end in
  members <-
    match enum t0 with
    | Some l => Ok l
    | None => Raise TypeError
    end ;;
  let code :=
    fold_left (fun code enum_member =>
                 code ++ indent (enum_member_code enum_member) 4)
              members code in
  let code := code ++ nl ++ indent def_to_json 4 in
  let code := code ++ nl ++ nl ++ indent def_from_json 4 in
  Ok code.

(** The local [props] of [generate_class_code]: a copy of the properties,
    sorted on [optional]. *)
Definition sorted_props (t0 : t) : list CdpProperty.t :=
  sort_by_key CdpProperty.optional bool_lt (properties t0).

Definition generate_class_code (t0 : t) : result string :=
  let code := dedent (
"            @dataclass
            class " ++ id t0 ++ ":
") in
  let doc := docstring (description t0) in
  let code :=
    match doc with
    | EmptyString => code
    | _ => code ++ indent doc 4 ++ nl
    end in
  let props := sorted_props t0 in
  decls <- mapM (fun p => d <- CdpProperty.generate_decl p ;; Ok (indent d 4))
                props ;;
  let code := code ++ join (nl ++ nl) decls in
  let code := code ++ nl ++ nl in
  let def_to_json := dedent (
"            def to_json(self) -> T_JSON_DICT:
                json: T_JSON_DICT = dict()
        ") in
  let assigns :=
    map (fun p => CdpProperty.generate_to_json p "json" true) props in
  let def_to_json := def_to_json ++ indent (join nl assigns) 4 in
  let def_to_json := def_to_json ++ nl in
  let def_to_json := def_to_json ++ indent "return json" 4 in
  let code := code ++ indent def_to_json 4 ++ nl ++ nl in
  let def_from_json := dedent (
"            @classmethod
            def from_json(cls, json: T_JSON_DICT) -> '" ++ id t0 ++ "':
                return cls(
        ") in
  args <- mapM (fun p =>
                  e <- CdpProperty.generate_from_json p "json" ;;
                  Ok (CdpProperty.name p ++ "=" ++ e ++ ","))
               (properties t0) ;;
  let def_from_json := def_from_json ++ indent (join nl args) 8 in
  let def_from_json := def_from_json ++ nl in
  let def_from_json := def_from_json ++ indent ")" 4 in
  let code := code ++ indent def_from_json 4 in
  Ok code.

(** A list is true when it is not empty; [None] is false. *)
Definition generate_code (t0 : t) : result string :=
  match enum t0 with
  | Some (_ :: _) => generate_enum_code t0
  | _ =>
      match properties t0 with
      | _ :: _ => generate_class_code t0
      | [] => generate_primitive_code t0
      end
  end.

End CdpType.


(** [CdpParameter] and [CdpReturn] are subclasses of [CdpProperty]: the same
    fields, some methods overridden. *)
Module CdpParameter.

Definition t : Type := CdpProperty.t.

Definition from_json : json -> result t := CdpProperty.from_json.

(** The parameter in the signature of the function of a command. *)
Definition generate_code (p : t) : result string :=
  py_type <- CdpProperty.bare_annotation p ;;
  let py_type :=
    if CdpProperty.optional p
    then "typing.Optional[" ++ py_type ++ "]" else py_type in
  let code := CdpProperty.py_name p ++ ": " ++ py_type in
  Ok (if CdpProperty.optional p then code ++ " = None" else code).

Definition generate_decl (p : t) : result string :=
  let code :=
    match truthy (CdpProperty.description p) with
    | Some _ => inline_doc (CdpProperty.description p) ++ nl
    | None => ""
    end in
  ann <- CdpProperty.py_annotation p ;;
  Ok (code ++ CdpProperty.py_name p ++ ": " ++ ann).

Definition generate_doc (p : t) : string :=
  let doc := ":param " ++ CdpProperty.py_name p ++ ":" in
  match truthy (CdpProperty.description p) with
  | Some d => doc ++ " " ++ replace_char "`" "``" d
  | None => doc
  end.

(** The [try] around the look-up of the primitive type catches its
    [KeyError]. *)
Definition generate_from_json (p : t) (dict_ : string) : result string :=
  code <- CdpProperty.generate_from_json p dict_ ;;
  let code :=
    match CdpPrimitiveType.getitem (CdpProperty.type p) with
    | Ok prim => CdpPrimitiveType.value prim ++ "(" ++ code ++ ")"
    | Raise _ => code
    end in
  Ok (CdpProperty.py_name p ++ "=" ++ code).

End CdpParameter.

Module CdpReturn.

Definition t : Type := CdpProperty.t.

Definition from_json : json -> result t := CdpProperty.from_json.

Definition py_annotation (r : t) : result string :=
  CdpProperty.bare_annotation r.

Definition generate_doc (r : t) : string :=
  match truthy (CdpProperty.description r) with
  | Some d =>
      let doc := replace_char "`" "``" d in
      if CdpProperty.optional r then "(Optional) " ++ doc else doc
  | None => ""
  end.

(** [dict_] is not passed on: the expression reads the dictionary [json]. *)
Definition generate_return (r : t) (dict_ : string) : result string :=
  code <- CdpProperty.generate_from_json r "json" ;;
  Ok (match CdpPrimitiveType.getitem (CdpProperty.type r) with
      | Ok type_ => CdpPrimitiveType.value type_ ++ "(" ++ code ++ ")"
      | Raise _ => code
      end).

End CdpReturn.

(** [enumerate(l)]. *)
Definition enumerate {A : Type} (l : list A) : list (nat * A) :=
  combine (seq 0 (List.length l)) l.

Module CdpCommand.

Record t : Type := mk {
  name : string;
  description : option string;
  experimental : bool;
  parameters : list CdpParameter.t;
  returns : list CdpReturn.t;
  domain : string
}.

Definition py_name (c : t) : string := underscore (name c).

Definition from_json (command : json) (domain : string) : result t :=
  parameters <- Json.get command "parameters" ;;
  returns <- Json.get command "returns" ;;
  nm <- Json.getitem command "name" ;;
  nm <- Json.as_name nm ;;
  de <- Json.get command "description" ;;
  de <- Json.as_str de ;;
  ex <- Json.get command "experimental" ;;
  ex <- Json.as_bool ex false ;;
  ps <- Json.as_list parameters ;;
  ps <- mapM CdpParameter.from_json ps ;;
  rs <- Json.as_list returns ;;
  rs <- mapM CdpReturn.from_json rs ;;
  Ok (mk nm de ex ps rs domain).

(** The header of the function. *)
Definition generate_header (c : t) : result string :=
  ret_type <-
    match returns c with
    | [] => Ok "None"
    | [r] => CdpReturn.py_annotation r
    | rs =>
        nested_types <- mapM CdpReturn.py_annotation rs ;;
        Ok ("typing.Tuple[" ++ join ", " nested_types ++ "]")
    end ;;
  let ret_type := "typing.Generator[T_JSON_DICT,T_JSON_DICT," ++ ret_type ++ "]" in
  let code := "def " ++ py_name c ++ "(" in
  let ret := ") -> " ++ ret_type ++ ":" ++ nl in
  match parameters c with
  | _ :: _ =>
      ps <- mapM CdpParameter.generate_code (parameters c) ;;
      Ok (code ++ nl ++ indent (join ("," ++ nl) ps) 8 ++ nl ++ indent ret 4)
  | [] => Ok (code ++ ret)
  end.

(** The text of the docstring. *)
Definition generate_doc (c : t) : string :=
  let doc :=
    match truthy (description c) with
    | Some d => d
    | None => ""
    end in
  let doc :=
    match parameters c, doc, returns c with
    | _ :: _, String _ _, _ => doc ++ nl ++ nl
    | [], _, _ :: _ => doc ++ nl
    | _, _, _ => doc
    end in
  let doc := doc ++ join nl (map CdpParameter.generate_doc (parameters c)) in
  match returns c with
  | [] => doc
  | [r] => doc ++ nl ++ ":returns: " ++ CdpReturn.generate_doc r
  | rs =>
      let doc := doc ++ nl in
      let doc := doc ++ ":returns: a tuple with the following items:" ++ nl in
      let ret_docs :=
        join nl (map (fun ir =>
                        string_of_nat (fst ir) ++ ". "
                        ++ CdpProperty.name (snd ir) ++ ": "
                        ++ CdpReturn.generate_doc (snd ir))
                     (enumerate rs)) in
      doc ++ indent ret_docs 4
  end.

(** The body of the function: the dictionary of the parameters, the
    request, the [yield], and the [return] of the decoded results. *)
Definition generate_body (c : t) : result string :=
  let code :=
    match parameters c with
    | _ :: _ => nl ++ indent "params: T_JSON_DICT = dict()" 4 ++ nl
    | [] => ""
    end in
  let assigns :=
    map (fun p => CdpProperty.generate_to_json p "params" false)
        (parameters c) in
  let code := code ++ indent (join nl assigns) 4 in
  let code := code ++ nl in
  let code := code ++ indent ("cmd_dict: T_JSON_DICT = {" ++ nl) 4 in
  let code :=
    code ++ indent ("'method': '" ++ domain c ++ "." ++ name c ++ "'," ++ nl) 8 in
  let code :=
    match parameters c with
    | _ :: _ => code ++ indent ("'params': params," ++ nl) 8
    | [] => code
    end in
  let code := code ++ indent ("}" ++ nl) 4 in
  let code := code ++ indent "json = yield cmd_dict" 4 in
  match returns c with
  | [] => Ok code
  | rs =>
      exprs <- mapM (fun r => CdpReturn.generate_return r "json") rs ;;
      Ok (code ++ nl ++ indent ("return " ++ join ", " exprs) 4)
  end.

Definition generate_code (c : t) : result string :=
  code <- generate_header c ;;
  let doc := generate_doc c in
  let code :=
    match doc with
    | EmptyString => code
    | _ => code ++ indent (docstring (Some doc)) 4
    end in
  body <- generate_body c ;;
  Ok (code ++ body).

End CdpCommand.

Module CdpEvent.

Record t : Type := mk {
  name : string;
  description : option string;
  parameters : list CdpParameter.t;
  domain : string
}.

Definition py_name (e : t) : string := camelize (name e).

Definition from_json (j : json) (domain : string) : result t :=
  nm <- Json.getitem j "name" ;;
  nm <- Json.as_name nm ;;
  de <- Json.get j "description" ;;
  de <- Json.as_str de ;;
  ps <- Json.get j "parameters" ;;
  ps <- Json.as_list ps ;;
  ps <- mapM CdpParameter.from_json ps ;;
  Ok (mk nm de ps domain).

Definition generate_code (e : t) : result string :=
  let code := dedent (
"            @event_class('" ++ domain e ++ "." ++ name e ++ "')
            @dataclass
            class " ++ py_name e ++ ":") in
  let code := code ++ nl in
  let code :=
    match truthy (description e) with
    | Some _ => code ++ indent (docstring (description e)) 4 ++ nl
    | None => code
    end in
  decls <- mapM CdpParameter.generate_decl (parameters e) ;;
  let code := code ++ indent (join nl decls) 4 in
  let code := code ++ nl ++ nl in
  let def_from_json := dedent (
"            @classmethod
            def from_json(cls, json: T_JSON_DICT) -> '" ++ py_name e ++ "':
                return cls(
        ") in
  let code := code ++ indent def_from_json 4 in
  args <- mapM (fun p => CdpParameter.generate_from_json p "json")
               (parameters e) ;;
  let from_json := join ("," ++ nl) args in
  let code := code ++ indent from_json 12 in
  let code := code ++ nl in
  let code := code ++ indent ")" 8 in
  Ok code.

End CdpEvent.

Definition SHARED_HEADER : string :=
"DO NOT EDIT THIS FILE

This file is generated from the CDP specification. If you need to make changes,
edit the generator and regenerate all of the modules.".

Definition INIT_HEADER : string :=
  "'''" ++ nl ++ SHARED_HEADER ++ nl ++ "'''" ++ nl ++ nl.

(** [MODULE_HEADER.format(domain, experimental)]. *)
Definition MODULE_HEADER (domain : string) (experimental : bool) : string :=
  "'''" ++ nl ++ SHARED_HEADER ++ nl ++ nl ++
  "Domain: " ++ domain ++ nl ++
  "Experimental: " ++ (if experimental then "True" else "False") ++ nl ++
  "'''" ++ nl ++ nl ++
"from cdp.util import event_class, T_JSON_DICT
from dataclasses import dataclass
import enum
import typing


".

Module CdpDomain.

Record t : Type := mk {
  domain : string;
  experimental : bool;
  dependencies : list string;
  types : list CdpType.t;
  commands : list CdpCommand.t;
  events : list CdpEvent.t
}.

Definition module (d : t) : string := underscore (domain d).

Definition from_json (j : json) : result t :=
  types <- Json.get j "types" ;;
  commands <- Json.get j "commands" ;;
  events <- Json.get j "events" ;;
  domain_name <- Json.getitem j "domain" ;;
  domain_name <- Json.as_name domain_name ;;
  ex <- Json.get j "experimental" ;;
  ex <- Json.as_bool ex false ;;
  deps <- Json.get j "dependencies" ;;
  deps <- Json.as_list deps ;;
  deps <- mapM Json.as_name deps ;;
  ts <- Json.as_list types ;;
  ts <- mapM CdpType.from_json ts ;;
  cs <- Json.as_list commands ;;
  cs <- mapM (fun c => CdpCommand.from_json c domain_name) cs ;;
  es <- Json.as_list events ;;
  es <- mapM (fun e => CdpEvent.from_json e domain_name) es ;;
  Ok (mk domain_name ex deps ts cs es).

Definition generate_code (d : t) : result string :=
  let code := MODULE_HEADER (domain d) (experimental d) in
  ts <- mapM CdpType.generate_code (types d) ;;
  cs <- mapM CdpCommand.generate_code (commands d) ;;
  es <- mapM CdpEvent.generate_code (events d) ;;
  let code := code ++ join (nl ++ nl ++ nl) (ts ++ cs ++ es)%list in
  Ok (code ++ nl).

End CdpDomain.

(** ** The emitted Python, as syntax

    The generators build text.  The fragments whose behaviour matters (the
    right-hand sides and statements of [to_json], the expressions of
    [from_json], the classes and the command functions around them) are
    described here as syntax trees with their printers; the trees the module
    [Ast] builds print to the very text of the generators.  The reading of
    the text as Python supposes what the generator supposes of its input:
    names that are Python identifiers, pairwise distinct where Python wants
    them distinct, and no quote inside a wire name. *)

Module Py.

Inductive expr : Type :=
| EVar (on_self : bool) (x : string)
    (* [x] or [self.x] *)
| EItem (d k : string)
    (* [d['k']] *)
| EToJson (e : expr)
    (* [e.to_json()] *)
| EFromJson (cls : string) (e : expr)
    (* [cls.from_json(e)] *)
| ECall (f : CdpPrimitiveType.t) (e : expr)
    (* [f(e)], [f] one of [str], [int], [float], [bool], [dict], [typing.Any] *)
| EListComp (body src : expr)
    (* [[body for i in src]] *)
| EIfIn (e : expr) (k d : string)
    (* [e if 'k' in d else None] *).

Inductive stmt : Type :=
| SSetItem (d k : string) (e : expr)
    (* [d['k'] = e] *)
| SIfNotNone (c : expr) (s : stmt)
    (* [if c is not None:] and [s] below it *).

Fixpoint print_expr (e : expr) : string :=
  match e with
  | EVar on_self x => (if on_self then "self." else "") ++ x
  | EItem d k => d ++ "['" ++ k ++ "']"
  | EToJson e => print_expr e ++ ".to_json()"
  | EFromJson cls e => cls ++ ".from_json(" ++ print_expr e ++ ")"
  | ECall f e => CdpPrimitiveType.value f ++ "(" ++ print_expr e ++ ")"
  | EListComp body src =>
      "[" ++ print_expr body ++ " for i in " ++ print_expr src ++ "]"
  | EIfIn e k d => print_expr e ++ " if '" ++ k ++ "' in " ++ d ++ " else None"
  end.

Fixpoint print_stmt (s : stmt) : string :=
  match s with
  | SSetItem d k e => d ++ "['" ++ k ++ "'] = " ++ print_expr e
  | SIfNotNone c s =>
      dedent ("                if " ++ print_expr c ++ " is not None:" ++ nl ++
              "                    " ++ print_stmt s)
  end.

(** A field of a dataclass: the comment above it, its name, its annotation,
    and whether it has the default [None]. *)
Record field : Type := mk_field {
  f_doc : string;
  f_name : string;
  f_annotation : string;
  f_default : bool
}.

Definition print_field (f : field) : string :=
  let code := f_doc f ++ f_name f ++ ": " ++ f_annotation f in
  if f_default f then code ++ " = None" else code.

Definition print_kwarg (kw : string * expr) : string :=
  fst kw ++ "=" ++ print_expr (snd kw).

Definition print_doc (code doc : string) : string :=
  match doc with
  | EmptyString => code
  | _ => code ++ indent doc 4 ++ nl
  end.

(** A dataclass with [to_json] and [from_json]. *)
Record dataclass : Type := mk_dataclass {
  dc_name : string;
  dc_doc : string;
  dc_fields : list field;
  dc_to_json : list stmt;
  dc_from_json : list (string * expr)
}.

Definition print_dataclass (c : dataclass) : string :=
  let code := dedent (
"            @dataclass
            class " ++ dc_name c ++ ":
") in
  let code := print_doc code (dc_doc c) in
  let code :=
    code ++ join (nl ++ nl)
                 (map (fun f => indent (print_field f) 4) (dc_fields c)) in
  let code := code ++ nl ++ nl in
  let def_to_json := dedent (
"            def to_json(self) -> T_JSON_DICT:
                json: T_JSON_DICT = dict()
        ") in
  let def_to_json :=
    def_to_json ++ indent (join nl (map print_stmt (dc_to_json c))) 4 in
  let def_to_json := def_to_json ++ nl in
  let def_to_json := def_to_json ++ indent "return json" 4 in
  let code := code ++ indent def_to_json 4 ++ nl ++ nl in
  let def_from_json := dedent (
"            @classmethod
            def from_json(cls, json: T_JSON_DICT) -> '" ++ dc_name c ++ "':
                return cls(
        ") in
  let def_from_json :=
    def_from_json
    ++ indent (join nl (map (fun kw => print_kwarg kw ++ ",") (dc_from_json c))) 8 in
  let def_from_json := def_from_json ++ nl in
  let def_from_json := def_from_json ++ indent ")" 4 in
  code ++ indent def_from_json 4.

(** An enumeration: the members, each a name bound to its literal. *)
Record enumclass : Type := mk_enumclass {
  en_name : string;
  en_doc : string;
  en_members : list (string * string)
}.

Definition print_member (m : string * string) : string :=
  fst m ++ " = " ++ dq ++ snd m ++ dq ++ nl.

Definition print_enumclass (c : enumclass) : string :=
  let def_to_json := dedent (
"            def to_json(self) -> str:
                return self.value") in
  let def_from_json := dedent (
"            @classmethod
            def from_json(cls, json: str) -> '" ++ en_name c ++ "':
                return cls(json)") in
  let code := "class " ++ en_name c ++ "(enum.Enum):" ++ nl in
  let code := print_doc code (en_doc c) in
  let code :=
    fold_left (fun code m => code ++ indent (print_member m) 4)
              (en_members c) code in
  let code := code ++ nl ++ indent def_to_json 4 in
  code ++ nl ++ nl ++ indent def_from_json 4.

(** The class of an event: the tag of its decorator, the fields, and the
    keyword arguments of the call in [from_json]. *)
Record eventclass : Type := mk_eventclass {
  ev_tag : string;
  ev_name : string;
  ev_doc : string;
  ev_fields : list field;
  ev_from_json : list (string * expr)
}.

Definition print_eventclass (c : eventclass) : string :=
  let code := dedent (
"            @event_class('" ++ ev_tag c ++ "')
            @dataclass
            class " ++ ev_name c ++ ":") in
  let code := code ++ nl in
  let code := print_doc code (ev_doc c) in
  let code := code ++ indent (join nl (map print_field (ev_fields c))) 4 in
  let code := code ++ nl ++ nl in
  let def_from_json := dedent (
"            @classmethod
            def from_json(cls, json: T_JSON_DICT) -> '" ++ ev_name c ++ "':
                return cls(
        ") in
  let code := code ++ indent def_from_json 4 in
  let from_json := join ("," ++ nl) (map print_kwarg (ev_from_json c)) in
  let code := code ++ indent from_json 12 in
  let code := code ++ nl in
  code ++ indent ")" 8.

(** A parameter in the header of a function: [name: type], and [= None]
    after it when it has the default. *)
Record parameter : Type := mk_parameter {
  pa_name : string;
  pa_type : string;
  pa_default : bool
}.

Definition print_parameter (p : parameter) : string :=
  let code := pa_name p ++ ": " ++ pa_type p in
  if pa_default p then code ++ " = None" else code.

(** The header of a function: [def name(parameters) -> type:]. *)
Record header : Type := mk_header {
  h_name : string;
  h_signature : list parameter;
  h_ret_type : string
}.

Definition print_header (h : header) : string :=
  let code := "def " ++ h_name h ++ "(" in
  let ret := ") -> " ++ h_ret_type h ++ ":" ++ nl in
  match h_signature h with
  | _ :: _ =>
      code ++ nl
      ++ indent (join ("," ++ nl) (map print_parameter (h_signature h))) 8
      ++ nl ++ indent ret 4
  | [] => code ++ ret
  end.

(** The function of a command: its header, its docstring as text, then
      [params: T_JSON_DICT = dict()] (when there are parameters),
      the statements filling [params],
      [cmd_dict: T_JSON_DICT = {'method': ..., 'params': params}],
      [json = yield cmd_dict],
      [return e1, ..., en] (when there are results). *)
Record function : Type := mk_function {
  fn_header : header;
  fn_doc : string;
  fn_has_params : bool;
  fn_params : list stmt;
  fn_method : string;
  fn_returns : list expr
}.

Definition print_function (f : function) : string :=
  let code := print_header (fn_header f) in
  let code :=
    match fn_doc f with
    | EmptyString => code
    | _ => code ++ indent (docstring (Some (fn_doc f))) 4
    end in
  let code :=
    if fn_has_params f
    then code ++ nl ++ indent "params: T_JSON_DICT = dict()" 4 ++ nl
    else code in
  let code := code ++ indent (join nl (map print_stmt (fn_params f))) 4 in
  let code := code ++ nl in
  let code := code ++ indent ("cmd_dict: T_JSON_DICT = {" ++ nl) 4 in
  let code := code ++ indent ("'method': '" ++ fn_method f ++ "'," ++ nl) 8 in
  let code :=
    if fn_has_params f
    then code ++ indent ("'params': params," ++ nl) 8
    else code in
  let code := code ++ indent ("}" ++ nl) 4 in
  let code := code ++ indent "json = yield cmd_dict" 4 in
  match fn_returns f with
  | [] => code
  | es => code ++ nl ++ indent ("return " ++ join ", " (map print_expr es)) 4
  end.

(** ** What makes the text a program

    The generator writes the names and texts of a description into the
    emitted code as they come.  A name written as a Python name has to be
    an identifier; here: ASCII letters, digits and underscores, a letter
    first, and no keyword.  A text written between quotes has to be free of
    quotes, backslashes and control characters; a description, which goes
    into a docstring or into comments, may have line feeds besides. *)
Definition keywords : list string :=
  ["False"; "None"; "True"; "and"; "as"; "assert"; "async"; "await";
   "break"; "class"; "continue"; "def"; "del"; "elif"; "else"; "except";
   "finally"; "for"; "from"; "global"; "if"; "import"; "in"; "is";
   "lambda"; "nonlocal"; "not"; "or"; "pass"; "raise"; "return"; "try";
   "while"; "with"; "yield"].

Definition is_letter (c : ascii) : bool := is_upper c || is_lower c.

Definition identifier (s : string) : bool :=
  match s with
  | EmptyString => false
  | String c s' =>
      is_letter c
      && all_chars (fun d => is_letter d || is_digit d || Ascii.eqb d "_") s'
      && negb (existsb (String.eqb s) keywords)
  end.

Definition quotable (c : ascii) : bool :=
  between 32 126 c && negb (existsb (Nat.eqb (code c)) [34; 39; 92]).

Definition plain (s : string) : bool := all_chars quotable s.

Definition plain_doc (d : option string) : bool :=
  match d with
  | None => true
  | Some s => all_chars (fun c => quotable c || Nat.eqb (code c) 10) s
  end.

(** No string twice. *)
Fixpoint distinct (l : list string) : bool :=
  match l with
  | [] => true
  | x :: l' => negb (existsb (String.eqb x) l') && distinct l'
  end.

End Py.

(** ** The syntax trees of what the generators emit *)

Module Ast.

Import Py.

(** [CdpProperty.generate_to_json]. *)
Definition to_json_value (p : CdpProperty.t) (use_self : bool) : expr :=
  let x := EVar use_self (CdpProperty.py_name p) in
  match CdpProperty.items p with
  | Some it =>
      match truthy (CdpItems.ref it) with
      | Some _ => EListComp (EToJson (EVar false "i")) x
      | None => EListComp (EVar false "i") x
      end
  | None =>
      match truthy (CdpProperty.ref p) with
      | Some _ => EToJson x
      | None => x
      end
  end.

Definition to_json (p : CdpProperty.t) (dict_ : string) (use_self : bool) : stmt :=
  let assign := SSetItem dict_ (CdpProperty.name p) (to_json_value p use_self) in
  if CdpProperty.optional p
  then SIfNotNone (EVar use_self (CdpProperty.py_name p)) assign
  else assign.

(** [CdpProperty.generate_from_json]. *)
Definition from_json (p : CdpProperty.t) (dict_ : string) : result expr :=
  let item := EItem dict_ (CdpProperty.name p) in
  e <-
    match CdpProperty.items p with
    | Some it =>
        match truthy (CdpItems.ref it) with
        | Some r =>
            py_ref <- ref_to_python r ;;
            Ok (EListComp (EFromJson py_ref (EVar false "i")) item)
        | None =>
            m <- CdpPrimitiveType.getitem (CdpItems.type it) ;;
            Ok (EListComp (ECall m (EVar false "i")) item)
        end
    | None =>
        match truthy (CdpProperty.ref p) with
        | Some r =>
            py_ref <- ref_to_python r ;;
            Ok (EFromJson py_ref item)
        | None => Ok item
        end
    end ;;
  Ok (if CdpProperty.optional p then EIfIn e (CdpProperty.name p) dict_ else e).

(** The conversion [CdpParameter.generate_from_json] and
    [CdpReturn.generate_return] put around the expression. *)
Definition converted (p : CdpProperty.t) (e : expr) : expr :=
  match CdpPrimitiveType.getitem (CdpProperty.type p) with
  | Ok prim => ECall prim e
  | Raise _ => e
  end.

(** [CdpParameter.generate_from_json]. *)
Definition parameter_from_json (p : CdpParameter.t) (dict_ : string)
  : result (string * expr) :=
  e <- from_json p dict_ ;;
  Ok (CdpProperty.py_name p, converted p e).

(** [CdpReturn.generate_return]. *)
Definition generate_return (r : CdpReturn.t) (dict_ : string) : result expr :=
  e <- from_json r "json" ;;
  Ok (converted r e).

(** [CdpProperty.generate_decl]. *)
Definition property_field (p : CdpProperty.t) : result field :=
  ann <- CdpProperty.py_annotation p ;;
  Ok (mk_field (inline_doc (CdpProperty.description p)) (CdpProperty.py_name p)
               ann (CdpProperty.optional p)).

(** [CdpParameter.generate_decl]: no default. *)
Definition parameter_field (p : CdpParameter.t) : result field :=
  let doc :=
    match truthy (CdpProperty.description p) with
    | Some _ => inline_doc (CdpProperty.description p) ++ nl
    | None => ""
    end in
  ann <- CdpProperty.py_annotation p ;;
  Ok (mk_field doc (CdpProperty.py_name p) ann false).

(** [CdpType.generate_class_code]: the declarations and the statements of
    [to_json] follow the sorted properties, the keyword arguments of
    [from_json] the properties as they stand, each under the name
    [p.name]. *)
Definition dataclass_of (props : list CdpProperty.t) (t0 : CdpType.t)
  : result dataclass :=
  fields <- mapM property_field props ;;
  let assigns := map (fun p => to_json p "json" true) props in
  kwargs <- mapM (fun p => e <- from_json p "json" ;; Ok (CdpProperty.name p, e))
                 (CdpType.properties t0) ;;
  Ok (mk_dataclass (CdpType.id t0) (docstring (CdpType.description t0))
                   fields assigns kwargs).

Definition dataclass (t0 : CdpType.t) : result dataclass :=
  dataclass_of (CdpType.sorted_props t0) t0.

(** [CdpType.generate_enum_code]. *)
Definition enumclass (t0 : CdpType.t) : result enumclass :=
  members <-
    match CdpType.enum t0 with
    | Some l => Ok l
    | None => Raise TypeError
    end ;;
  Ok (mk_enumclass (CdpType.id t0) (docstring (CdpType.description t0))
                   (map (fun m => (upper (underscore m), m)) members)).

(** [CdpEvent.generate_code]. *)
Definition eventclass (e : CdpEvent.t) : result eventclass :=
  fields <- mapM parameter_field (CdpEvent.parameters e) ;;
  kwargs <- mapM (fun p => parameter_from_json p "json") (CdpEvent.parameters e) ;;
  Ok (mk_eventclass (CdpEvent.domain e ++ "." ++ CdpEvent.name e)
                    (CdpEvent.py_name e)
                    (docstring (CdpEvent.description e))
                    fields kwargs).

(** [CdpParameter.generate_code]. *)
Definition parameter (p : CdpParameter.t) : result parameter :=
  py_type <- CdpProperty.bare_annotation p ;;
  let py_type :=
    if CdpProperty.optional p
    then "typing.Optional[" ++ py_type ++ "]" else py_type in
  Ok (mk_parameter (CdpProperty.py_name p) py_type (CdpProperty.optional p)).

(** The header of [CdpCommand.generate_code]. *)
Definition header (c : CdpCommand.t) : result header :=
  ret_type <-
    match CdpCommand.returns c with
    | [] => Ok "None"
    | [r] => CdpReturn.py_annotation r
    | rs =>
        nested_types <- mapM CdpReturn.py_annotation rs ;;
        Ok ("typing.Tuple[" ++ join ", " nested_types ++ "]")
    end ;;
  let ret_type := "typing.Generator[T_JSON_DICT,T_JSON_DICT," ++ ret_type ++ "]" in
  signature <- mapM parameter (CdpCommand.parameters c) ;;
  Ok (mk_header (CdpCommand.py_name c) signature ret_type).

(** [CdpCommand.generate_code]. *)
Definition function (c : CdpCommand.t) : result function :=
  header <- header c ;;
  rets <- mapM (fun r => generate_return r "json") (CdpCommand.returns c) ;;
  Ok (mk_function header (CdpCommand.generate_doc c)
                  (match CdpCommand.parameters c with [] => false | _ => true end)
                  (map (fun p => to_json p "params" false) (CdpCommand.parameters c))
                  (CdpCommand.domain c ++ "." ++ CdpCommand.name c)
                  rets).

End Ast.

(** ** What the emitted Python does

    Values are [None], booleans, integers, strings, lists, tuples,
    dictionaries with string keys (in insertion order), instances of emitted
    dataclasses and members of emitted enumerations.  Floating-point numbers
    are left out.  An execution that leaves these values, or needs a part of
    Python that is not described here, ends in [OutOfModel]; no statement
    below takes [OutOfModel] for an exception of the program. *)

Module Sem.

Import Py.

Inductive value : Type :=
| VNone
| VBool (b : bool)
| VInt (z : Z)
| VStr (s : string)
| VList (l : list value)
| VTuple (l : list value)
| VDict (m : list (string * value))
| VObj (cls : string) (fields : list (string * value))
| VEnum (cls member literal : string).

(** Local variables, and dictionaries: association lists with one entry
    per key. *)
Definition env : Type := list (string * value).

Fixpoint set_key {A : Type} (k : string) (v : A) (m : list (string * A))
  : list (string * A) :=
  match m with
  | [] => [(k, v)]
  | (k', v') :: m' =>
      if String.eqb k k' then (k, v) :: m' else (k', v') :: set_key k v m'
  end.

Definition get_key {A : Type} (k : string) (m : list (string * A)) : option A :=
  Json.assoc k m.

Definition has_key {A : Type} (k : string) (m : list (string * A)) : bool :=
  match get_key k m with Some _ => true | None => false end.

(** A name that is not bound: [NameError]. *)
Definition lookup (x : string) (locals : env) : result value :=
  match get_key x locals with
  | Some v => Ok v
  | None => Raise NameError
  end.

(** [v.x], for an instance of a dataclass. *)
Definition getattr (v : value) (x : string) : result value :=
  match v with
  | VObj _ fields =>
      match get_key x fields with
      | Some a => Ok a
      | None => Raise AttributeError
      end
  | VNone => Raise AttributeError
  | _ => Raise OutOfModel
  end.

(** [v['k']]. *)
Definition getitem (v : value) (k : string) : result value :=
  match v with
  | VDict m =>
      match get_key k m with
      | Some a => Ok a
      | None => Raise KeyError
      end
  | _ => Raise TypeError
  end.

(** [v['k'] = a]. *)
Definition setitem (v : value) (k : string) (a : value) : result value :=
  match v with
  | VDict m => Ok (VDict (set_key k a m))
  | _ => Raise TypeError
  end.

Fixpoint is_prefix (p s : string) : bool :=
  match p, s with
  | EmptyString, _ => true
  | String x p', String y s' => Ascii.eqb x y && is_prefix p' s'
  | String _ _, EmptyString => false
  end.

Fixpoint is_substring (p s : string) : bool :=
  is_prefix p s ||
  match s with
  | EmptyString => false
  | String _ s' => is_substring p s'
  end.

Definition is_str (k : string) (v : value) : bool :=
  match v with
  | VStr s => String.eqb s k
  | _ => false
  end.

(** ['k' in v]. *)
Definition contains_str (v : value) (k : string) : result bool :=
  match v with
  | VDict m => Ok (has_key k m)
  | VList l | VTuple l => Ok (existsb (is_str k) l)
  | VStr s => Ok (is_substring k s)
  | _ => Raise TypeError
  end.

Fixpoint chars (s : string) : list value :=
  match s with
  | EmptyString => []
  | String c s' => VStr (String c EmptyString) :: chars s'
  end.

(** The values [for i in v] goes through. *)
Definition iterate (v : value) : result (list value) :=
  match v with
  | VList l | VTuple l => Ok l
  | VStr s => Ok (chars s)
  | VDict m => Ok (map (fun kv => VStr (fst kv)) m)
  | _ => Raise TypeError
  end.

Definition string_of_Z (z : Z) : string :=
  NilZero.string_of_int (Z.to_int z).

(** The constructors the emitted code calls on a decoded value. *)
Definition call (f : CdpPrimitiveType.t) (v : value) : result value :=
  match f with
  | CdpPrimitiveType.any => Raise TypeError
  | CdpPrimitiveType.boolean =>
      match v with
      | VNone => Ok (VBool false)
      | VBool b => Ok (VBool b)
      | VInt z => Ok (VBool (negb (Z.eqb z 0)))
      | VStr s => Ok (VBool (negb (String.eqb s "")))
      | VList l | VTuple l => Ok (VBool (negb (Nat.eqb (List.length l) 0)))
      | VDict m => Ok (VBool (negb (Nat.eqb (List.length m) 0)))
      | VObj _ _ | VEnum _ _ _ => Ok (VBool true)
      end
  | CdpPrimitiveType.integer =>
      match v with
      | VInt z => Ok (VInt z)
      | VBool b => Ok (VInt (if b then 1 else 0))
      | VStr _ => Raise OutOfModel
      | _ => Raise TypeError
      end
  | CdpPrimitiveType.number =>
      match v with
      | VInt _ | VBool _ | VStr _ => Raise OutOfModel
      | _ => Raise TypeError
      end
  | CdpPrimitiveType.object =>
      match v with
      | VDict m => Ok (VDict m)
      | VList _ | VTuple _ | VStr _ => Raise OutOfModel
      | _ => Raise TypeError
      end
  | CdpPrimitiveType.string =>
      match v with
      | VStr s => Ok (VStr s)
      | VNone => Ok (VStr "None")
      | VBool b => Ok (VStr (if b then "True" else "False"))
      | VInt z => Ok (VStr (string_of_Z z))
      | _ => Raise OutOfModel
      end
  end.

Fixpoint foldM {A B : Type} (f : A -> B -> result A) (a : A) (l : list B)
  : result A :=
  match l with
  | [] => Ok a
  | b :: l' => a' <- f a b ;; foldM f a' l'
  end.

Section Runtime.

(** The rest of the emitted package: what [v.to_json()] returns for a value
    [v], and what [X.from_json(w)] returns for the class the text [X]
    names. *)
Variable to_json_of : value -> result value.
Variable from_json_of : string -> value -> result value.

Fixpoint eval (locals : env) (e : expr) : result value :=
  match e with
  | EVar true x => self <- lookup "self" locals ;; getattr self x
  | EVar false x => lookup x locals
  | EItem d k => dv <- lookup d locals ;; getitem dv k
  | EToJson e => v <- eval locals e ;; to_json_of v
  | EFromJson cls e => v <- eval locals e ;; from_json_of cls v
  | ECall f e => v <- eval locals e ;; call f v
  | EListComp body src =>
      v <- eval locals src ;;
      vs <- iterate v ;;
      rs <- mapM (fun i => eval (set_key "i" i locals) body) vs ;;
      Ok (VList rs)
  | EIfIn e k d =>
      dv <- lookup d locals ;;
      b <- contains_str dv k ;;
      if b then eval locals e else Ok VNone
  end.

Fixpoint exec (locals : env) (s : stmt) : result env :=
  match s with
  | SSetItem d k e =>
      v <- eval locals e ;;
      dv <- lookup d locals ;;
      dv' <- setitem dv k v ;;
      Ok (set_key d dv' locals)
  | SIfNotNone c s =>
      v <- eval locals c ;;
      match v with
      | VNone => Ok locals
      | _ => exec locals s
      end
  end.

Definition eval_kwargs (locals : env) (kwargs : list (string * expr))
  : result (list (string * value)) :=
  mapM (fun kw => v <- eval locals (snd kw) ;; Ok (fst kw, v)) kwargs.

(** The [__init__] of a dataclass, called with keyword arguments: every
    keyword has to be a field, and every field without a default has to be
    given. *)
Definition dataclass_init (cls : string) (fields : list field)
    (kwargs : list (string * value)) : result value :=
  if forallb (fun kw => existsb (String.eqb (fst kw)) (map f_name fields)) kwargs
  then
    vs <- mapM (fun f =>
                  match get_key (f_name f) kwargs with
                  | Some v => Ok (f_name f, v)
                  | None =>
                      if f_default f then Ok (f_name f, VNone)
                      else Raise TypeError
                  end)
               fields ;;
    Ok (VObj cls vs)
  else Raise TypeError.

(** The names the body of an emitted dataclass uses itself, after the
    declarations of the fields: an optional field under one of them binds
    it to [None] in the class. *)
Definition reserved : list string := ["typing"; "classmethod"; "from_json"].

Definition dataclass_names_ok (c : dataclass) : bool :=
  forallb identifier (dc_name c :: map f_name (dc_fields c))
  && negb (String.eqb (dc_name c) "dict")
  && distinct (map f_name (dc_fields c))
  && forallb (fun x => negb (existsb (String.eqb x) reserved))
             (map f_name (dc_fields c)).

(** [self.to_json()] of an emitted dataclass.  A field called [to_json]
    hides the method: the call is the call of the value of the field, or
    of the function without [self], and raises [TypeError], when the class
    statement has not raised it before.  Names that are no identifiers,
    that come twice, or that the class body uses itself give a text whose
    execution is not described here, and so does a class called [dict],
    the name [to_json] calls for its dictionary.  (The annotations are
    text here: [Valid.reference] says which references they can hold.) *)
Definition dataclass_to_json (c : dataclass) (self : value) : result value :=
  if dataclass_names_ok c then
    if existsb (String.eqb "to_json") (map f_name (dc_fields c))
    then Raise TypeError
    else
      let locals := [("self", self); ("json", VDict [])] in
      locals <- foldM exec locals (dc_to_json c) ;;
      lookup "json" locals
  else Raise OutOfModel.

(** [cls.from_json(json)] of an emitted dataclass. *)
Definition dataclass_from_json (c : dataclass) (json : value) : result value :=
  kwargs <- eval_kwargs [("json", json)] (dc_from_json c) ;;
  dataclass_init (dc_name c) (dc_fields c) kwargs.


(** The call of a function with keyword arguments binds every parameter of
    the header to the argument of its name, or to the default [None] when
    the parameter has it and the call has no such argument.  An argument
    that is no parameter, and a parameter without argument and without
    default, raise [TypeError]. *)
Definition signature (f : function) : list (string * bool) :=
  map (fun p => (pa_name p, pa_default p)) (h_signature (fn_header f)).

Definition bind_arguments (signature : list (string * bool)) (kwargs : env)
  : result env :=
  if forallb (fun kw => existsb (String.eqb (fst kw)) (map fst signature))
             kwargs
  then
    mapM (fun x : string * bool =>
            match get_key (fst x) kwargs with
            | Some v => Ok (fst x, v)
            | None => if snd x then Ok (fst x, VNone) else Raise TypeError
            end)
         signature
  else Raise TypeError.

(** The function of a command is a generator.  [start] runs its body to its
    one [yield], giving the request and the local variables at that point;
    [resume] sends the response in and runs it to its end, giving the value
    it returns ([None] when it has no [return]); [invoke] is the call with
    keyword arguments, up to the [yield].

    [args] are the local variables after the call has bound the parameters.
    [params: T_JSON_DICT = dict()] calls what the name [dict] is bound to: a
    parameter of this name, whose value is no callable, makes it raise
    [TypeError]; in a function that is itself called [dict] it is the call
    of this function, which is not described here.  A parameter called
    [params] is lost when the statement binds the name to the new
    dictionary, and the statement of the parameter then puts the dictionary
    into itself: a value that is not described here. *)
Definition start (f : function) (args : env) : result (value * env) :=
  _ <- (if fn_has_params f then
          if has_key "dict" args then Raise TypeError
          else if has_key "params" args then Raise OutOfModel
          else if String.eqb (h_name (fn_header f)) "dict" then Raise OutOfModel
          else Ok tt
        else Ok tt) ;;
  let locals :=
    if fn_has_params f then set_key "params" (VDict []) args else args in
  locals <- foldM exec locals (fn_params f) ;;
  cmd_dict <-
    (if fn_has_params f
     then params <- lookup "params" locals ;;
          Ok (VDict [("method", VStr (fn_method f)); ("params", params)])
     else Ok (VDict [("method", VStr (fn_method f))])) ;;
  Ok (cmd_dict, set_key "cmd_dict" cmd_dict locals).

Definition resume (f : function) (locals : env) (response : value)
  : result value :=
  let locals := set_key "json" response locals in
  match fn_returns f with
  | [] => Ok VNone
  | [e] => eval locals e
  | es => fmap VTuple (mapM (eval locals) es)
  end.

(** The [def] statement: the names of the header are identifiers, no
    parameter comes twice, and none without default follows one with a
    default; another header gives a text that is no function.  (The
    annotations are text here: [Valid.reference] says which references
    they can hold.) *)
Fixpoint defaults_last (ps : list parameter) : bool :=
  match ps with
  | [] => true
  | p :: ps' =>
      if pa_default p then forallb pa_default ps' else defaults_last ps'
  end.

Definition header_ok (h : header) : bool :=
  forallb identifier (h_name h :: map pa_name (h_signature h))
  && distinct (map pa_name (h_signature h))
  && defaults_last (h_signature h).

Definition invoke (f : function) (kwargs : env) : result (value * env) :=
  if header_ok (fn_header f) then
    args <- bind_arguments (signature f) kwargs ;;
    start f args
  else Raise OutOfModel.

End Runtime.

(** [enum.Enum]: the call of the class on a value looks the member with
    that value up, and raises [ValueError] when there is none; a member's
    [value] is its literal. *)
Definition member (c : enumclass) (m : string * string) : value :=
  VEnum (en_name c) (fst m) (snd m).

(** The class statement: a member name that is no identifier makes the text
    no class, and [enum.Enum] refuses a second member under a name that is
    in use ([TypeError]). *)
Definition enum_class (c : enumclass) : result unit :=
  if forallb identifier (en_name c :: map fst (en_members c)) then
    if distinct (map fst (en_members c)) then Ok tt else Raise TypeError
  else Raise OutOfModel.

Definition enum_call (c : enumclass) (v : value) : result value :=
  _ <- enum_class c ;;
  match v with
  | VStr s =>
      match find (fun m => String.eqb (snd m) s) (en_members c) with
      | Some m => Ok (member c m)
      | None => Raise ValueError
      end
  | VEnum cls _ _ => if String.eqb cls (en_name c) then Ok v else Raise ValueError
  | _ => Raise ValueError
  end.

Definition enum_from_json (c : enumclass) (json : value) : result value :=
  enum_call c json.


End Sem.

(** ** The driver: [parse], [clear_dirs], [generate_init], [main]

    The directory [build] holds the protocol descriptions, here as the
    documents [json.load] reads from them; the package directory [cdp]
    beside it is a tree of files and directories, or is not there. *)

Module Driver.

Inductive node : Type :=
| File (content : string)
| Dir (entries : list (string * node)).

Record world : Type := mk_world {
  build : list (string * json);
  cdp : option node
}.

(** A step of the driver changes the world and returns or raises; what it
    changed before it raised stays changed. *)
Definition io (A : Type) : Type := world -> result A * world.

Definition ret {A : Type} (a : A) : io A := fun w => (Ok a, w).

Definition lift {A : Type} (r : result A) : io A := fun w => (r, w).

Definition bind_io {A B : Type} (m : io A) (k : A -> io B) : io B :=
  fun w =>
    match m w with
    | (Ok a, w') => k a w'
    | (Raise e, w') => (Raise e, w')
    end.

Notation "x <~ m ;; k" := (bind_io m (fun x => k))
  (at level 61, m at next level, right associativity).

Fixpoint for_each {A : Type} (f : A -> io unit) (l : list A) : io unit :=
  match l with
  | [] => ret tt
  | a :: l' => _ <~ f a ;; for_each f l'
  end.

Definition is_dir (n : node) : bool :=
  match n with Dir _ => true | File _ => false end.

Fixpoint remove_key {A : Type} (k : string) (m : list (string * A))
  : list (string * A) :=
  match m with
  | [] => []
  | (k', v) :: m' =>
      if String.eqb k k' then remove_key k m' else (k', v) :: remove_key k m'
  end.

(** The entries of the package directory. *)
Definition entries (w : world) : result (list (string * node)) :=
  match cdp w with
  | Some (Dir es) => Ok es
  | _ => Raise FileNotFoundError
  end.

Definition set_entries (es : list (string * node)) : io unit :=
  fun w => (Ok tt, mk_world (build w) (Some (Dir es))).

(** [output_path.mkdir(exist_ok=True)]. *)
Definition mkdir_exist_ok : io unit :=
  fun w =>
    match cdp w with
    | None => (Ok tt, mk_world (build w) (Some (Dir [])))
    | Some (Dir _) => (Ok tt, w)
    | Some (File _) => (Raise FileExistsError, w)
    end.

(** [(package_path / name).unlink()]. *)
Definition unlink (name : string) : io unit :=
  fun w =>
    match entries w with
    | Ok es =>
        match Json.assoc name es with
        | Some (File _) => set_entries (remove_key name es) w
        | Some (Dir _) => (Raise IsADirectoryError, w)
        | None => (Raise FileNotFoundError, w)
        end
    | Raise e => (Raise e, w)
    end.

(** [rmdir(path)], the local function of [clear_dirs]: it empties the
    directory, its sub-directories first, and removes it. *)
Definition rmdir (name : string) : io unit :=
  fun w =>
    match entries w with
    | Ok es => set_entries (remove_key name es) w
    | Raise e => (Raise e, w)
    end.

(** [clear_dirs(package_path)]: only [FileNotFoundError] is caught around
    the removal of [__init__.py]; the files beside it stay. *)
Definition clear_dirs : io unit :=
  _ <~ (fun w =>
          match unlink "__init__.py" w with
          | (Raise FileNotFoundError, w') => (Ok tt, w')
          | r => r
          end) ;;
  es <~ (fun w => (entries w, w)) ;;
  for_each (fun sub => if is_dir (snd sub) then rmdir (fst sub) else ret tt) es.

Definition is_str (s : string) (j : json) : bool :=
  match j with
  | JStr s' => String.eqb s' s
  | _ => false
  end.

(** [parse(json_path, output_path)]: the assertion on the version comes
    before any domain is built. *)
Definition parse (json_path : string) : io (list CdpDomain.t) :=
  fun w =>
    match Json.assoc json_path (build w) with
    | None => (Raise FileNotFoundError, w)
    | Some schema =>
        (version <- Json.getitem schema "version" ;;
         major <- Json.getitem version "major" ;;
         minor <- Json.getitem version "minor" ;;
         if is_str "1" major && is_str "3" minor then
           ds <- Json.getitem schema "domains" ;;
           ds <- Json.as_list (Some ds) ;;
           mapM CdpDomain.from_json ds
         else Raise AssertionError,
         w)
    end.

(** [path.open('w')]: the file is there and empty from then on. *)
Definition open_w (name : string) : io unit :=
  fun w =>
    match entries w with
    | Ok es =>
        match Json.assoc name es with
        | Some (Dir _) => (Raise IsADirectoryError, w)
        | _ => set_entries (Sem.set_key name (File "") es) w
        end
    | Raise e => (Raise e, w)
    end.

(** [file.write(text)] on a file that was opened. *)
Definition write (name text : string) : io unit :=
  fun w =>
    match entries w with
    | Ok es =>
        match Json.assoc name es with
        | Some (File old) => set_entries (Sem.set_key name (File (old ++ text)) es) w
        | _ => (Raise FileNotFoundError, w)
        end
    | Raise e => (Raise e, w)
    end.

(** [path.touch()]. *)
Definition touch (name : string) : io unit :=
  fun w =>
    match entries w with
    | Ok es =>
        match Json.assoc name es with
        | Some _ => (Ok tt, w)
        | None => set_entries (Sem.set_key name (File "") es) w
        end
    | Raise e => (Raise e, w)
    end.

Definition generate_init (domains : list CdpDomain.t) : io unit :=
  _ <~ open_w "__init__.py" ;;
  _ <~ write "__init__.py" INIT_HEADER ;;
  _ <~ write "__init__.py" ("import cdp.util" ++ nl ++ nl) ;;
  for_each (fun d => write "__init__.py" ("import cdp." ++ CdpDomain.module d ++ nl))
           domains.

(** The module of one domain: the file is opened before the code is
    generated. *)
Definition write_module (d : CdpDomain.t) : io unit :=
  let module_path := CdpDomain.module d ++ ".py" in
  _ <~ open_w module_path ;;
  code <~ lift (CdpDomain.generate_code d) ;;
  write module_path code.

Definition json_paths : list string :=
  ["browser_protocol.json"; "js_protocol.json"].

Fixpoint parse_all (paths : list string) : io (list CdpDomain.t) :=
  match paths with
  | [] => ret []
  | p :: ps =>
      ds <~ parse p ;;
      rest <~ parse_all ps ;;
      ret (ds ++ rest)%list
  end.

(** The second half of [main]: the domains are sorted on their names, and
    the modules, [__init__.py] and [py.typed] are written. *)
Definition write_all (domains : list CdpDomain.t) : io unit :=
  let domains := sort_by_key CdpDomain.domain PyStr.ltb domains in
  _ <~ for_each write_module domains ;;
  _ <~ generate_init domains ;;
  touch "py.typed".

Definition main : io unit :=
  _ <~ mkdir_exist_ok ;;
  _ <~ clear_dirs ;;
  domains <~ parse_all json_paths ;;
  write_all domains.

End Driver.

(** ** The words of the specification *)

Module Spec.

(** Section 4.2: the three shapes of a type, and the decision between
    them, first match first. *)
Inductive shape : Type := Enumeration | Composite | PrimitiveWrapper.

Definition classify (t0 : CdpType.t) : shape :=
  match CdpType.enum t0 with
  | Some (_ :: _) => Enumeration
  | _ =>
      match CdpType.properties t0 with
      | _ :: _ => Composite
      | [] => PrimitiveWrapper
      end
  end.

(** What is emitted for a type of each shape: the class of an enumeration,
    a dataclass, or the wrapper of a primitive type. *)
Definition emit (s : shape) (t0 : CdpType.t) : result string :=
  match s with
  | Enumeration => fmap Py.print_enumclass (Ast.enumclass t0)
  | Composite => fmap Py.print_dataclass (Ast.dataclass t0)
  | PrimitiveWrapper => CdpType.generate_primitive_code t0
  end.

(** Section 4.3: required fields, then optional fields, each group in the
    order of the schema. *)
Definition required (ps : list CdpProperty.t) : list CdpProperty.t :=
  filter (fun p => negb (CdpProperty.optional p)) ps.

Definition optional (ps : list CdpProperty.t) : list CdpProperty.t :=
  filter CdpProperty.optional ps.

Definition required_first (ps : list CdpProperty.t) : list CdpProperty.t :=
  (required ps ++ optional ps)%list.

(** Section 3: a property has a scalar kind, a reference, or items; the
    reference it carries is its own, or that of its items. *)
Definition reference (p : CdpProperty.t) : option string :=
  match CdpProperty.items p with
  | Some it => truthy (CdpItems.ref it)
  | None => truthy (CdpProperty.ref p)
  end.

End Spec.

(** ** The inputs of the tests of [test_generate.py] *)

Definition test_cdp_primitive_type_json : json :=
  JObj [("id", JStr "AXNodeId");
        ("description", JStr "Unique accessibility node identifier.");
        ("type", JStr "string")].

Definition test_cdp_array_of_primitive_type_json : json :=
  JObj [("id", JStr "ArrayOfStrings");
        ("description", JStr "Index of the string in the strings table.");
        ("type", JStr "array");
        ("items", JObj [("$ref", JStr "StringIndex")])].

Definition test_cdp_enum_type_json : json :=
  JObj [("id", JStr "AXValueSourceType");
        ("description", JStr "Enum of possible property sources.");
        ("type", JStr "string");
        ("enum", JArr [JStr "attribute";
          JStr "implicit";
          JStr "style";
          JStr "contents";
          JStr "placeholder";
          JStr "relatedElement"])].

Definition test_cdp_class_type_json : json :=
  JObj [("id", JStr "AXValue");
        ("description", JStr "A single computed AX property.");
        ("type", JStr "object");
        ("properties", JArr [JObj [("name", JStr "type");
            ("description", JStr "The type of this value.");
            ("$ref", JStr "AXValueType")];
          JObj [("name", JStr "value");
            ("description", JStr "The computed value of this property.");
            ("optional", JBool true);
            ("type", JStr "any")];
          JObj [("name", JStr "relatedNodes");
            ("description", JStr "One or more related nodes, if applicable.");
            ("optional", JBool true);
            ("type", JStr "array");
            ("items", JObj [("$ref", JStr "AXRelatedNode")])];
          JObj [("name", JStr "sources");
            ("description", JStr "The sources which contributed to the computation of this property.");
            ("optional", JBool true);
            ("type", JStr "array");
            ("items", JObj [("$ref", JStr "AXValueSource")])]])].

Definition test_cdp_command_json : json :=
  JObj [("name", JStr "getPartialAXTree");
        ("description", JStr "Fetches the accessibility node and partial accessibility tree for this DOM node, if it exists.");
        ("experimental", JBool true);
        ("parameters", JArr [JObj [("name", JStr "nodeId");
            ("description", JStr "Identifier of the node to get the partial accessibility tree for.");
            ("optional", JBool true);
            ("$ref", JStr "DOM.NodeId")];
          JObj [("name", JStr "backendNodeId");
            ("description", JStr "Identifier of the backend node to get the partial accessibility tree for.");
            ("optional", JBool true);
            ("$ref", JStr "DOM.BackendNodeId")];
          JObj [("name", JStr "objectId");
            ("description", JStr "JavaScript object id of the node wrapper to get the partial accessibility tree for.");
            ("optional", JBool true);
            ("$ref", JStr "Runtime.RemoteObjectId")];
          JObj [("name", JStr "fetchRelatives");
            ("description", JStr "Whether to fetch this nodes ancestors, siblings and children. Defaults to true.");
            ("optional", JBool true);
            ("type", JStr "boolean")]]);
        ("returns", JArr [JObj [("name", JStr "nodes");
            ("description", JStr "The `Accessibility.AXNode` for this DOM node, if it exists, plus its ancestors, siblings and
children, if requested.");
            ("type", JStr "array");
            ("items", JObj [("$ref", JStr "AXNode")])]])].

Definition test_cdp_command_no_params_or_returns_json : json :=
  JObj [("name", JStr "disable");
        ("description", JStr "Disables the accessibility domain.")].

Definition test_cdp_command_return_primitive_json : json :=
  JObj [("name", JStr "getCurrentTime");
        ("description", JStr "Returns the current time of the an animation.");
        ("parameters", JArr [JObj [("name", JStr "id");
            ("description", JStr "Id of animation.");
            ("type", JStr "string")]]);
        ("returns", JArr [JObj [("name", JStr "currentTime");
            ("description", JStr "Current time of the page.");
            ("type", JStr "number")]])].

Definition test_cdp_command_return_array_of_primitive_json : json :=
  JObj [("name", JStr "getBrowserCommandLine");
        ("description", JStr "Returns the command line switches for the browser process if, and only if
--enable-automation is on the commandline.");
        ("experimental", JBool true);
        ("returns", JArr [JObj [("name", JStr "arguments");
            ("description", JStr "Commandline parameters");
            ("type", JStr "array");
            ("items", JObj [("type", JStr "string")])]])].

Definition test_cdp_command_array_of_primitive_parameter_json : json :=
  JObj [("name", JStr "releaseAnimations");
        ("description", JStr "Releases a set of animations to no longer be manipulated.");
        ("parameters", JArr [JObj [("name", JStr "animations");
            ("description", JStr "List of animation ids to seek.");
            ("type", JStr "array");
            ("items", JObj [("type", JStr "string")])]])].

Definition test_cdp_command_ref_parameter_json : json :=
  JObj [("name", JStr "resolveAnimation");
        ("description", JStr "Gets the remote object of the Animation.");
        ("parameters", JArr [JObj [("name", JStr "animationId");
            ("description", JStr "Animation id.");
            ("type", JStr "string")]]);
        ("returns", JArr [JObj [("name", JStr "remoteObject");
            ("description", JStr "Corresponding remote object.");
            ("$ref", JStr "Runtime.RemoteObject")]])].

Definition test_cdp_command_multiple_return_json : json :=
  JObj [("name", JStr "getEncodedResponse");
        ("description", JStr "Returns the response body and size if it were re-encoded with the specified settings. Only
applies to images.");
        ("parameters", JArr [JObj [("name", JStr "requestId");
            ("description", JStr "Identifier of the network request to get content for.");
            ("$ref", JStr "Network.RequestId")];
          JObj [("name", JStr "encoding");
            ("description", JStr "The encoding to use.");
            ("type", JStr "string");
            ("enum", JArr [JStr "webp";
              JStr "jpeg";
              JStr "png"])];
          JObj [("name", JStr "quality");
            ("description", JStr "The quality of the encoding (0-1). (defaults to 1)");
            ("optional", JBool true);
            ("type", JStr "number")];
          JObj [("name", JStr "sizeOnly");
            ("description", JStr "Whether to only return the size information (defaults to false).");
            ("optional", JBool true);
            ("type", JStr "boolean")]]);
        ("returns", JArr [JObj [("name", JStr "body");
            ("description", JStr "The encoded body as a base64 string. Omitted if sizeOnly is true.");
            ("optional", JBool true);
            ("type", JStr "string")];
          JObj [("name", JStr "originalSize");
            ("description", JStr "Size before re-encoding.");
            ("type", JStr "integer")];
          JObj [("name", JStr "encodedSize");
            ("description", JStr "Size after re-encoding.");
            ("type", JStr "integer")]])].

Definition test_cdp_command_array_of_ref_parameter_json : json :=
  JObj [("name", JStr "grantPermissions");
        ("description", JStr "Grant specific permissions to the given origin and reject all others.");
        ("experimental", JBool true);
        ("parameters", JArr [JObj [("name", JStr "origin");
            ("type", JStr "string")];
          JObj [("name", JStr "permissions");
            ("type", JStr "array");
            ("items", JObj [("$ref", JStr "PermissionType")])];
          JObj [("name", JStr "browserContextId");
            ("description", JStr "BrowserContext to override permissions. When omitted, default browser context is used.");
            ("optional", JBool true);
            ("$ref", JStr "Target.BrowserContextID")]])].

Definition test_cdp_event_json : json :=
  JObj [("name", JStr "recordingStateChanged");
        ("description", JStr "Called when the recording state for the service has been updated.");
        ("parameters", JArr [JObj [("name", JStr "isRecording");
            ("type", JStr "boolean")];
          JObj [("name", JStr "service");
            ("$ref", JStr "ServiceName")]])].
(** The example of the specification: properties A (optional), B
    (required), C (optional), D (required), in this order. *)
Definition abcd_property (name : string) (optional : bool) : CdpProperty.t :=
  CdpProperty.mk name None (Some "integer") None None None optional.

Definition abcd : CdpType.t :=
  CdpType.mk "Abcd" None (Some "object") None None
    [abcd_property "A" true; abcd_property "B" false;
     abcd_property "C" true; abcd_property "D" false].

(** An event whose first parameter is optional and whose second parameter
    is required. *)
Definition optional_first : CdpEvent.t :=
  CdpEvent.mk "loaded" None
    [CdpProperty.mk "a" None (Some "integer") None None None true;
     CdpProperty.mk "b" None (Some "integer") None None None false]
    "Page".

Definition optional_first_code : string :=
"@event_class('Page.loaded')
@dataclass
class Loaded:
    a: typing.Optional[int]
    b: int

    @classmethod
    def from_json(cls, json: T_JSON_DICT) -> 'Loaded':
        return cls(
            a=int(json['a'] if 'a' in json else None),
            b=int(json['b'])
        )".


(** Section 4.3 and Section 4.4 of the specification: the wire form of a
    field, and the request of a command. *)
Module SpecWire.

Import Sem.

Section Runtime.

Variable to_json_of : value -> result value.

(** To-wire: scalar fields verbatim, fields of a referenced type through
    their own to-wire, repeated fields element by element. *)
Definition to_wire (p : CdpProperty.t) (v : value) : result value :=
  match CdpProperty.items p with
  | Some it =>
      vs <- iterate v ;;
      match truthy (CdpItems.ref it) with
      | Some _ => fmap VList (mapM to_json_of vs)
      | None => Ok (VList vs)
      end
  | None =>
      match truthy (CdpProperty.ref p) with
      | Some _ => to_json_of v
      | None => Ok v
      end
  end.

(** One parameter put into the mapping: left out when it is optional and
    bound to [None]. *)
Definition put (args : env) (params : list (string * value))
    (p : CdpProperty.t) : result (list (string * value)) :=
  v <- lookup (CdpProperty.py_name p) args ;;
  match CdpProperty.optional p, v with
  | true, VNone => Ok params
  | _, _ =>
      w <- to_wire p v ;;
      Ok (set_key (CdpProperty.name p) w params)
  end.

(** The request: the method ["{domain}.{commandName}"], and the mapping of
    the parameters when the command has parameters. *)
Definition request (c : CdpCommand.t) (args : env) : result value :=
  let method := VStr (CdpCommand.domain c ++ "." ++ CdpCommand.name c) in
  match CdpCommand.parameters c with
  | [] => Ok (VDict [("method", method)])
  | ps =>
      params <- foldM (put args) [] ps ;;
      Ok (VDict [("method", method); ("params", VDict params)])
  end.

(** The invocation with the supplied parameters: an optional parameter that
    is not supplied is bound to the absent-marker; supplying what is no
    parameter of the command, or not supplying a required parameter, is a
    [TypeError]. *)
Definition invoke (c : CdpCommand.t) (supplied : env) : result value :=
  args <- bind_arguments
            (map (fun p => (CdpProperty.py_name p, CdpProperty.optional p))
                 (CdpCommand.parameters c))
            supplied ;;
  request c args.

End Runtime.

End SpecWire.

(** A package in which every referenced class wraps a primitive type: its
    [to_json] returns the value and its [from_json] builds it from the
    value, as [CdpType.generate_primitive_code] emits them. *)
Definition wrapper_to_json (v : Sem.value) : result Sem.value := Ok v.

Definition wrapper_from_json (cls : string) (v : Sem.value) : result Sem.value :=
  Ok v.

(** A composite type whose wire names are their own snake case: an optional
    label and a required abscissa. *)
Definition labelled : CdpType.t :=
  CdpType.mk "Labelled" None (Some "object") None None
    [CdpProperty.mk "label" None (Some "string") None None None true;
     CdpProperty.mk "x" None (Some "integer") None None None false].

(** The command of the specification: a required and an optional integer
    parameter, no result. *)
Definition move_to : CdpCommand.t :=
  CdpCommand.mk "moveTo" None false
    [CdpProperty.mk "x" None (Some "integer") None None None false;
     CdpProperty.mk "y" None (Some "integer") None None None true]
    [] "Input".

(** The command of the specification with two results. *)
Definition get_pair : CdpCommand.t :=
  CdpCommand.mk "getPair" None false []
    [CdpProperty.mk "p" None (Some "string") None None None false;
     CdpProperty.mk "q" None (Some "integer") None None None false]
    "Input".

(** Section 6 of the specification: the version pair of a description
    differs from [("1", "3")]. *)
Definition version_differs (schema : json) : Prop :=
  exists version major minor,
    Json.getitem schema "version" = Ok version
    /\ Json.getitem version "major" = Ok major
    /\ Json.getitem version "minor" = Ok minor
    /\ (major, minor) <> (JStr "1", JStr "3").

(** A description of version 1.3 with one domain, a description of version
    1.2, and a package directory left by an earlier run. *)
Definition current_schema : json :=
  JObj [("version", JObj [("major", JStr "1"); ("minor", JStr "3")]);
        ("domains", JArr [JObj [("domain", JStr "DOM")]])].

Definition old_schema : json :=
  JObj [("version", JObj [("major", JStr "1"); ("minor", JStr "2")]);
        ("domains", JArr [])].

Definition earlier_run : Driver.world :=
  Driver.mk_world
    [("browser_protocol.json", current_schema); ("js_protocol.json", old_schema)]
    (Some (Driver.Dir
             [("__init__.py", Driver.File "import cdp.dom");
              ("util.py", Driver.File "T_JSON_DICT = dict");
              ("dom.py", Driver.File "class NodeId(int): pass");
              ("__pycache__", Driver.Dir [("dom.pyc", Driver.File "")])])).



(** ** What can be generated

    The generators raise [KeyError] on a scalar kind that is not one of the
    six primitive types and [ValueError] on a reference with two dots or
    more.  These predicates say when neither happens. *)

Module Wf.

(** A reference [ref_to_python] accepts. *)
Definition resolves (r : string) : bool := Nat.leb (count "." r) 1.

(** The name of a member of [CdpPrimitiveType]. *)
Definition primitive (ty : option string) : bool :=
  match ty with
  | Some n =>
      existsb (String.eqb n)
        ["any"; "boolean"; "integer"; "number"; "object"; "string"]
  | None => false
  end.

(** Items: a reference that resolves, or else a primitive type. *)
Definition items (it : CdpItems.t) : bool :=
  match truthy (CdpItems.ref it) with
  | Some r => resolves r
  | None => primitive (CdpItems.type it)
  end.

(** A property that has an annotation: items, or else a reference that
    resolves, or else a primitive type. *)
Definition annotation (p : CdpProperty.t) : bool :=
  match CdpProperty.items p with
  | Some it => items it
  | None =>
      match truthy (CdpProperty.ref p) with
      | Some r => resolves r
      | None => primitive (CdpProperty.type p)
      end
  end.

Definition type (t0 : CdpType.t) : bool :=
  match CdpType.enum t0 with
  | Some (_ :: _) => true
  | _ =>
      match CdpType.properties t0 with
      | _ :: _ => forallb annotation (CdpType.properties t0)
      | [] =>
          match CdpType.items t0 with
          | Some it => items it
          | None => primitive (CdpType.type t0)
          end
      end
  end.

Definition command (c : CdpCommand.t) : bool :=
  forallb annotation (CdpCommand.returns c)
  && forallb annotation (CdpCommand.parameters c).

Definition event (e : CdpEvent.t) : bool :=
  forallb annotation (CdpEvent.parameters e).

End Wf.

(** A domain whose one type has a kind that is no primitive type. *)
Definition unknown_kind : CdpDomain.t :=
  CdpDomain.mk "Page" false []
    [CdpType.mk "Frame" None (Some "nothing") None None []] [] [].

(** A composite type whose one property has a wire name in camel case. *)
Definition camel_case : CdpType.t :=
  CdpType.mk "Node" None (Some "object") None None
    [CdpProperty.mk "nodeId" None (Some "integer") None None None false].


(** The description of a domain with a command and an event. *)
Definition dom_json : json :=
  JObj [("domain", JStr "DOM");
        ("commands", JArr [JObj [("name", JStr "enable")]]);
        ("events", JArr [JObj [("name", JStr "documentUpdated")]])].

(** A second description of version 1.3, and a directory [build] with two
    descriptions of that version, before the first run. *)
Definition js_schema : json :=
  JObj [("version", JObj [("major", JStr "1"); ("minor", JStr "3")]);
        ("domains", JArr [JObj [("domain", JStr "CSS")]])].

Definition first_run : Driver.world :=
  Driver.mk_world
    [("browser_protocol.json", current_schema); ("js_protocol.json", js_schema)]
    None.

(** The text of [__init__.py] for the domains in this order. *)
Definition init_text (domains : list CdpDomain.t) : string :=
  INIT_HEADER ++ "import cdp.util" ++ nl ++ nl
  ++ concat_all (map (fun d => "import cdp." ++ CdpDomain.module d ++ nl) domains).

(** An instance of the dataclass of a composite type: the fields in the
    order of the declarations, the field of the property with the wire name
    [x] holding [val x]; and what one property adds to the dictionary of
    [to_json] when its value is written as it is. *)
Definition instance_of (t0 : CdpType.t) (val : string -> Sem.value) : Sem.value :=
  Sem.VObj (CdpType.id t0)
    (map (fun p => (CdpProperty.py_name p, val (CdpProperty.name p)))
         (CdpType.sorted_props t0)).

(** A property that is written and read as it is. *)
Definition scalar (p : CdpProperty.t) : Prop :=
  CdpProperty.items p = None /\ truthy (CdpProperty.ref p) = None.

Definition put_field (val : string -> Sem.value) (m : list (string * Sem.value))
    (p : CdpProperty.t) : list (string * Sem.value) :=
  match CdpProperty.optional p, val (CdpProperty.name p) with
  | true, Sem.VNone => m
  | _, v => Sem.set_key (CdpProperty.name p) v m
  end.

(** ** The module [cdp/media.py]

    The classes of the domain Media whose values are strings and lists:
    the wrapper [PlayerId], the dataclasses [PlayerMessage],
    [PlayerProperty] and [PlayerError], and the events that carry them.
    [Timestamp], a [float], and what holds one are left out. *)

Module Media.

Import Sem.

(** [str(v)]. *)
Definition str (v : value) : result value := call CdpPrimitiveType.string v.

(** [class PlayerId(str)]: [cls(json)] is the conversion to a string. *)
Module PlayerId.

Definition to_json (self : value) : result value := Ok self.

Definition from_json (json : value) : result value := str json.

End PlayerId.

Module PlayerMessage.

Definition init (level message : value) : value :=
  VObj "PlayerMessage" [("level", level); ("message", message)].

Definition to_json (self : value) : result value :=
  let json := VDict [] in
  v <- getattr self "level" ;;
  json <- setitem json "level" v ;;
  v <- getattr self "message" ;;
  json <- setitem json "message" v ;;
  Ok json.

Definition from_json (json : value) : result value :=
  level <- (v <- getitem json "level" ;; str v) ;;
  message <- (v <- getitem json "message" ;; str v) ;;
  Ok (init level message).

End PlayerMessage.

Module PlayerProperty.

Definition init (name value : Sem.value) : Sem.value :=
  VObj "PlayerProperty" [("name", name); ("value", value)].

Definition to_json (self : Sem.value) : result Sem.value :=
  let json := VDict [] in
  v <- getattr self "name" ;;
  json <- setitem json "name" v ;;
  v <- getattr self "value" ;;
  json <- setitem json "value" v ;;
  Ok json.

Definition from_json (json : Sem.value) : result Sem.value :=
  name <- (v <- getitem json "name" ;; str v) ;;
  value <- (v <- getitem json "value" ;; str v) ;;
  Ok (init name value).

End PlayerProperty.

(** The fields [type_] and [error_code] go under the keys [type] and
    [errorCode]. *)
Module PlayerError.

Definition init (type_ error_code : value) : value :=
  VObj "PlayerError" [("type_", type_); ("error_code", error_code)].

Definition to_json (self : value) : result value :=
  let json := VDict [] in
  v <- getattr self "type_" ;;
  json <- setitem json "type" v ;;
  v <- getattr self "error_code" ;;
  json <- setitem json "errorCode" v ;;
  Ok json.

Definition from_json (json : value) : result value :=
  type_ <- (v <- getitem json "type" ;; str v) ;;
  error_code <- (v <- getitem json "errorCode" ;; str v) ;;
  Ok (init type_ error_code).

End PlayerError.

(** [[f(i) for i in json[key]]]. *)
Definition list_from_json (f : value -> result value) (json : value)
    (key : string) : result value :=
  v <- getitem json key ;;
  l <- iterate v ;;
  l <- mapM f l ;;
  Ok (VList l).

Module PlayerPropertiesChanged.

Definition from_json (json : value) : result value :=
  player_id <- (v <- getitem json "playerId" ;; PlayerId.from_json v) ;;
  properties <- list_from_json PlayerProperty.from_json json "properties" ;;
  Ok (VObj "PlayerPropertiesChanged"
        [("player_id", player_id); ("properties", properties)]).

End PlayerPropertiesChanged.

Module PlayerMessagesLogged.

Definition from_json (json : value) : result value :=
  player_id <- (v <- getitem json "playerId" ;; PlayerId.from_json v) ;;
  messages <- list_from_json PlayerMessage.from_json json "messages" ;;
  Ok (VObj "PlayerMessagesLogged"
        [("player_id", player_id); ("messages", messages)]).

End PlayerMessagesLogged.

Module PlayerErrorsRaised.

Definition from_json (json : value) : result value :=
  player_id <- (v <- getitem json "playerId" ;; PlayerId.from_json v) ;;
  errors <- list_from_json PlayerError.from_json json "errors" ;;
  Ok (VObj "PlayerErrorsRaised"
        [("player_id", player_id); ("errors", errors)]).

End PlayerErrorsRaised.

Module PlayersCreated.

Definition from_json (json : value) : result value :=
  players <- list_from_json PlayerId.from_json json "players" ;;
  Ok (VObj "PlayersCreated" [("players", players)]).

End PlayersCreated.

End Media.

(** ** What the generator supposes of a description

    The generator checks none of this; where it does not hold the emitted
    text is no Python, or is Python that does something else than the text
    was written for. *)

Module Valid.

(** A reference: the name of a type, or the name of a domain, a dot and
    the name of a type.  It is written between quotes into an annotation,
    which [typing] compiles as an expression, and as it is into the call of
    [from_json]. *)
Definition reference (r : option string) : bool :=
  match truthy r with
  | Some s =>
      match split "." s with
      | [subtype] => Py.identifier subtype
      | [domain; subtype] =>
          Py.identifier (underscore domain) && Py.identifier subtype
      | _ => false
      end
  | None => true
  end.

(** What is written of a property, parameter or result as text: its wire
    name between quotes, its description in a comment or docstring, its
    references. *)
Definition text (p : CdpProperty.t) : bool :=
  Py.plain (CdpProperty.name p)
  && Py.plain_doc (CdpProperty.description p)
  && reference (CdpProperty.ref p)
  && match CdpProperty.items p with
     | Some it => reference (CdpItems.ref it)
     | None => true
     end.

(** A property or parameter: its Python name is an identifier besides. *)
Definition property (p : CdpProperty.t) : bool :=
  Py.identifier (CdpProperty.py_name p) && text p.


(** A composite type: the class is not called [dict], the Python names of
    the properties are pairwise distinct, and none is a name the class body
    uses itself. *)
Definition composite (t0 : CdpType.t) : bool :=
  Py.identifier (CdpType.id t0)
  && negb (String.eqb (CdpType.id t0) "dict")
  && Py.plain_doc (CdpType.description t0)
  && forallb property (CdpType.properties t0)
  && Py.distinct (map CdpProperty.py_name (CdpType.properties t0))
  && forallb (fun p => negb (existsb (String.eqb (CdpProperty.py_name p))
                                     ("to_json" :: Sem.reserved)))
             (CdpType.properties t0).

(** No parameter without a default after one with a default: the
    signature has the parameters in the order of the schema, the optional
    ones with the default [None]. *)
Fixpoint defaults_last (ps : list CdpProperty.t) : bool :=
  match ps with
  | [] => true
  | p :: ps' =>
      if CdpProperty.optional p then forallb CdpProperty.optional ps'
      else defaults_last ps'
  end.

(** A command: the function is not called [dict], the Python names of the
    parameters are pairwise distinct, the required parameters come before
    the optional ones, and none is called [params] or [dict], the names
    the body of the function uses before it has read the parameters. *)
Definition command (c : CdpCommand.t) : bool :=
  Py.identifier (CdpCommand.py_name c)
  && negb (String.eqb (CdpCommand.py_name c) "dict")
  && Py.plain (CdpCommand.domain c)
  && Py.plain (CdpCommand.name c)
  && Py.plain_doc (CdpCommand.description c)
  && forallb property (CdpCommand.parameters c)
  && forallb text (CdpCommand.returns c)
  && Py.distinct (map CdpProperty.py_name (CdpCommand.parameters c))
  && defaults_last (CdpCommand.parameters c)
  && forallb (fun p => negb (existsb (String.eqb (CdpProperty.py_name p))
                                     ["params"; "dict"]))
             (CdpCommand.parameters c).

End Valid.



(** The type of [test_cdp_class_type], loaded. *)
Definition ax_value : CdpType.t :=
  CdpType.mk "AXValue" (Some "A single computed AX property.") (Some "object")
    None None
    [CdpProperty.mk "type" (Some "The type of this value.") None
       (Some "AXValueType") None None false;
     CdpProperty.mk "value" (Some "The computed value of this property.")
       (Some "any") None None None true;
     CdpProperty.mk "relatedNodes"
       (Some "One or more related nodes, if applicable.") (Some "array") None
       None (Some (CdpItems.mk None (Some "AXRelatedNode"))) true;
     CdpProperty.mk "sources"
       (Some "The sources which contributed to the computation of this property.")
       (Some "array") None None
       (Some (CdpItems.mk None (Some "AXValueSource"))) true].

(** * Properties *)

(** ** Strings and results *)

Lemma append_assoc (a b c : string) : (a ++ b) ++ c = a ++ (b ++ c).
Proof.
  induction a as [|x a IH]; simpl; [reflexivity|].
  now rewrite IH.
Qed.

Lemma append_nil_r (a : string) : a ++ "" = a.
Proof.
  induction a as [|x a IH]; simpl; [reflexivity|].
  now rewrite IH.
Qed.

Lemma bind_ok {A B : Type} (m : result A) (k : A -> result B) (b : B) :
  (x <- m ;; k x) = Ok b -> exists a, m = Ok a /\ k a = Ok b.
Proof.
  destruct m as [a|e]; simpl; intros H; [exists a; auto | discriminate].
Qed.

Lemma mapM_ext {A B : Type} (f g : A -> result B) (l : list A) :
  (forall a, In a l -> f a = g a) -> mapM f l = mapM g l.
Proof.
  induction l as [|a l IH]; intros H; simpl; [reflexivity|].
  rewrite (H a (or_introl eq_refl)), IH; [reflexivity|].
  intros b Hb. apply H. now right.
Qed.

(** A generator expression whose items are [g] of the items of another
    one raises the same exceptions. *)
Lemma mapM_fmap {A B C : Type} (f : A -> result B) (g : B -> C) (l : list A) :
  mapM (fun a => b <- f a ;; Ok (g b)) l = fmap (map g) (mapM f l).
Proof.
  induction l as [|a l IH]; simpl; [reflexivity|].
  destruct (f a) as [b|e]; simpl; [|reflexivity].
  rewrite IH. unfold fmap. destruct (mapM f l); reflexivity.
Qed.


Lemma mapM_length {A B : Type} (f : A -> result B) (l : list A) (bs : list B) :
  mapM f l = Ok bs -> List.length bs = List.length l.
Proof.
  revert bs. induction l as [|a l IH]; simpl; intros bs H.
  - now inversion H.
  - destruct (f a); simpl in H; [|discriminate].
    destruct (mapM f l); simpl in H; [|discriminate].
    inversion H. simpl. now rewrite (IH _ eq_refl).
Qed.

Lemma mapM_raise {A B : Type} (f : A -> result B) (l : list A) (a : A) :
  In a l -> is_ok (f a) = false -> is_ok (mapM f l) = false.
Proof.
  induction l as [|x l IH]; simpl; [tauto|].
  intros [->|Hin] Ha.
  - destruct (f a); [discriminate|reflexivity].
  - destruct (f x); simpl; [|reflexivity].
    specialize (IH Hin Ha). destruct (mapM f l); [discriminate|reflexivity].
Qed.

(** ** The printed syntax is the generated text *)

Ltac assoc :=
  unfold nl, dq, chr;
  repeat first [rewrite append_assoc | progress simpl].

Lemma print_to_json (p : CdpProperty.t) (dict_ : string) (use_self : bool) :
  Py.print_stmt (Ast.to_json p dict_ use_self)
  = CdpProperty.generate_to_json p dict_ use_self.
Proof.
  unfold Ast.to_json, CdpProperty.generate_to_json, Ast.to_json_value,
    CdpProperty.to_json_value.
  destruct (CdpProperty.optional p), (CdpProperty.items p) as [it|], use_self;
    try destruct (truthy (CdpItems.ref it));
    try destruct (truthy (CdpProperty.ref p));
    simpl; assoc; reflexivity.
Qed.

Lemma print_from_json (p : CdpProperty.t) (dict_ : string) :
  fmap Py.print_expr (Ast.from_json p dict_)
  = CdpProperty.generate_from_json p dict_.
Proof.
  unfold Ast.from_json, CdpProperty.generate_from_json, fmap.
  destruct (CdpProperty.items p) as [it|].
  - destruct (truthy (CdpItems.ref it)) as [r|].
    + destruct (ref_to_python r); simpl; [|reflexivity].
      destruct (CdpProperty.optional p); simpl; assoc; reflexivity.
    + destruct (CdpPrimitiveType.getitem (CdpItems.type it)); simpl; [|reflexivity].
      destruct (CdpProperty.optional p); simpl; assoc; reflexivity.
  - destruct (truthy (CdpProperty.ref p)) as [r|].
    + destruct (ref_to_python r); simpl; [|reflexivity].
      destruct (CdpProperty.optional p); simpl; assoc; reflexivity.
    + simpl. destruct (CdpProperty.optional p); simpl; assoc; reflexivity.
Qed.

Lemma print_property_field (p : CdpProperty.t) :
  fmap Py.print_field (Ast.property_field p) = CdpProperty.generate_decl p.
Proof.
  unfold Ast.property_field, CdpProperty.generate_decl, fmap, Py.print_field.
  destruct (CdpProperty.py_annotation p); simpl; [|reflexivity].
  destruct (CdpProperty.optional p); assoc; reflexivity.
Qed.

Lemma print_parameter_field (p : CdpParameter.t) :
  fmap Py.print_field (Ast.parameter_field p) = CdpParameter.generate_decl p.
Proof.
  unfold Ast.parameter_field, CdpParameter.generate_decl, fmap, Py.print_field.
  destruct (CdpProperty.py_annotation p); simpl; [|reflexivity].
  destruct (truthy (CdpProperty.description p)); assoc; reflexivity.
Qed.

Lemma print_converted (p : CdpProperty.t) (e : Py.expr) :
  Py.print_expr (Ast.converted p e)
  = match CdpPrimitiveType.getitem (CdpProperty.type p) with
    | Ok prim => CdpPrimitiveType.value prim ++ "(" ++ Py.print_expr e ++ ")"
    | Raise _ => Py.print_expr e
    end.
Proof.
  unfold Ast.converted.
  destruct (CdpPrimitiveType.getitem (CdpProperty.type p)); reflexivity.
Qed.

Lemma print_parameter_from_json (p : CdpParameter.t) (dict_ : string) :
  fmap Py.print_kwarg (Ast.parameter_from_json p dict_)
  = CdpParameter.generate_from_json p dict_.
Proof.
  unfold Ast.parameter_from_json, CdpParameter.generate_from_json.
  rewrite <- print_from_json. unfold fmap, Py.print_kwarg.
  destruct (Ast.from_json p dict_) as [e|]; simpl; [|reflexivity].
  now rewrite print_converted.
Qed.


Lemma fmap_bind {A B C : Type} (m : result A) (g : A -> B) (k : B -> result C) :
  (y <- fmap g m ;; k y) = (x <- m ;; k (g x)).
Proof. destruct m; reflexivity. Qed.

(** The text of a composite type is the dataclass of [Ast.dataclass]. *)
Lemma print_dataclass_of_sorted (t0 : CdpType.t) :
  CdpType.generate_class_code t0
  = fmap Py.print_dataclass (Ast.dataclass t0).
Proof.
  unfold CdpType.generate_class_code, Ast.dataclass, Ast.dataclass_of.
  rewrite (mapM_ext _ (fun p => f <- Ast.property_field p ;;
                                Ok (indent (Py.print_field f) 4))).
  2:{ intros p _. rewrite <- print_property_field. unfold fmap.
      now destruct (Ast.property_field p). }
  rewrite mapM_fmap, fmap_bind.
  destruct (mapM Ast.property_field (CdpType.sorted_props t0)) as [fields|];
    [|reflexivity].
  cbn [bind].
  rewrite (mapM_ext _ (fun p => kw <- (e <- Ast.from_json p "json" ;;
                                       Ok (CdpProperty.name p, e)) ;;
                                Ok (Py.print_kwarg kw ++ ","))).
  2:{ intros p _. rewrite <- print_from_json. unfold fmap, Py.print_kwarg.
      destruct (Ast.from_json p "json"); simpl; [|reflexivity].
      now rewrite append_assoc. }
  rewrite mapM_fmap, fmap_bind.
  destruct (mapM _ (CdpType.properties t0)) as [kwargs|]; [|reflexivity].
  cbn [bind fmap]. unfold Py.print_dataclass, Py.print_doc.
  cbn [Py.dc_name Py.dc_doc Py.dc_fields Py.dc_to_json Py.dc_from_json].
  rewrite map_map.
  rewrite (map_ext _ _ (fun p => print_to_json p "json" true)).
  reflexivity.
Qed.

Lemma fold_left_map {A B C : Type} (f : A -> C -> A) (g : B -> C)
    (l : list B) (a : A) :
  fold_left f (map g l) a = fold_left (fun a x => f a (g x)) l a.
Proof.
  revert a. induction l as [|x l IH]; intros a; simpl; [reflexivity|].
  apply IH.
Qed.

(** The text of an enumeration is the class of [Ast.enumclass]. *)
Lemma print_enumclass_ok (t0 : CdpType.t) :
  CdpType.generate_enum_code t0 = fmap Py.print_enumclass (Ast.enumclass t0).
Proof.
  unfold CdpType.generate_enum_code, Ast.enumclass.
  destruct (CdpType.enum t0) as [members|]; [|reflexivity].
  cbn [bind fmap]. unfold Py.print_enumclass, Py.print_doc.
  cbn [Py.en_name Py.en_doc Py.en_members].
  rewrite fold_left_map. reflexivity.
Qed.

Lemma print_doc_docstring (code : string) (d : option string) :
  Py.print_doc code (docstring d)
  = match truthy d with
    | Some _ => code ++ indent (docstring d) 4 ++ nl
    | None => code
    end.
Proof.
  unfold Py.print_doc, docstring. destruct (truthy d); reflexivity.
Qed.

(** The text of an event is the class of [Ast.eventclass]. *)
Lemma print_eventclass_ok (e : CdpEvent.t) :
  CdpEvent.generate_code e = fmap Py.print_eventclass (Ast.eventclass e).
Proof.
  unfold CdpEvent.generate_code, Ast.eventclass.
  rewrite (mapM_ext CdpParameter.generate_decl
             (fun p => f <- Ast.parameter_field p ;; Ok (Py.print_field f))).
  2:{ intros p _. now rewrite <- print_parameter_field. }
  rewrite mapM_fmap, fmap_bind.
  destruct (mapM Ast.parameter_field (CdpEvent.parameters e)) as [fields|];
    [|reflexivity].
  cbn [bind].
  rewrite (mapM_ext (fun p => CdpParameter.generate_from_json p "json")
             (fun p => kw <- Ast.parameter_from_json p "json" ;;
                       Ok (Py.print_kwarg kw))).
  2:{ intros p _. now rewrite <- print_parameter_from_json. }
  rewrite mapM_fmap, fmap_bind.
  destruct (mapM _ (CdpEvent.parameters e)) as [kwargs|]; [|reflexivity].
  cbn [bind fmap]. unfold Py.print_eventclass.
  cbn [Py.ev_tag Py.ev_name Py.ev_doc Py.ev_fields Py.ev_from_json].
  rewrite print_doc_docstring.
  destruct (truthy (CdpEvent.description e));
    repeat rewrite append_assoc; reflexivity.
Qed.




(** ** The tests of [test_generate.py] *)

(** [test_docstring]. *)
Example test_docstring :
  docstring (Some "Values of AXProperty name:
- from 'busy' to 'roledescription': states which apply to every AX node
- from 'live' to 'root': attributes which apply to nodes in live regions
- from 'autocomplete' to 'valuetext': attributes which apply to widgets
- from 'checked' to 'selected': states which apply to widgets
- from 'activedescendant' to 'owns' - relationships between elements other than parent/child/sibling.")
  = "'''
Values of AXProperty name:
- from 'busy' to 'roledescription': states which apply to every AX node
- from 'live' to 'root': attributes which apply to nodes in live regions
- from 'autocomplete' to 'valuetext': attributes which apply to widgets
- from 'checked' to 'selected': states which apply to widgets
- from 'activedescendant' to 'owns' - relationships between elements other than parent/child/sibling.
'''".
Proof. vm_compute. reflexivity. Qed.

(** [test_cdp_primitive_type]. *)
Example test_cdp_primitive_type :
  (t <- CdpType.from_json test_cdp_primitive_type_json ;; CdpType.generate_code t)
  = Ok "class AXNodeId(str):
    '''
    Unique accessibility node identifier.
    '''
    def to_json(self) -> str:
        return self

    @classmethod
    def from_json(cls, json: str) -> 'AXNodeId':
        return cls(json)

    def __repr__(self):
        return 'AXNodeId({})'.format(super().__repr__())".
Proof. vm_compute. reflexivity. Qed.

(** [test_cdp_array_of_primitive_type]. *)
Example test_cdp_array_of_primitive_type :
  (t <- CdpType.from_json test_cdp_array_of_primitive_type_json ;; CdpType.generate_code t)
  = Ok "class ArrayOfStrings(list):
    '''
    Index of the string in the strings table.
    '''
    def to_json(self) -> typing.List['StringIndex']:
        return self

    @classmethod
    def from_json(cls, json: typing.List['StringIndex']) -> 'ArrayOfStrings':
        return cls(json)

    def __repr__(self):
        return 'ArrayOfStrings({})'.format(super().__repr__())".
Proof. vm_compute. reflexivity. Qed.

(** [test_cdp_enum_type]. *)
Example test_cdp_enum_type :
  (t <- CdpType.from_json test_cdp_enum_type_json ;; CdpType.generate_code t)
  = Ok ("class AXValueSourceType(enum.Enum):
    '''
    Enum of possible property sources.
    '''
    ATTRIBUTE = " ++ dq ++ "attribute" ++ dq ++ "
    IMPLICIT = " ++ dq ++ "implicit" ++ dq ++ "
    STYLE = " ++ dq ++ "style" ++ dq ++ "
    CONTENTS = " ++ dq ++ "contents" ++ dq ++ "
    PLACEHOLDER = " ++ dq ++ "placeholder" ++ dq ++ "
    RELATED_ELEMENT = " ++ dq ++ "relatedElement" ++ dq ++ "

    def to_json(self) -> str:
        return self.value

    @classmethod
    def from_json(cls, json: str) -> 'AXValueSourceType':
        return cls(json)").
Proof. vm_compute. reflexivity. Qed.

(** [test_cdp_class_type]. *)
Example test_cdp_class_type :
  (t <- CdpType.from_json test_cdp_class_type_json ;; CdpType.generate_code t)
  = Ok "@dataclass
class AXValue:
    '''
    A single computed AX property.
    '''
    #: The type of this value.
    type: 'AXValueType'

    #: The computed value of this property.
    value: typing.Optional[typing.Any] = None

    #: One or more related nodes, if applicable.
    related_nodes: typing.Optional[typing.List['AXRelatedNode']] = None

    #: The sources which contributed to the computation of this property.
    sources: typing.Optional[typing.List['AXValueSource']] = None

    def to_json(self) -> T_JSON_DICT:
        json: T_JSON_DICT = dict()
        json['type'] = self.type.to_json()
        if self.value is not None:
            json['value'] = self.value
        if self.related_nodes is not None:
            json['relatedNodes'] = [i.to_json() for i in self.related_nodes]
        if self.sources is not None:
            json['sources'] = [i.to_json() for i in self.sources]
        return json

    @classmethod
    def from_json(cls, json: T_JSON_DICT) -> 'AXValue':
        return cls(
            type=AXValueType.from_json(json['type']),
            value=json['value'] if 'value' in json else None,
            relatedNodes=[AXRelatedNode.from_json(i) for i in json['relatedNodes']] if 'relatedNodes' in json else None,
            sources=[AXValueSource.from_json(i) for i in json['sources']] if 'sources' in json else None,
        )".
Proof. vm_compute. reflexivity. Qed.

(** [test_cdp_command]. *)
Example test_cdp_command :
  (t <- CdpCommand.from_json test_cdp_command_json "Accessibility" ;; CdpCommand.generate_code t)
  = Ok "def get_partial_ax_tree(
        node_id: typing.Optional['dom.NodeId'] = None,
        backend_node_id: typing.Optional['dom.BackendNodeId'] = None,
        object_id: typing.Optional['runtime.RemoteObjectId'] = None,
        fetch_relatives: typing.Optional[bool] = None
    ) -> typing.Generator[T_JSON_DICT,T_JSON_DICT,typing.List['AXNode']]:
    '''
    Fetches the accessibility node and partial accessibility tree for this DOM node, if it exists.

    :param node_id: Identifier of the node to get the partial accessibility tree for.
    :param backend_node_id: Identifier of the backend node to get the partial accessibility tree for.
    :param object_id: JavaScript object id of the node wrapper to get the partial accessibility tree for.
    :param fetch_relatives: Whether to fetch this nodes ancestors, siblings and children. Defaults to true.
    :returns: The ``Accessibility.AXNode`` for this DOM node, if it exists, plus its ancestors, siblings and
    children, if requested.
    '''
    params: T_JSON_DICT = dict()
    if node_id is not None:
        params['nodeId'] = node_id.to_json()
    if backend_node_id is not None:
        params['backendNodeId'] = backend_node_id.to_json()
    if object_id is not None:
        params['objectId'] = object_id.to_json()
    if fetch_relatives is not None:
        params['fetchRelatives'] = fetch_relatives
    cmd_dict: T_JSON_DICT = {
        'method': 'Accessibility.getPartialAXTree',
        'params': params,
    }
    json = yield cmd_dict
    return [AXNode.from_json(i) for i in json['nodes']]".
Proof. vm_compute. reflexivity. Qed.

(** [test_cdp_command_no_params_or_returns]. *)
Example test_cdp_command_no_params_or_returns :
  (t <- CdpCommand.from_json test_cdp_command_no_params_or_returns_json "Accessibility" ;; CdpCommand.generate_code t)
  = Ok "def disable() -> typing.Generator[T_JSON_DICT,T_JSON_DICT,None]:
    '''
    Disables the accessibility domain.
    '''
    cmd_dict: T_JSON_DICT = {
        'method': 'Accessibility.disable',
    }
    json = yield cmd_dict".
Proof. vm_compute. reflexivity. Qed.

(** [test_cdp_command_return_primitive]. *)
Example test_cdp_command_return_primitive :
  (t <- CdpCommand.from_json test_cdp_command_return_primitive_json "Animation" ;; CdpCommand.generate_code t)
  = Ok "def get_current_time(
        id: str
    ) -> typing.Generator[T_JSON_DICT,T_JSON_DICT,float]:
    '''
    Returns the current time of the an animation.

    :param id: Id of animation.
    :returns: Current time of the page.
    '''
    params: T_JSON_DICT = dict()
    params['id'] = id
    cmd_dict: T_JSON_DICT = {
        'method': 'Animation.getCurrentTime',
        'params': params,
    }
    json = yield cmd_dict
    return float(json['currentTime'])".
Proof. vm_compute. reflexivity. Qed.

(** [test_cdp_command_return_array_of_primitive]. *)
Example test_cdp_command_return_array_of_primitive :
  (t <- CdpCommand.from_json test_cdp_command_return_array_of_primitive_json "Browser" ;; CdpCommand.generate_code t)
  = Ok "def get_browser_command_line() -> typing.Generator[T_JSON_DICT,T_JSON_DICT,typing.List[str]]:
    '''
    Returns the command line switches for the browser process if, and only if
    --enable-automation is on the commandline.

    :returns: Commandline parameters
    '''
    cmd_dict: T_JSON_DICT = {
        'method': 'Browser.getBrowserCommandLine',
    }
    json = yield cmd_dict
    return [str(i) for i in json['arguments']]".
Proof. vm_compute. reflexivity. Qed.

(** [test_cdp_command_array_of_primitive_parameter]. *)
Example test_cdp_command_array_of_primitive_parameter :
  (t <- CdpCommand.from_json test_cdp_command_array_of_primitive_parameter_json "Animation" ;; CdpCommand.generate_code t)
  = Ok "def release_animations(
        animations: typing.List[str]
    ) -> typing.Generator[T_JSON_DICT,T_JSON_DICT,None]:
    '''
    Releases a set of animations to no longer be manipulated.

    :param animations: List of animation ids to seek.
    '''
    params: T_JSON_DICT = dict()
    params['animations'] = [i for i in animations]
    cmd_dict: T_JSON_DICT = {
        'method': 'Animation.releaseAnimations',
        'params': params,
    }
    json = yield cmd_dict".
Proof. vm_compute. reflexivity. Qed.

(** [test_cdp_command_ref_parameter]. *)
Example test_cdp_command_ref_parameter :
  (t <- CdpCommand.from_json test_cdp_command_ref_parameter_json "Animation" ;; CdpCommand.generate_code t)
  = Ok "def resolve_animation(
        animation_id: str
    ) -> typing.Generator[T_JSON_DICT,T_JSON_DICT,'runtime.RemoteObject']:
    '''
    Gets the remote object of the Animation.

    :param animation_id: Animation id.
    :returns: Corresponding remote object.
    '''
    params: T_JSON_DICT = dict()
    params['animationId'] = animation_id
    cmd_dict: T_JSON_DICT = {
        'method': 'Animation.resolveAnimation',
        'params': params,
    }
    json = yield cmd_dict
    return runtime.RemoteObject.from_json(json['remoteObject'])".
Proof. vm_compute. reflexivity. Qed.

(** [test_cdp_command_multiple_return]. *)
Example test_cdp_command_multiple_return :
  (t <- CdpCommand.from_json test_cdp_command_multiple_return_json "Audits" ;; CdpCommand.generate_code t)
  = Ok "def get_encoded_response(
        request_id: 'network.RequestId',
        encoding: str,
        quality: typing.Optional[float] = None,
        size_only: typing.Optional[bool] = None
    ) -> typing.Generator[T_JSON_DICT,T_JSON_DICT,typing.Tuple[str, int, int]]:
    '''
    Returns the response body and size if it were re-encoded with the specified settings. Only
    applies to images.

    :param request_id: Identifier of the network request to get content for.
    :param encoding: The encoding to use.
    :param quality: The quality of the encoding (0-1). (defaults to 1)
    :param size_only: Whether to only return the size information (defaults to false).
    :returns: a tuple with the following items:
        0. body: (Optional) The encoded body as a base64 string. Omitted if sizeOnly is true.
        1. originalSize: Size before re-encoding.
        2. encodedSize: Size after re-encoding.
    '''
    params: T_JSON_DICT = dict()
    params['requestId'] = request_id.to_json()
    params['encoding'] = encoding
    if quality is not None:
        params['quality'] = quality
    if size_only is not None:
        params['sizeOnly'] = size_only
    cmd_dict: T_JSON_DICT = {
        'method': 'Audits.getEncodedResponse',
        'params': params,
    }
    json = yield cmd_dict
    return str(json['body'] if 'body' in json else None), int(json['originalSize']), int(json['encodedSize'])".
Proof. vm_compute. reflexivity. Qed.

(** [test_cdp_command_array_of_ref_parameter]. *)
Example test_cdp_command_array_of_ref_parameter :
  (t <- CdpCommand.from_json test_cdp_command_array_of_ref_parameter_json "Browser" ;; CdpCommand.generate_code t)
  = Ok "def grant_permissions(
        origin: str,
        permissions: typing.List['PermissionType'],
        browser_context_id: typing.Optional['target.BrowserContextID'] = None
    ) -> typing.Generator[T_JSON_DICT,T_JSON_DICT,None]:
    '''
    Grant specific permissions to the given origin and reject all others.

    :param origin:
    :param permissions:
    :param browser_context_id: BrowserContext to override permissions. When omitted, default browser context is used.
    '''
    params: T_JSON_DICT = dict()
    params['origin'] = origin
    params['permissions'] = [i.to_json() for i in permissions]
    if browser_context_id is not None:
        params['browserContextId'] = browser_context_id.to_json()
    cmd_dict: T_JSON_DICT = {
        'method': 'Browser.grantPermissions',
        'params': params,
    }
    json = yield cmd_dict".
Proof. vm_compute. reflexivity. Qed.

(** [test_cdp_event]. *)
Example test_cdp_event :
  (t <- CdpEvent.from_json test_cdp_event_json "BackgroundService" ;; CdpEvent.generate_code t)
  = Ok "@event_class('BackgroundService.recordingStateChanged')
@dataclass
class RecordingStateChanged:
    '''
    Called when the recording state for the service has been updated.
    '''
    is_recording: bool
    service: 'ServiceName'

    @classmethod
    def from_json(cls, json: T_JSON_DICT) -> 'RecordingStateChanged':
        return cls(
            is_recording=bool(json['isRecording']),
            service=ServiceName.from_json(json['service'])
        )".
Proof. vm_compute. reflexivity. Qed.

(** ** Shape of a type *)

(** C3: [CdpType.generate_code] decides the shape as Section 4.2 says,
    first match first: an enumeration when there are enumeration values,
    else a dataclass when there are properties, else the wrapper of a
    primitive type; the decision is a total function of the type, and a
    type with both enumeration values and properties is emitted as an
    enumeration. *)
Theorem C3_shape_precedence (t0 : CdpType.t) :
  CdpType.generate_code t0 = Spec.emit (Spec.classify t0) t0.
Proof.
  unfold CdpType.generate_code, Spec.classify, Spec.emit.
  destruct (CdpType.enum t0) as [[|v vs]|];
    destruct (CdpType.properties t0) as [|p ps] eqn:Hp;
    first [ reflexivity
          | apply print_enumclass_ok
          | apply print_dataclass_of_sorted ].
Qed.

Lemma classify_both (t0 : CdpType.t) (v : string) (vs : list string) :
  CdpType.enum t0 = Some (v :: vs) -> Spec.classify t0 = Spec.Enumeration.
Proof. unfold Spec.classify. now intros ->. Qed.

(** ** Order of the fields of a dataclass *)

Lemma insert_required (x : CdpProperty.t) (l : list CdpProperty.t) :
  CdpProperty.optional x = false ->
  insert_by_key CdpProperty.optional bool_lt x l = x :: l.
Proof.
  intros Hx. destruct l as [|y l]; simpl; [reflexivity|].
  rewrite Hx. unfold bool_lt. now rewrite andb_false_r.
Qed.

Lemma insert_optional (x : CdpProperty.t) (req opt : list CdpProperty.t) :
  CdpProperty.optional x = true ->
  Forall (fun p => CdpProperty.optional p = false) req ->
  Forall (fun p => CdpProperty.optional p = true) opt ->
  insert_by_key CdpProperty.optional bool_lt x (req ++ opt)%list
  = (req ++ x :: opt)%list.
Proof.
  intros Hx Hreq Hopt. induction Hreq as [|y req Hy _ IH]; simpl.
  - destruct Hopt as [|y opt Hy _]; simpl; [reflexivity|].
    now rewrite Hx, Hy.
  - now rewrite Hx, Hy, IH.
Qed.

Lemma required_all (ps : list CdpProperty.t) :
  Forall (fun p => CdpProperty.optional p = false) (Spec.required ps).
Proof.
  apply Forall_forall. intros p Hp. apply filter_In in Hp.
  now apply negb_true_iff.
Qed.

Lemma optional_all (ps : list CdpProperty.t) :
  Forall (fun p => CdpProperty.optional p = true) (Spec.optional ps).
Proof.
  apply Forall_forall. intros p Hp. now apply filter_In in Hp.
Qed.

(** The stable sort on [optional] puts the required properties first and
    keeps the order of the schema among the required and among the
    optional ones. *)
Lemma sort_required_first (ps : list CdpProperty.t) :
  sort_by_key CdpProperty.optional bool_lt ps = Spec.required_first ps.
Proof.
  unfold Spec.required_first.
  induction ps as [|x ps IH]; simpl; [reflexivity|].
  unfold sort_by_key in *. rewrite IH.
  destruct (CdpProperty.optional x) eqn:Hx; simpl.
  - apply insert_optional; auto using required_all, optional_all.
  - now apply insert_required.
Qed.

(** C2: for a composite type, the declarations of the fields (and the
    statements of [to_json]) follow all required properties in the order of
    the schema, then all optional properties in the order of the schema:
    the sort on [optional] is stable, and the emitted text is the dataclass
    built from the properties in that order. *)
Theorem C2_required_before_optional (t0 : CdpType.t) :
  Spec.classify t0 = Spec.Composite ->
  CdpType.sorted_props t0 = Spec.required_first (CdpType.properties t0)
  /\ CdpType.generate_code t0
     = fmap Py.print_dataclass
         (Ast.dataclass_of (Spec.required_first (CdpType.properties t0)) t0).
Proof.
  intros Hc. split.
  - apply sort_required_first.
  - assert (Hg : CdpType.generate_code t0 = CdpType.generate_class_code t0).
    { unfold Spec.classify in Hc. unfold CdpType.generate_code.
      destruct (CdpType.enum t0) as [[|v vs]|];
        destruct (CdpType.properties t0); congruence. }
    rewrite Hg, print_dataclass_of_sorted. unfold Ast.dataclass.
    unfold CdpType.sorted_props. now rewrite sort_required_first.
Qed.

(** The example of the specification: A (optional), B (required),
    C (optional), D (required) are declared in the order B, D, A, C. *)
Example abcd_order :
  fmap (fun c => map Py.f_name (Py.dc_fields c)) (Ast.dataclass abcd)
  = Ok ["b"; "d"; "a"; "c"]
  /\ CdpType.generate_code abcd = Ok
"@dataclass
class Abcd:
    b: int

    d: int

    a: typing.Optional[int] = None

    c: typing.Optional[int] = None

    def to_json(self) -> T_JSON_DICT:
        json: T_JSON_DICT = dict()
        json['B'] = self.b
        json['D'] = self.d
        if self.a is not None:
            json['A'] = self.a
        if self.c is not None:
            json['C'] = self.c
        return json

    @classmethod
    def from_json(cls, json: T_JSON_DICT) -> 'Abcd':
        return cls(
            A=json['A'] if 'A' in json else None,
            B=json['B'],
            C=json['C'] if 'C' in json else None,
            D=json['D'],
        )".
Proof. split; vm_compute; reflexivity. Qed.

Lemma C2_witness :
  Spec.classify abcd = Spec.Composite
  /\ (CdpType.sorted_props abcd = Spec.required_first (CdpType.properties abcd)
      /\ CdpType.generate_code abcd
         = fmap Py.print_dataclass
             (Ast.dataclass_of
                (Spec.required_first (CdpType.properties abcd)) abcd)).
Proof.
  split; [reflexivity | apply (C2_required_before_optional abcd); reflexivity].
Defined.

(** ** Events *)

Lemma parameter_fields (ps : list CdpParameter.t) (fs : list Py.field) :
  mapM Ast.parameter_field ps = Ok fs ->
  map Py.f_name fs = map CdpProperty.py_name ps
  /\ Forall (fun f => Py.f_default f = false) fs.
Proof.
  revert fs. induction ps as [|p ps IH]; simpl; intros fs H.
  - inversion H. split; constructor.
  - apply bind_ok in H. destruct H as (f & Hf & H).
    apply bind_ok in H. destruct H as (fs' & Hfs & H).
    inversion H; subst. destruct (IH _ Hfs) as [IH1 IH2].
    unfold Ast.parameter_field in Hf.
    apply bind_ok in Hf. destruct Hf as (ann & _ & Hf).
    inversion Hf; subst. simpl. split; [now rewrite IH1 | now constructor].
Qed.

Lemma fmap_ok {A B : Type} (f : A -> B) (m : result A) (b : B) :
  fmap f m = Ok b -> exists a, m = Ok a /\ b = f a.
Proof.
  destruct m as [a|]; simpl; intros H; inversion H. now exists a.
Qed.

(** C7, as the code has it: the class emitted for an event declares the
    parameters in the order of the schema, required and optional ones as
    they come and none with a default, and its decorator carries the tag
    [domain.name]. *)
Theorem C7_event_fields_in_schema_order (e : CdpEvent.t) (text : string) :
  CdpEvent.generate_code e = Ok text ->
  exists c,
    Ast.eventclass e = Ok c
    /\ text = Py.print_eventclass c
    /\ Py.ev_tag c = CdpEvent.domain e ++ "." ++ CdpEvent.name e
    /\ map Py.f_name (Py.ev_fields c)
       = map CdpProperty.py_name (CdpEvent.parameters e)
    /\ Forall (fun f => Py.f_default f = false) (Py.ev_fields c).
Proof.
  rewrite print_eventclass_ok. intros H.
  apply fmap_ok in H. destruct H as (c & Hc & ->).
  exists c. split; [assumption|]. split; [reflexivity|].
  unfold Ast.eventclass in Hc.
  apply bind_ok in Hc. destruct Hc as (fields & Hf & Hc).
  apply bind_ok in Hc. destruct Hc as (kwargs & _ & Hc).
  inversion Hc; subst. simpl.
  split; [reflexivity|]. now apply parameter_fields.
Qed.

Lemma C7_witness :
  CdpEvent.generate_code optional_first = Ok optional_first_code
  /\ exists c,
       Ast.eventclass optional_first = Ok c
       /\ optional_first_code = Py.print_eventclass c
       /\ Py.ev_tag c = "Page.loaded"
       /\ map Py.f_name (Py.ev_fields c) = ["a"; "b"]
       /\ Forall (fun f => Py.f_default f = false) (Py.ev_fields c).
Proof.
  split; [reflexivity|].
  apply (C7_event_fields_in_schema_order optional_first). reflexivity.
Defined.

(** The claim as the specification has it, required parameters first,
    fails on an event whose optional parameter comes first: the fields are
    declared in the order [a], [b]. *)
Lemma C7_counterexample :
  exists c,
    Ast.eventclass optional_first = Ok c
    /\ CdpEvent.generate_code optional_first = Ok (Py.print_eventclass c)
    /\ map Py.f_name (Py.ev_fields c) = ["a"; "b"]
    /\ map CdpProperty.py_name
         (Spec.required_first (CdpEvent.parameters optional_first))
       = ["b"; "a"]
    /\ map Py.f_name (Py.ev_fields c)
       <> map CdpProperty.py_name
            (Spec.required_first (CdpEvent.parameters optional_first)).
Proof.
  eexists. split; [vm_compute; reflexivity|].
  split; [vm_compute; reflexivity|].
  split; [reflexivity|]. split; [reflexivity|].
  vm_compute. discriminate.
Qed.

(** ** Enumerations *)



(** The members of the enumeration of the test, and two calls of its
    [from_json]. *)
Example enum_members_of_test :
  exists t0 c,
    CdpType.from_json test_cdp_enum_type_json = Ok t0
    /\ Ast.enumclass t0 = Ok c
    /\ Py.en_members c
       = [("ATTRIBUTE", "attribute"); ("IMPLICIT", "implicit");
          ("STYLE", "style"); ("CONTENTS", "contents");
          ("PLACEHOLDER", "placeholder"); ("RELATED_ELEMENT", "relatedElement")]
    /\ Sem.enum_from_json c (Sem.VStr "relatedElement")
       = Ok (Sem.VEnum "AXValueSourceType" "RELATED_ELEMENT" "relatedElement")
    /\ Sem.enum_from_json c (Sem.VStr "related_element") = Raise ValueError.
Proof.
  do 2 eexists. split; [vm_compute; reflexivity|].
  split; [vm_compute; reflexivity|]. repeat split.
Qed.

(** ** References *)

Lemma split_length (c : ascii) (s : string) :
  List.length (split c s) = S (count c s).
Proof.
  induction s as [|a s IH]; simpl; [reflexivity|].
  destruct (Ascii.eqb a c); simpl; [now rewrite IH|].
  destruct (split c s); simpl in *; [discriminate|assumption].
Qed.

Lemma contains_count (c : ascii) (s : string) :
  contains c s = negb (Nat.eqb (count c s) 0).
Proof.
  induction s as [|a s IH]; simpl; [reflexivity|].
  destruct (Ascii.eqb a c); simpl; [reflexivity|assumption].
Qed.

Lemma ref_to_python_many_dots (r : string) :
  2 <= count "." r -> ref_to_python r = Raise ValueError.
Proof.
  intros H. unfold ref_to_python. rewrite contains_count.
  destruct (count "." r) as [|[|n]] eqn:Hn; try lia.
  pose proof (split_length "." r) as Hl. rewrite Hn in Hl.
  destruct (split "." r) as [|a [|b [|c l]]]; simpl in Hl; try discriminate.
  reflexivity.
Qed.

Lemma ref_to_python_total (r : string) :
  count "." r <= 1 -> exists s, ref_to_python r = Ok s.
Proof.
  intros H. unfold ref_to_python. rewrite contains_count.
  destruct (count "." r) as [|[|n]] eqn:Hn; try lia.
  - now exists r.
  - pose proof (split_length "." r) as Hl. rewrite Hn in Hl.
    destruct (split "." r) as [|a [|b [|c l]]]; simpl in Hl; try discriminate.
    simpl. eexists. reflexivity.
Qed.

Section ManyDots.

Variable r : string.
Hypothesis many_dots : 2 <= count "." r.

Variable p : CdpProperty.t.
Hypothesis carried : Spec.reference p = Some r.









End ManyDots.


(** A domain with a type, a command or an event that cannot be generated
    is not generated. *)
Lemma domain_raises (d : CdpDomain.t) :
  (exists t0, In t0 (CdpDomain.types d)
              /\ is_ok (CdpType.generate_code t0) = false)
  \/ (exists c, In c (CdpDomain.commands d)
                /\ is_ok (CdpCommand.generate_code c) = false)
  \/ (exists e, In e (CdpDomain.events d)
                /\ is_ok (CdpEvent.generate_code e) = false) ->
  is_ok (CdpDomain.generate_code d) = false.
Proof.
  unfold CdpDomain.generate_code.
  intros [(t0 & Hin & H)|[(c & Hin & H)|(e & Hin & H)]].
  - pose proof (mapM_raise _ _ _ Hin H) as Hm.
    destruct (mapM _ (CdpDomain.types d)); [discriminate|reflexivity].
  - destruct (mapM _ (CdpDomain.types d)); [|reflexivity]. cbn [bind].
    pose proof (mapM_raise _ _ _ Hin H) as Hm.
    destruct (mapM _ (CdpDomain.commands d)); [discriminate|reflexivity].
  - destruct (mapM _ (CdpDomain.types d)); [|reflexivity]. cbn [bind].
    destruct (mapM _ (CdpDomain.commands d)); [|reflexivity]. cbn [bind].
    pose proof (mapM_raise _ _ _ Hin H) as Hm.
    destruct (mapM _ (CdpDomain.events d)); [discriminate|reflexivity].
Qed.



Example ref_to_python_examples :
  ref_to_python "NodeId" = Ok "NodeId"
  /\ ref_to_python "DOM.NodeId" = Ok "dom.NodeId"
  /\ ref_to_python "DOMSnapshot.ArrayOfStrings" = Ok "dom_snapshot.ArrayOfStrings"
  /\ ref_to_python "A.B.C" = Raise ValueError
  /\ ref_to_python "A..B" = Raise ValueError.
Proof. repeat split. Qed.

(** ** Dictionaries and local variables *)

Lemma get_set_same {A : Type} (k : string) (v : A) (m : list (string * A)) :
  Sem.get_key k (Sem.set_key k v m) = Some v.
Proof.
  unfold Sem.get_key.
  induction m as [|[k' v'] m IH]; simpl.
  - now rewrite String.eqb_refl.
  - destruct (String.eqb k k') eqn:E; simpl.
    + now rewrite String.eqb_refl.
    + now rewrite E.
Qed.

Lemma get_set_other {A : Type} (k k' : string) (v : A) (m : list (string * A)) :
  k <> k' -> Sem.get_key k (Sem.set_key k' v m) = Sem.get_key k m.
Proof.
  unfold Sem.get_key. intros Hne.
  induction m as [|[k0 v0] m IH]; simpl.
  - apply String.eqb_neq in Hne. now rewrite Hne.
  - destruct (String.eqb k' k0) eqn:E; simpl.
    + apply String.eqb_eq in E. subst k0.
      apply String.eqb_neq in Hne. now rewrite Hne.
    + destruct (String.eqb k k0); [reflexivity|assumption].
Qed.

Lemma set_set_same {A : Type} (k : string) (v w : A) (m : list (string * A)) :
  Sem.set_key k w (Sem.set_key k v m) = Sem.set_key k w m.
Proof.
  induction m as [|[k' v'] m IH]; simpl.
  - now rewrite String.eqb_refl.
  - destruct (String.eqb k k') eqn:E; simpl.
    + now rewrite String.eqb_refl.
    + now rewrite E, IH.
Qed.

Lemma lookup_set_same (k : string) (v : Sem.value) (locals : Sem.env) :
  Sem.lookup k (Sem.set_key k v locals) = Ok v.
Proof. unfold Sem.lookup. now rewrite get_set_same. Qed.


Lemma has_set_other {A : Type} (k k' : string) (v : A) (m : list (string * A)) :
  k <> k' -> Sem.has_key k (Sem.set_key k' v m) = Sem.has_key k m.
Proof. intros H. unfold Sem.has_key. now rewrite get_set_other. Qed.

(** ** Results of a command *)

(** C6, on the command of [test_cdp_command_multiple_return]: its first
    result, [body], is an optional string.  When the response has no
    [body], the emitted [return] gives the string ['None'] in its place and
    not [None]: the conversion [str(...)] is put around the whole
    conditional expression. *)
Theorem C6_optional_result_is_converted :
  exists c f,
    CdpCommand.from_json test_cdp_command_multiple_return_json "Audits" = Ok c
    /\ Ast.function c = Ok f
    /\ CdpCommand.generate_code c = Ok (Py.print_function f)
    /\ map Py.print_expr (Py.fn_returns f)
       = ["str(json['body'] if 'body' in json else None)";
          "int(json['originalSize'])"; "int(json['encodedSize'])"]
    /\ forall to_json_of from_json_of locals,
         Sem.resume to_json_of from_json_of f locals
           (Sem.VDict [("originalSize", Sem.VInt 1); ("encodedSize", Sem.VInt 2)])
         = Ok (Sem.VTuple [Sem.VStr "None"; Sem.VInt 1; Sem.VInt 2]).
Proof.
  do 2 eexists. split; [vm_compute; reflexivity|].
  split; [vm_compute; reflexivity|].
  split; [vm_compute; reflexivity|].
  split; [vm_compute; reflexivity|].
  intros tj fj locals. unfold Sem.resume.
  cbn [Py.fn_returns fmap mapM Sem.eval bind].
  rewrite !lookup_set_same. reflexivity.
Qed.

(** ** The constructor call of [from_json] *)

Lemma eval_kwargs_keys tj fj (locals : Sem.env)
    (kws : list (string * Py.expr)) (vs : list (string * Sem.value)) :
  Sem.eval_kwargs tj fj locals kws = Ok vs -> map fst vs = map fst kws.
Proof.
  unfold Sem.eval_kwargs. revert vs.
  induction kws as [|kw kws IH]; simpl; intros vs H.
  - now inversion H.
  - apply bind_ok in H. destruct H as (b & Hb & H).
    apply bind_ok in H. destruct H as (bs & Hbs & H).
    apply bind_ok in Hb. destruct Hb as (v & _ & Hv).
    inversion H; inversion Hv; subst. simpl. now rewrite (IH _ Hbs).
Qed.

Lemma existsb_eqb_In (k : string) (l : list string) :
  existsb (String.eqb k) l = true <-> In k l.
Proof.
  rewrite existsb_exists. split.
  - intros (x & Hx & E). apply String.eqb_eq in E. now subst.
  - intros H. exists k. split; [assumption|apply String.eqb_refl].
Qed.

(** A keyword that is not a field: the call of the class raises
    [TypeError]. *)
Lemma dataclass_init_unexpected_keyword (cls : string) (fields : list Py.field)
    (kwargs : list (string * Sem.value)) (k : string) :
  In k (map fst kwargs) ->
  ~ In k (map Py.f_name fields) ->
  Sem.dataclass_init cls fields kwargs = Raise TypeError.
Proof.
  intros Hk Hf. unfold Sem.dataclass_init.
  destruct (forallb _ kwargs) eqn:E; [|reflexivity].
  rewrite forallb_forall in E.
  apply in_map_iff in Hk. destruct Hk as (kw & <- & Hkw).
  specialize (E kw Hkw). apply existsb_eqb_In in E. contradiction.
Qed.

Lemma from_json_unexpected_keyword (c : Py.dataclass) (k : string) :
  In k (map fst (Py.dc_from_json c)) ->
  ~ In k (map Py.f_name (Py.dc_fields c)) ->
  forall tj fj json,
    is_ok (Sem.dataclass_from_json tj fj c json) = false.
Proof.
  intros Hk Hf tj fj json. unfold Sem.dataclass_from_json.
  destruct (Sem.eval_kwargs tj fj _ _) as [kwargs|] eqn:E; [|reflexivity].
  cbn [bind]. apply eval_kwargs_keys in E.
  rewrite (dataclass_init_unexpected_keyword _ _ _ k); [reflexivity| |assumption].
  now rewrite E.
Qed.

(** C1, on the type of [test_cdp_class_type]: the field of the property
    [relatedNodes] is declared as [related_nodes], and the call in
    [from_json] passes it as the keyword [relatedNodes].  The call raises
    [TypeError] whatever the wire object is, so no value of the class comes
    back from its wire form. *)
Theorem C1_from_json_keyword_is_not_a_field :
  exists t0 c,
    CdpType.from_json test_cdp_class_type_json = Ok t0
    /\ Ast.dataclass t0 = Ok c
    /\ CdpType.generate_code t0 = Ok (Py.print_dataclass c)
    /\ map Py.f_name (Py.dc_fields c)
       = ["type"; "value"; "related_nodes"; "sources"]
    /\ map fst (Py.dc_from_json c)
       = ["type"; "value"; "relatedNodes"; "sources"]
    /\ (forall to_json_of from_json_of json,
          is_ok (Sem.dataclass_from_json to_json_of from_json_of c json) = false)
    /\ Sem.dataclass_to_json wrapper_to_json wrapper_from_json c
         (Sem.VObj "AXValue"
            [("type", Sem.VStr "role"); ("value", Sem.VNone);
             ("related_nodes", Sem.VNone); ("sources", Sem.VNone)])
       = Ok (Sem.VDict [("type", Sem.VStr "role")])
    /\ Sem.dataclass_from_json wrapper_to_json wrapper_from_json c
         (Sem.VDict [("type", Sem.VStr "role")])
       = Raise TypeError.
Proof.
  do 2 eexists. split; [vm_compute; reflexivity|].
  split; [vm_compute; reflexivity|].
  split; [vm_compute; reflexivity|].
  split; [vm_compute; reflexivity|].
  split; [vm_compute; reflexivity|].
  split; [|split; vm_compute; reflexivity].
  apply (from_json_unexpected_keyword _ "relatedNodes").
  - vm_compute. tauto.
  - vm_compute. intros [H|[H|[H|[H|[]]]]]; discriminate.
Qed.

Lemma sorted_props_In (t0 : CdpType.t) (q : CdpProperty.t) :
  In q (CdpType.sorted_props t0) <-> In q (CdpType.properties t0).
Proof.
  unfold CdpType.sorted_props. rewrite sort_required_first.
  unfold Spec.required_first, Spec.required, Spec.optional.
  rewrite in_app_iff, !filter_In.
  destruct (CdpProperty.optional q); simpl; tauto.
Qed.

Lemma property_field_names (ps : list CdpProperty.t) (fs : list Py.field) :
  mapM Ast.property_field ps = Ok fs ->
  map Py.f_name fs = map CdpProperty.py_name ps.
Proof.
  revert fs. induction ps as [|q qs IH]; simpl; intros fs Hf.
  - now inversion Hf.
  - apply bind_ok in Hf. destruct Hf as (f & Hf1 & Hf).
    apply bind_ok in Hf. destruct Hf as (fs' & Hfs & Hf).
    inversion Hf; subst. unfold Ast.property_field in Hf1.
    apply bind_ok in Hf1. destruct Hf1 as (ann & _ & Hf1).
    inversion Hf1; subst. simpl. now rewrite (IH _ Hfs).
Qed.

(** The keyword arguments of [from_json]: one for each property, under its
    wire name. *)
Lemma from_json_kwargs (ps : list CdpProperty.t) (kws : list (string * Py.expr)) :
  mapM (fun p => e <- Ast.from_json p "json" ;; Ok (CdpProperty.name p, e)) ps
  = Ok kws ->
  map fst kws = map CdpProperty.name ps
  /\ forall p, In p ps ->
       exists e, Ast.from_json p "json" = Ok e /\ In (CdpProperty.name p, e) kws.
Proof.
  revert kws. induction ps as [|q qs IH]; simpl; intros kws Hk.
  - inversion Hk. split; [reflexivity|contradiction].
  - apply bind_ok in Hk. destruct Hk as (kw & Hkw & Hk).
    apply bind_ok in Hk. destruct Hk as (kws' & Hkws & Hk).
    inversion Hk; subst. apply bind_ok in Hkw.
    destruct Hkw as (e & He & Hkw). inversion Hkw; subst.
    destruct (IH _ Hkws) as [IH1 IH2]. split.
    + simpl. now rewrite IH1.
    + intros p [->|Hp].
      * exists e. split; [assumption|now left].
      * destruct (IH2 p Hp) as (e' & He' & Hin). exists e'.
        split; [assumption|now right].
Qed.

Lemma dataclass_parts (t0 : CdpType.t) (c : Py.dataclass) :
  Ast.dataclass t0 = Ok c ->
  exists fields kwargs,
    mapM Ast.property_field (CdpType.sorted_props t0) = Ok fields
    /\ mapM (fun p => e <- Ast.from_json p "json" ;; Ok (CdpProperty.name p, e))
            (CdpType.properties t0) = Ok kwargs
    /\ c = Py.mk_dataclass (CdpType.id t0) (docstring (CdpType.description t0))
             fields
             (map (fun p => Ast.to_json p "json" true) (CdpType.sorted_props t0))
             kwargs.
Proof.
  unfold Ast.dataclass, Ast.dataclass_of. intros Hc.
  apply bind_ok in Hc. destruct Hc as (fields & Hf & Hc).
  apply bind_ok in Hc. destruct Hc as (kwargs & Hk & Hc).
  inversion Hc. now exists fields, kwargs.
Qed.

(** X6: the same for every composite type: a property whose wire name is
    not the Python name of a property of the type makes [from_json] raise,
    whatever it is given and whatever the rest of the package does. *)
Lemma from_json_needs_snake_case_names (t0 : CdpType.t) (c : Py.dataclass)
    (p : CdpProperty.t) :
  Ast.dataclass t0 = Ok c ->
  In p (CdpType.properties t0) ->
  (forall q, In q (CdpType.properties t0) ->
             CdpProperty.py_name q <> CdpProperty.name p) ->
  forall tj fj json, is_ok (Sem.dataclass_from_json tj fj c json) = false.
Proof.
  intros Hc Hp Hq.
  destruct (dataclass_parts _ _ Hc) as (fields & kwargs & Hf & Hk & ->).
  apply from_json_kwargs in Hk. destruct Hk as [Hk _].
  apply property_field_names in Hf.
  apply (from_json_unexpected_keyword _ (CdpProperty.name p)); cbn.
  - rewrite Hk. now apply in_map.
  - rewrite Hf. intros Hin. apply in_map_iff in Hin.
    destruct Hin as (q & Hqn & Hqin). apply (Hq q); [|assumption].
    now apply sorted_props_In.
Qed.

(** ** Snake case *)

Lemma lowered_char_plain (c : ascii) :
  plain_char (to_lower (hyphen_to_underscore c)) = true.
Proof.
  destruct c as [[] [] [] [] [] [] [] []]; vm_compute; reflexivity.
Qed.

Lemma underscore_plain (w : string) :
  all_chars plain_char (underscore w) = true.
Proof.
  unfold underscore, lower.
  induction (underscore_words false (underscore_acronyms false w))
    as [|c s IH]; simpl; [reflexivity|].
  now rewrite lowered_char_plain, IH.
Qed.

Lemma plain_char_inv (c : ascii) :
  plain_char c = true -> is_upper c = false /\ Ascii.eqb c "-" = false.
Proof.
  unfold plain_char. rewrite andb_true_iff, !negb_true_iff. tauto.
Qed.

Lemma acronyms_plain (s : string) (b : bool) :
  all_chars plain_char s = true -> underscore_acronyms b s = s.
Proof.
  revert b. induction s as [|c s IH]; simpl; intros b H; [reflexivity|].
  apply andb_true_iff in H. destruct H as [Hc Hs].
  apply plain_char_inv in Hc. destruct Hc as [Hu _].
  rewrite Hu, andb_false_r. simpl. now rewrite IH.
Qed.

Lemma words_plain (s : string) (b : bool) :
  all_chars plain_char s = true -> underscore_words b s = s.
Proof.
  revert b. induction s as [|c s IH]; simpl; intros b H; [reflexivity|].
  apply andb_true_iff in H. destruct H as [Hc Hs].
  apply plain_char_inv in Hc. destruct Hc as [Hu _].
  rewrite Hu, andb_false_r. now rewrite IH.
Qed.

Lemma lower_plain (s : string) :
  all_chars plain_char s = true ->
  lower (map_chars hyphen_to_underscore s) = s.
Proof.
  unfold lower. induction s as [|c s IH]; simpl; intros H; [reflexivity|].
  apply andb_true_iff in H. destruct H as [Hc Hs].
  apply plain_char_inv in Hc. destruct Hc as [Hu Hh].
  rewrite IH by assumption. unfold hyphen_to_underscore, to_lower.
  now rewrite Hh, Hu.
Qed.

(** [inflection.underscore] leaves its own results as they are. *)
Lemma underscore_idempotent (w : string) :
  underscore (underscore w) = underscore w.
Proof.
  pose proof (underscore_plain w) as H.
  unfold underscore at 1.
  now rewrite acronyms_plain, words_plain, lower_plain.
Qed.

(** ** Enumerations: the class and its members *)



Lemma distinct_NoDup (l : list string) : Py.distinct l = true -> NoDup l.
Proof.
  induction l as [|x l IH]; simpl; intros H; [constructor|].
  apply andb_true_iff in H. destruct H as [Hx Hl].
  constructor; [|now apply IH].
  intros Hin. apply existsb_eqb_In in Hin. rewrite Hin in Hx. discriminate.
Qed.





(** ** Optional fields *)

Section OptionalField.

Variable to_json_of : Sem.value -> result Sem.value.
Variable from_json_of : string -> Sem.value -> result Sem.value.

Variable t0 : CdpType.t.
Variable p : CdpProperty.t.
Hypothesis p_optional : CdpProperty.optional p = true.

(** [to_json]: the statement of a property with another wire name does not
    touch the key of [p], and the statement of an optional property with
    the wire name of [p] reads the field of [p]. *)
Lemma to_json_keeps_key_out (self : Sem.value) (qs : list CdpProperty.t) :
  Sem.getattr self (CdpProperty.py_name p) = Ok Sem.VNone ->
  (forall q, In q qs -> CdpProperty.name q = CdpProperty.name p ->
             CdpProperty.optional q = true) ->
  forall m locals,
    Sem.has_key (CdpProperty.name p) m = false ->
    Sem.foldM (Sem.exec to_json_of from_json_of)
      [("self", self); ("json", Sem.VDict m)]
      (map (fun q => Ast.to_json q "json" true) qs) = Ok locals ->
    exists m',
      locals = [("self", self); ("json", Sem.VDict m')]
      /\ Sem.has_key (CdpProperty.name p) m' = false.
Proof.
  intros Hself. induction qs as [|q qs IH]; intros Hqs m locals Hm H.
  - simpl in H. inversion H. now exists m.
  - cbn [map Sem.foldM] in H. apply bind_ok in H.
    destruct H as (locals1 & Hq & H).
    assert (Hstep : exists m1,
               locals1 = [("self", self); ("json", Sem.VDict m1)]
               /\ Sem.has_key (CdpProperty.name p) m1 = false).
    { unfold Ast.to_json in Hq.
      destruct (String.eqb_spec (CdpProperty.name q) (CdpProperty.name p))
        as [Heq|Hne].
      - rewrite (Hqs q (or_introl eq_refl) Heq) in Hq.
        assert (Hpy : CdpProperty.py_name q = CdpProperty.py_name p).
        { unfold CdpProperty.py_name. now rewrite Heq. }
        rewrite Hpy in Hq. cbn [Sem.exec Sem.eval] in Hq.
        unfold Sem.lookup in Hq. cbn in Hq. rewrite Hself in Hq.
        cbn in Hq. inversion Hq. now exists m.
      - assert (Hset : forall e l,
                   Sem.exec to_json_of from_json_of
                     [("self", self); ("json", Sem.VDict m)]
                     (Py.SSetItem "json" (CdpProperty.name q) e) = Ok l ->
                   exists m1,
                     l = [("self", self); ("json", Sem.VDict m1)]
                     /\ Sem.has_key (CdpProperty.name p) m1 = false).
        { intros e l He. cbn [Sem.exec] in He.
          apply bind_ok in He. destruct He as (v & _ & He).
          unfold Sem.lookup in He. cbn in He. inversion He.
          eexists. split; [reflexivity|].
          rewrite has_set_other; [assumption|congruence]. }
        destruct (CdpProperty.optional q).
        + cbn [Sem.exec] in Hq. apply bind_ok in Hq.
          destruct Hq as (v & _ & Hq).
          destruct v; try (now apply (Hset _ _ Hq)).
          inversion Hq. now exists m.
        + now apply (Hset _ _ Hq). }
    destruct Hstep as (m1 & -> & Hm1).
    apply (IH (fun q' Hq' => Hqs q' (or_intror Hq')) m1 locals Hm1 H).
Qed.

(** [from_json]: the expression of an optional property is [None] on a
    dictionary without its key. *)
Lemma from_json_absent (e : Py.expr) (m : list (string * Sem.value)) :
  Ast.from_json p "json" = Ok e ->
  Sem.has_key (CdpProperty.name p) m = false ->
  Sem.eval to_json_of from_json_of [("json", Sem.VDict m)] e = Ok Sem.VNone.
Proof.
  unfold Ast.from_json. intros He Hm.
  apply bind_ok in He. destruct He as (e' & _ & He).
  rewrite p_optional in He. inversion He.
  cbn [Sem.eval]. unfold Sem.lookup. cbn. now rewrite Hm.
Qed.

End OptionalField.

Lemma get_key_NoDup {A : Type} (k : string) (a : A) (l : list (string * A)) :
  NoDup (map fst l) -> In (k, a) l -> Sem.get_key k l = Some a.
Proof.
  unfold Sem.get_key. induction l as [|[k' a'] l IH]; simpl; [tauto|].
  intros Hnd Hin. inversion Hnd as [|? ? Hnotin Hnd']; subst.
  destruct Hin as [Heq|Hin].
  - inversion Heq; subst. now rewrite String.eqb_refl.
  - destruct (String.eqb_spec k k') as [->|Hne]; [|now apply IH].
    exfalso. apply Hnotin. apply in_map_iff. now exists (k', a).
Qed.

Lemma eval_kwargs_get tj fj (locals : Sem.env)
    (kws : list (string * Py.expr)) (vs : list (string * Sem.value))
    (k : string) (e : Py.expr) :
  Sem.eval_kwargs tj fj locals kws = Ok vs ->
  Sem.get_key k kws = Some e ->
  exists v, Sem.eval tj fj locals e = Ok v /\ Sem.get_key k vs = Some v.
Proof.
  unfold Sem.eval_kwargs, Sem.get_key. revert vs.
  induction kws as [|[k' e'] kws IH]; simpl; intros vs H Hk; [discriminate|].
  apply bind_ok in H. destruct H as (b & Hb & H).
  apply bind_ok in H. destruct H as (bs & Hbs & H).
  apply bind_ok in Hb. destruct Hb as (v & Hv & Hb).
  inversion H; inversion Hb; subst. simpl.
  destruct (String.eqb k k').
  - inversion Hk; subst. now exists v.
  - now apply IH.
Qed.

(** The fields of the object [__init__] builds: a field has the value of
    its keyword, or [None] when there is no such keyword. *)
Lemma dataclass_init_field (cls : string) (fields : list Py.field)
    (kwargs : list (string * Sem.value)) (obj : Sem.value) (k : string) :
  Sem.dataclass_init cls fields kwargs = Ok obj ->
  In k (map Py.f_name fields) ->
  Sem.getattr obj k
  = Ok (match Sem.get_key k kwargs with Some v => v | None => Sem.VNone end).
Proof.
  unfold Sem.dataclass_init.
  destruct (forallb _ kwargs); [|discriminate].
  intros H Hk. apply bind_ok in H. destruct H as (vs & Hvs & H).
  inversion H; subst obj. cbn [Sem.getattr].
  assert (Hget : Sem.get_key k vs
                 = Some (match Sem.get_key k kwargs with
                         | Some v => v
                         | None => Sem.VNone
                         end)).
  { clear H. revert vs Hvs. unfold Sem.get_key.
    induction fields as [|f fields IH]; simpl; intros vs Hvs; [contradiction|].
    apply bind_ok in Hvs. destruct Hvs as (b & Hb & Hvs).
    apply bind_ok in Hvs. destruct Hvs as (bs & Hbs & Hvs).
    inversion Hvs; subst vs.
    destruct (String.eqb_spec k (Py.f_name f)) as [->|Hne].
    - destruct (Json.assoc (Py.f_name f) kwargs) as [v|].
      + inversion Hb; subst. simpl. now rewrite String.eqb_refl.
      + destruct (Py.f_default f); [|discriminate].
        inversion Hb; subst. simpl. now rewrite String.eqb_refl.
    - assert (Hb' : fst b = Py.f_name f).
      { destruct (Json.assoc (Py.f_name f) kwargs).
        - now inversion Hb.
        - destruct (Py.f_default f); [|discriminate]. now inversion Hb. }
      destruct b as [k' v']. simpl in Hb'. subst k'. simpl.
      apply String.eqb_neq in Hne. rewrite Hne.
      apply IH; [|assumption]. destruct Hk as [Hk|Hk]; [|assumption].
      apply String.eqb_neq in Hne. congruence. }
  now rewrite Hget.
Qed.

Lemma dataclass_init_keywords (cls : string) (fields : list Py.field)
    (kwargs : list (string * Sem.value)) (obj : Sem.value) (k : string) :
  Sem.dataclass_init cls fields kwargs = Ok obj ->
  In k (map fst kwargs) -> In k (map Py.f_name fields).
Proof.
  unfold Sem.dataclass_init.
  destruct (forallb _ kwargs) eqn:E; [|discriminate].
  intros _ Hk. rewrite forallb_forall in E.
  apply in_map_iff in Hk. destruct Hk as (kw & <- & Hkw).
  now apply existsb_eqb_In, E.
Qed.

(** C4, on the defect of C1.  In the dataclass of a composite type with an
    optional property [p]:
    - [to_json] of an object whose field of [p] is [None] returns a
      dictionary without the wire key of [p] (no other property writing
      that key unconditionally), as the claim has it;
    - the keyword expression [from_json] computes for [p] from a
      dictionary without the wire key of [p] is [None], as the claim has
      it;
    - but the call of the class passes it under the wire name: when some
      property [q] has a wire name that is no Python name of a property of
      the type, the call raises, on such a dictionary as on every other
      one, and no object comes back whose field is bound to [None]. *)
Theorem C4_absent_key_from_json_raises (t0 : CdpType.t) (c : Py.dataclass)
    (p q : CdpProperty.t) :
  Ast.dataclass t0 = Ok c ->
  In p (CdpType.properties t0) ->
  CdpProperty.optional p = true ->
  In q (CdpType.properties t0) ->
  (forall r, In r (CdpType.properties t0) ->
             CdpProperty.py_name r <> CdpProperty.name q) ->
  forall to_json_of from_json_of,
    (forall self json,
        (forall r, In r (CdpType.properties t0) ->
                   CdpProperty.name r = CdpProperty.name p ->
                   CdpProperty.optional r = true) ->
        Sem.getattr self (CdpProperty.py_name p) = Ok Sem.VNone ->
        Sem.dataclass_to_json to_json_of from_json_of c self = Ok json ->
        exists m,
          json = Sem.VDict m /\ Sem.has_key (CdpProperty.name p) m = false)
    /\ (forall m,
          Sem.has_key (CdpProperty.name p) m = false ->
          (exists e,
              In (CdpProperty.name p, e) (Py.dc_from_json c)
              /\ Sem.eval to_json_of from_json_of [("json", Sem.VDict m)] e
                 = Ok Sem.VNone)
          /\ is_ok (Sem.dataclass_from_json to_json_of from_json_of c
                      (Sem.VDict m))
             = false).
Proof.
  intros Hc Hp Hopt Hq Hnames tj fj. split.
  - intros self json Hrs Hself H.
    destruct (dataclass_parts _ _ Hc) as (fields & kwargs & _ & _ & Heq).
    unfold Sem.dataclass_to_json in H.
    destruct (Sem.dataclass_names_ok c); [|discriminate].
    destruct (existsb _ _); [discriminate|].
    subst c. cbn [Py.dc_to_json] in H.
    apply bind_ok in H. destruct H as (locals & Hl & H).
    destruct (to_json_keeps_key_out tj fj p self (CdpType.sorted_props t0)
                Hself) with (m := @nil (string * Sem.value)) (locals := locals)
      as (m' & -> & Hm'); [| reflexivity | assumption |].
    + intros r Hr. apply Hrs. now apply sorted_props_In.
    + exists m'. split; [|assumption].
      unfold Sem.lookup in H. cbn in H. now inversion H.
  - intros m Hm. split.
    + destruct (dataclass_parts _ _ Hc) as (fields & kwargs & _ & Hk & ->).
      destruct (from_json_kwargs _ _ Hk) as [_ Hkw].
      destruct (Hkw p Hp) as (e & He & Hin).
      exists e. split; [assumption|].
      exact (from_json_absent tj fj p Hopt e m He Hm).
    + destruct (dataclass_parts _ _ Hc) as (fields & kwargs & Hf & Hk & Heq).
      apply from_json_kwargs in Hk. destruct Hk as [Hk _].
      apply property_field_names in Hf. subst c.
      apply (from_json_unexpected_keyword _ (CdpProperty.name q)); cbn.
      * rewrite Hk. now apply in_map.
      * rewrite Hf. intros Hin. apply in_map_iff in Hin.
        destruct Hin as (r & Hrn & Hrin). apply (Hnames r); [|assumption].
        now apply sorted_props_In.
Qed.

(** The type of [test_cdp_class_type] and a value whose optional fields are
    [None]: [to_json] leaves their keys out, and [from_json] of what it
    returns raises [TypeError]. *)
Lemma C4_witness :
  exists c,
    CdpType.from_json test_cdp_class_type_json = Ok ax_value
    /\ Ast.dataclass ax_value = Ok c
    /\ Sem.dataclass_to_json wrapper_to_json wrapper_from_json c
         (Sem.VObj "AXValue"
            [("type", Sem.VStr "role"); ("value", Sem.VNone);
             ("related_nodes", Sem.VNone); ("sources", Sem.VNone)])
       = Ok (Sem.VDict [("type", Sem.VStr "role")])
    /\ (exists m,
          Sem.VDict [("type", Sem.VStr "role")] = Sem.VDict m
          /\ Sem.has_key "value" m = false)
    /\ Sem.has_key "value" [("type", Sem.VStr "role")] = false
    /\ Sem.dataclass_from_json wrapper_to_json wrapper_from_json c
         (Sem.VDict [("type", Sem.VStr "role")])
       = Raise TypeError
    /\ is_ok (Sem.dataclass_from_json wrapper_to_json wrapper_from_json c
                (Sem.VDict [("type", Sem.VStr "role")]))
       = false.
Proof.
  pose (c := match Ast.dataclass ax_value with
             | Ok c => c
             | Raise _ => Py.mk_dataclass "" "" [] [] []
             end).
  assert (Hc : Ast.dataclass ax_value = Ok c) by (vm_compute; reflexivity).
  assert (Hp : In (CdpProperty.mk "value"
                     (Some "The computed value of this property.")
                     (Some "any") None None None true)
                  (CdpType.properties ax_value))
    by (right; left; reflexivity).
  assert (Hq : In (CdpProperty.mk "relatedNodes"
                     (Some "One or more related nodes, if applicable.")
                     (Some "array") None None
                     (Some (CdpItems.mk None (Some "AXRelatedNode"))) true)
                  (CdpType.properties ax_value))
    by (right; right; left; reflexivity).
  assert (Hnames : forall r, In r (CdpType.properties ax_value) ->
                     CdpProperty.py_name r <> "relatedNodes")
    by (intros r [<-|[<-|[<-|[<-|[]]]]]; vm_compute; discriminate).
  destruct (C4_absent_key_from_json_raises ax_value c _ _ Hc Hp eq_refl Hq
              Hnames wrapper_to_json wrapper_from_json) as [Hto Hfrom].
  exists c. split; [vm_compute; reflexivity|]. split; [exact Hc|].
  split; [vm_compute; reflexivity|]. split.
  - apply (Hto (Sem.VObj "AXValue"
                  [("type", Sem.VStr "role"); ("value", Sem.VNone);
                   ("related_nodes", Sem.VNone); ("sources", Sem.VNone)])).
    + intros r [<-|[<-|[<-|[<-|[]]]]]; vm_compute;
        try reflexivity; discriminate.
    + reflexivity.
    + vm_compute. reflexivity.
  - split; [reflexivity|]. split; [vm_compute; reflexivity|].
    exact (proj2 (Hfrom [("type", Sem.VStr "role")] eq_refl)).
Defined.

(** ** The request of a command *)


Section Request.

Variable to_json_of : Sem.value -> result Sem.value.
Variable from_json_of : string -> Sem.value -> result Sem.value.


Lemma bind_assoc {A B C : Type} (m : result A) (f : A -> result B)
    (g : B -> result C) :
  (y <- (x <- m ;; f x) ;; g y) = (x <- m ;; y <- f x ;; g y).
Proof. now destruct m. Qed.



Lemma exec_if_not_none (locals : Sem.env) (c : Py.expr) (s : Py.stmt) :
  Sem.exec to_json_of from_json_of locals (Py.SIfNotNone c s)
  = (v <- Sem.eval to_json_of from_json_of locals c ;;
     match v with
     | Sem.VNone => Ok locals
     | _ => Sem.exec to_json_of from_json_of locals s
     end).
Proof. reflexivity. Qed.

Variable args : Sem.env.

Local Notation "'frame'" :=
  (fun params : list (string * Sem.value) =>
     Sem.set_key "params" (Sem.VDict params) args).




End Request.











Example move_to_code :
  CdpCommand.generate_code move_to = Ok
"def move_to(
        x: int,
        y: typing.Optional[int] = None
    ) -> typing.Generator[T_JSON_DICT,T_JSON_DICT,None]:
    '''
    :param x:
    :param y:
    '''
    params: T_JSON_DICT = dict()
    params['x'] = x
    if y is not None:
        params['y'] = y
    cmd_dict: T_JSON_DICT = {
        'method': 'Input.moveTo',
        'params': params,
    }
    json = yield cmd_dict".
Proof. vm_compute. reflexivity. Qed.

(** ** The driver *)

Lemma is_str_true (s : string) (j : json) :
  Driver.is_str s j = true <-> j = JStr s.
Proof.
  destruct j; simpl; try (split; [discriminate|intros H; inversion H]).
  rewrite String.eqb_eq. split; [now intros ->|now intros [= ->]].
Qed.

(** [parse] of a description of another version raises [AssertionError];
    [parse] reads and changes nothing. *)
Lemma parse_version_differs (w : Driver.world) (path : string) (schema : json) :
  Json.assoc path (Driver.build w) = Some schema ->
  version_differs schema ->
  Driver.parse path w = (Raise AssertionError, w).
Proof.
  intros Hs (version & major & minor & Hv & Hmaj & Hmin & Hne).
  unfold Driver.parse. rewrite Hs, Hv. cbn [bind]. rewrite Hmaj, Hmin.
  cbn [bind].
  destruct (Driver.is_str "1" major && Driver.is_str "3" minor) eqn:E;
    [|reflexivity].
  apply andb_true_iff in E. destruct E as [E1 E2].
  apply is_str_true in E1. apply is_str_true in E2. congruence.
Qed.

Lemma parse_reads (w : Driver.world) (path : string) :
  snd (Driver.parse path w) = w.
Proof. unfold Driver.parse. now destruct (Json.assoc path (Driver.build w)). Qed.

Lemma parse_all_reads (w : Driver.world) (paths : list string) :
  snd (Driver.parse_all paths w) = w.
Proof.
  induction paths as [|p ps IH]; [reflexivity|].
  cbn [Driver.parse_all]. unfold Driver.bind_io.
  pose proof (parse_reads w p) as Hp.
  destruct (Driver.parse p w) as [[ds|e] w1]; simpl in Hp; subst w1;
    [|reflexivity].
  destruct (Driver.parse_all ps w) as [[rest|e] w2]; simpl in IH; subst w2;
    reflexivity.
Qed.

Lemma parse_all_version_differs (w : Driver.world) (paths : list string)
    (path : string) (schema : json) :
  In path paths ->
  Json.assoc path (Driver.build w) = Some schema ->
  version_differs schema ->
  is_ok (fst (Driver.parse_all paths w)) = false.
Proof.
  intros Hin Hs Hv. induction paths as [|p ps IH]; [contradiction|].
  cbn [Driver.parse_all]. unfold Driver.bind_io.
  pose proof (parse_reads w p) as Hp.
  destruct (Driver.parse p w) as [[ds|e] w1] eqn:E; simpl in Hp; subst w1;
    [|reflexivity].
  destruct Hin as [->|Hin].
  - rewrite (parse_version_differs w path schema Hs Hv) in E. discriminate.
  - specialize (IH Hin). pose proof (parse_all_reads w ps) as Hps.
    destruct (Driver.parse_all ps w) as [[rest|e] w2]; simpl in *;
      [discriminate|reflexivity].
Qed.

(** What [main] does before it parses: it makes the package directory and
    clears it. *)
Lemma set_entries_build (es : list (string * Driver.node)) (w : Driver.world) :
  Driver.build (snd (Driver.set_entries es w)) = Driver.build w.
Proof. reflexivity. Qed.

Lemma for_each_build {A : Type} (f : A -> Driver.io unit) (l : list A) :
  (forall a w, Driver.build (snd (f a w)) = Driver.build w) ->
  forall w, Driver.build (snd (Driver.for_each f l w)) = Driver.build w.
Proof.
  intros Hf. induction l as [|a l IH]; intros w; [reflexivity|].
  cbn [Driver.for_each]. unfold Driver.bind_io.
  specialize (Hf a w). destruct (f a w) as [[u|e] w1]; simpl in Hf.
  - now rewrite IH.
  - assumption.
Qed.

Lemma rmdir_build (sub : string * Driver.node) (w : Driver.world) :
  Driver.build
    (snd ((if Driver.is_dir (snd sub) then Driver.rmdir (fst sub)
           else Driver.ret tt) w))
  = Driver.build w.
Proof.
  destruct (Driver.is_dir (snd sub)); [|reflexivity].
  unfold Driver.rmdir. destruct (Driver.entries w); reflexivity.
Qed.

Lemma clear_dirs_build (w : Driver.world) :
  Driver.build (snd (Driver.clear_dirs w)) = Driver.build w.
Proof.
  unfold Driver.clear_dirs, Driver.bind_io.
  assert (Hu : Driver.build (snd (Driver.unlink "__init__.py" w))
               = Driver.build w).
  { unfold Driver.unlink. destruct (Driver.entries w) as [es|]; [|reflexivity].
    destruct (Json.assoc "__init__.py" es) as [[|]|]; reflexivity. }
  destruct (Driver.unlink "__init__.py" w) as [[u|e] w1]; simpl in Hu.
  - destruct (Driver.entries w1) as [es|]; [|assumption].
    rewrite for_each_build; [assumption|apply rmdir_build].
  - destruct e; try assumption.
    destruct (Driver.entries w1) as [es|]; [|assumption].
    rewrite for_each_build; [assumption|apply rmdir_build].
Qed.

Lemma prepare_build (w : Driver.world) :
  Driver.build
    (snd (Driver.bind_io Driver.mkdir_exist_ok (fun _ => Driver.clear_dirs) w))
  = Driver.build w.
Proof.
  unfold Driver.bind_io, Driver.mkdir_exist_ok.
  destruct (Driver.cdp w) as [[|]|]; try reflexivity;
    now rewrite clear_dirs_build.
Qed.

Lemma parse_result (w w' : Driver.world) (path : string) :
  Driver.build w' = Driver.build w ->
  fst (Driver.parse path w') = fst (Driver.parse path w).
Proof.
  intros Hb. unfold Driver.parse. rewrite Hb.
  now destruct (Json.assoc path (Driver.build w)).
Qed.

(** C9, as the code has it: a description whose version pair is not
    [("1", "3")] makes [parse] raise [AssertionError], the run does not
    return normally, and no module, [__init__.py] or [py.typed] is written;
    but the package directory is left as [mkdir] and [clear_dirs] made it
    before the descriptions were read, and is not restored.  The exception
    is the [AssertionError] when the directory could be cleared and the
    descriptions read before this one were accepted. *)
Theorem C9_version_mismatch_aborts (w : Driver.world) (path : string)
    (schema : json) :
  In path Driver.json_paths ->
  Json.assoc path (Driver.build w) = Some schema ->
  version_differs schema ->
  Driver.parse path w = (Raise AssertionError, w)
  /\ is_ok (fst (Driver.main w)) = false
  /\ snd (Driver.main w)
     = snd (Driver.bind_io Driver.mkdir_exist_ok (fun _ => Driver.clear_dirs) w)
  /\ (fst (Driver.bind_io Driver.mkdir_exist_ok (fun _ => Driver.clear_dirs) w)
      = Ok tt ->
      path = "browser_protocol.json"
      \/ is_ok (fst (Driver.parse "browser_protocol.json" w)) = true ->
      fst (Driver.main w) = Raise AssertionError).
Proof.
  intros Hin Hs Hv.
  split; [exact (parse_version_differs w path schema Hs Hv)|].
  pose proof (prepare_build w) as Hb.
  assert (Hmain :
            Driver.main w
            = match Driver.bind_io Driver.mkdir_exist_ok
                      (fun _ => Driver.clear_dirs) w with
              | (Ok _, w1) =>
                  Driver.bind_io (Driver.parse_all Driver.json_paths)
                    Driver.write_all w1
              | (Raise e, w1) => (Raise e, w1)
              end).
  { unfold Driver.main, Driver.bind_io.
    destruct (Driver.mkdir_exist_ok w) as [[u|e] w0]; [|reflexivity].
    destruct (Driver.clear_dirs w0) as [[u'|e] w1]; reflexivity. }
  rewrite Hmain.
  destruct (Driver.bind_io Driver.mkdir_exist_ok (fun _ => Driver.clear_dirs) w)
    as [[u|e] w1]; cbn [fst snd] in *.
  2:{ repeat split; discriminate. }
  rewrite <- Hb in Hs.
  pose proof (parse_all_version_differs w1 _ path schema Hin Hs Hv) as Hall.
  pose proof (parse_all_reads w1 Driver.json_paths) as Hreads.
  unfold Driver.bind_io at 1 2 3.
  destruct (Driver.parse_all Driver.json_paths w1) as [[ds|e] w2] eqn:E;
    cbn [fst snd] in *; [discriminate|].
  subst w2. repeat split.
  intros _ Hfirst.
  assert (He : fst (Driver.parse_all Driver.json_paths w1) = Raise AssertionError).
  { pose proof (parse_version_differs w1 path schema Hs Hv) as Hp.
    unfold Driver.json_paths in *. cbn [Driver.parse_all]. unfold Driver.bind_io.
    destruct Hfirst as [->|Hok].
    - now rewrite Hp.
    - assert (Hok1 : is_ok (fst (Driver.parse "browser_protocol.json" w1)) = true)
        by (rewrite (parse_result w w1 "browser_protocol.json" Hb); exact Hok).
      clear Hok. rename Hok1 into Hok.
      destruct Hin as [<-|[<-|[]]].
      + rewrite Hp in Hok. discriminate.
      + pose proof (parse_reads w1 "browser_protocol.json") as Hr.
        destruct (Driver.parse "browser_protocol.json" w1) as [[ds|e'] w2];
          cbn [fst snd] in *; [|discriminate].
        subst w2. now rewrite Hp. }
  rewrite E in He. simpl in He. inversion He. reflexivity.
Qed.

Lemma C9_witness :
  In "js_protocol.json" Driver.json_paths
  /\ Json.assoc "js_protocol.json" (Driver.build earlier_run) = Some old_schema
  /\ version_differs old_schema
  /\ Driver.parse "js_protocol.json" earlier_run = (Raise AssertionError, earlier_run)
  /\ is_ok (fst (Driver.main earlier_run)) = false
  /\ fst (Driver.main earlier_run) = Raise AssertionError.
Proof.
  assert (Hin : In "js_protocol.json" Driver.json_paths)
    by (right; left; reflexivity).
  assert (Hv : version_differs old_schema).
  { exists (JObj [("major", JStr "1"); ("minor", JStr "2")]), (JStr "1"), (JStr "2").
    repeat split; discriminate. }
  destruct (C9_version_mismatch_aborts earlier_run "js_protocol.json" old_schema
              Hin eq_refl Hv) as (Hp & Hok & _ & He).
  split; [exact Hin|]. split; [reflexivity|]. split; [exact Hv|].
  split; [exact Hp|]. split; [exact Hok|].
  apply He; [reflexivity|right; reflexivity].
Defined.

(** The run of the claim is not atomic: on the description of version 1.2
    the run ends in [AssertionError] with [__init__.py] and the
    sub-directory of the package gone. *)
Lemma C9_counterexample :
  version_differs old_schema
  /\ Driver.main earlier_run
     = (Raise AssertionError,
        Driver.mk_world (Driver.build earlier_run)
          (Some (Driver.Dir
                   [("util.py", Driver.File "T_JSON_DICT = dict");
                    ("dom.py", Driver.File "class NodeId(int): pass")])))
  /\ Driver.cdp (snd (Driver.main earlier_run)) <> Driver.cdp earlier_run.
Proof.
  split.
  - exists (JObj [("major", JStr "1"); ("minor", JStr "2")]), (JStr "1"), (JStr "2").
    repeat split; discriminate.
  - split; [vm_compute; reflexivity|]. vm_compute. discriminate.
Qed.

(** ** The results of a command, by their number *)

(** No result: [None].  One result: its value.  More: the tuple of the
    values, in the order of the schema. *)
Lemma resume_by_number tj fj (f : Py.function) (locals : Sem.env)
    (response : Sem.value) :
  Sem.resume tj fj f locals response
  = match Py.fn_returns f with
    | [] => Ok Sem.VNone
    | [e] => Sem.eval tj fj (Sem.set_key "json" response locals) e
    | es =>
        fmap Sem.VTuple
          (mapM (Sem.eval tj fj (Sem.set_key "json" response locals)) es)
    end.
Proof. reflexivity. Qed.

(** The example of the specification: the results [p], a string, and [q],
    an integer, of the response [{p: "v", q: 3}] come back as the pair
    [("v", 3)]. *)
Example get_pair_results :
  exists f,
    Ast.function get_pair = Ok f
    /\ map Py.print_expr (Py.fn_returns f)
       = ["str(json['p'])"; "int(json['q'])"]
    /\ Sem.resume wrapper_to_json wrapper_from_json f []
         (Sem.VDict [("p", Sem.VStr "v"); ("q", Sem.VInt 3)])
       = Ok (Sem.VTuple [Sem.VStr "v"; Sem.VInt 3]).
Proof.
  eexists. split; [vm_compute; reflexivity|].
  split; vm_compute; reflexivity.
Qed.

(** * Further properties of the generator *)

(** ** When the generators return *)

Lemma is_ok_bind {A B : Type} (m : result A) (k : A -> result B) :
  is_ok (x <- m ;; k x)
  = match m with
    | Ok a => is_ok (k a)
    | Raise _ => false
    end.
Proof. now destruct m. Qed.

Lemma is_ok_mapM {A B : Type} (f : A -> result B) (l : list A) :
  is_ok (mapM f l) = forallb (fun a => is_ok (f a)) l.
Proof.
  induction l as [|a l IH]; simpl; [reflexivity|].
  destruct (f a); simpl; [|reflexivity].
  rewrite <- IH. now destruct (mapM f l).
Qed.

Lemma is_ok_ref_to_python (r : string) :
  is_ok (ref_to_python r) = Wf.resolves r.
Proof.
  unfold Wf.resolves.
  destruct (Nat.leb (count "." r) 1) eqn:E.
  - apply Nat.leb_le in E.
    destruct (ref_to_python_total r E) as (s & ->). reflexivity.
  - apply Nat.leb_gt in E.
    now rewrite ref_to_python_many_dots by lia.
Qed.

Lemma is_ok_getitem (ty : option string) :
  is_ok (CdpPrimitiveType.getitem ty) = Wf.primitive ty.
Proof.
  destruct ty as [n|]; [|reflexivity].
  unfold CdpPrimitiveType.getitem, CdpPrimitiveType.members, Wf.primitive.
  simpl.
  repeat match goal with
         | |- context [String.eqb n ?s] => destruct (String.eqb n s)
         end; reflexivity.
Qed.

Lemma is_ok_bare_annotation (p : CdpProperty.t) :
  is_ok (CdpProperty.bare_annotation p) = Wf.annotation p.
Proof.
  unfold CdpProperty.bare_annotation, Wf.annotation, Wf.items.
  destruct (CdpProperty.items p) as [it|].
  - destruct (truthy (CdpItems.ref it)) as [r|]; rewrite is_ok_bind.
    + rewrite <- is_ok_ref_to_python. now destruct (ref_to_python r).
    + rewrite <- is_ok_getitem. now destruct (CdpPrimitiveType.getitem _).
  - destruct (truthy (CdpProperty.ref p)) as [r|]; rewrite is_ok_bind.
    + rewrite <- is_ok_ref_to_python. now destruct (ref_to_python r).
    + rewrite <- is_ok_getitem. now destruct (CdpPrimitiveType.getitem _).
Qed.

Lemma is_ok_py_annotation (p : CdpProperty.t) :
  is_ok (CdpProperty.py_annotation p) = Wf.annotation p.
Proof.
  unfold CdpProperty.py_annotation. rewrite is_ok_bind, <- is_ok_bare_annotation.
  now destruct (CdpProperty.bare_annotation p).
Qed.

Lemma is_ok_generate_decl (p : CdpProperty.t) :
  is_ok (CdpProperty.generate_decl p) = Wf.annotation p.
Proof.
  unfold CdpProperty.generate_decl. rewrite is_ok_bind, <- is_ok_py_annotation.
  now destruct (CdpProperty.py_annotation p).
Qed.

Lemma is_ok_parameter_code (p : CdpParameter.t) :
  is_ok (CdpParameter.generate_code p) = Wf.annotation p.
Proof.
  unfold CdpParameter.generate_code.
  rewrite is_ok_bind, <- is_ok_bare_annotation.
  now destruct (CdpProperty.bare_annotation p).
Qed.

Lemma is_ok_parameter_decl (p : CdpParameter.t) :
  is_ok (CdpParameter.generate_decl p) = Wf.annotation p.
Proof.
  unfold CdpParameter.generate_decl.
  rewrite is_ok_bind, <- is_ok_py_annotation.
  now destruct (CdpProperty.py_annotation p).
Qed.

(** The expression of [from_json] asks less than the annotation: it does
    not look the type of a plain property up. *)
Lemma annotation_generate_from_json (p : CdpProperty.t) (dict_ : string) :
  Wf.annotation p = true ->
  is_ok (CdpProperty.generate_from_json p dict_) = true.
Proof.
  unfold Wf.annotation, Wf.items, CdpProperty.generate_from_json.
  intros H. rewrite is_ok_bind.
  destruct (CdpProperty.items p) as [it|].
  - destruct (truthy (CdpItems.ref it)) as [r|].
    + rewrite <- is_ok_ref_to_python in H. now destruct (ref_to_python r).
    + rewrite <- is_ok_getitem in H.
      now destruct (CdpPrimitiveType.getitem (CdpItems.type it)).
  - destruct (truthy (CdpProperty.ref p)) as [r|]; [|reflexivity].
    rewrite <- is_ok_ref_to_python in H. now destruct (ref_to_python r).
Qed.

Lemma forallb_pointwise {A : Type} (f g : A -> bool) (l : list A) :
  (forall a, f a = g a) -> forallb f l = forallb g l.
Proof.
  intros H. induction l as [|a l IH]; simpl; [reflexivity|].
  now rewrite H, IH.
Qed.

Lemma forallb_sorted_props (f : CdpProperty.t -> bool) (t0 : CdpType.t) :
  forallb f (CdpType.sorted_props t0) = forallb f (CdpType.properties t0).
Proof.
  apply eq_true_iff_eq. rewrite !forallb_forall.
  split; intros H q Hq; apply H; now apply sorted_props_In.
Qed.

Lemma is_ok_generate_class_code (t0 : CdpType.t) :
  is_ok (CdpType.generate_class_code t0)
  = forallb Wf.annotation (CdpType.properties t0).
Proof.
  unfold CdpType.generate_class_code.
  rewrite is_ok_bind.
  destruct (mapM _ (CdpType.sorted_props t0)) as [decls|] eqn:E.
  - assert (H : forallb Wf.annotation (CdpType.properties t0) = true).
    { rewrite <- forallb_sorted_props.
      pose proof (is_ok_mapM
                    (fun p => d <- CdpProperty.generate_decl p ;; Ok (indent d 4))
                    (CdpType.sorted_props t0)) as Hm.
      rewrite E in Hm. simpl in Hm. rewrite Hm. apply forallb_pointwise.
      intros p. rewrite is_ok_bind, <- is_ok_generate_decl.
      now destruct (CdpProperty.generate_decl p). }
    rewrite H, is_ok_bind.
    destruct (mapM _ (CdpType.properties t0)) as [args|] eqn:E2;
      [reflexivity|].
    pose proof (is_ok_mapM
                  (fun p => e <- CdpProperty.generate_from_json p "json" ;;
                            Ok (CdpProperty.name p ++ "=" ++ e ++ ","))
                  (CdpType.properties t0)) as Hm.
    rewrite E2 in Hm. simpl in Hm.
    rewrite forallb_forall in H.
    rewrite (proj2 (forallb_forall _ _)) in Hm; [discriminate|].
    intros p Hp. rewrite is_ok_bind.
    pose proof (annotation_generate_from_json p "json" (H p Hp)) as Hok.
    now destruct (CdpProperty.generate_from_json p "json").
  - pose proof (is_ok_mapM
                  (fun p => d <- CdpProperty.generate_decl p ;; Ok (indent d 4))
                  (CdpType.sorted_props t0)) as Hm.
    rewrite E in Hm. simpl in Hm.
    rewrite <- forallb_sorted_props, Hm. apply forallb_pointwise.
    intros p. rewrite is_ok_bind, <- is_ok_generate_decl.
    now destruct (CdpProperty.generate_decl p).
Qed.

Lemma is_ok_bind_const {A B : Type} (m : result A) (k : A -> result B) (b : bool) :
  (forall a, is_ok (k a) = b) -> is_ok (x <- m ;; k x) = is_ok m && b.
Proof. intros H. destruct m as [a|e]; simpl; [apply H|reflexivity]. Qed.

Lemma is_ok_mapM_eq {A B : Type} (f : A -> result B) (g : A -> bool)
    (l : list A) :
  (forall a, is_ok (f a) = g a) -> is_ok (mapM f l) = forallb g l.
Proof. intros H. rewrite is_ok_mapM. now apply forallb_pointwise. Qed.

Lemma is_ok_generate_primitive_code (t0 : CdpType.t) :
  is_ok (CdpType.generate_primitive_code t0)
  = match CdpType.items t0 with
    | Some it => Wf.items it
    | None => Wf.primitive (CdpType.type t0)
    end.
Proof.
  unfold CdpType.generate_primitive_code, Wf.items. rewrite is_ok_bind.
  destruct (CdpType.items t0) as [it|].
  - destruct (truthy (CdpItems.ref it)) as [r|].
    + rewrite <- is_ok_ref_to_python. now destruct (ref_to_python r).
    + rewrite <- is_ok_getitem.
      now destruct (CdpPrimitiveType.getitem (CdpItems.type it)).
  - rewrite <- is_ok_getitem.
    now destruct (CdpPrimitiveType.getitem (CdpType.type t0)).
Qed.

(** X1: the code of a type is generated exactly when every reference it
    has to resolve has at most one dot and every kind it has to look up is
    one of the six primitive types: nothing is asked of an enumeration, the
    annotation of each property is asked of a composite type, and the items
    or else the kind of a wrapper type. *)
Theorem type_generates_iff (t0 : CdpType.t) :
  is_ok (CdpType.generate_code t0) = Wf.type t0.
Proof.
  pose proof (is_ok_generate_class_code t0) as Hc.
  pose proof (is_ok_generate_primitive_code t0) as Hp.
  unfold CdpType.generate_code, Wf.type.
  destruct (CdpType.enum t0) as [[|v vs]|] eqn:E.
  - destruct (CdpType.properties t0); assumption.
  - unfold CdpType.generate_enum_code. now rewrite E.
  - destruct (CdpType.properties t0); assumption.
Qed.

Lemma annotation_generate_return (r : CdpReturn.t) (dict_ : string) :
  Wf.annotation r = true -> is_ok (CdpReturn.generate_return r dict_) = true.
Proof.
  intros H. unfold CdpReturn.generate_return. rewrite is_ok_bind.
  pose proof (annotation_generate_from_json r "json" H) as Hok.
  now destruct (CdpProperty.generate_from_json r "json").
Qed.

Lemma is_ok_parameter_from_json (p : CdpParameter.t) (dict_ : string) :
  is_ok (CdpParameter.generate_from_json p dict_)
  = is_ok (CdpProperty.generate_from_json p dict_).
Proof.
  unfold CdpParameter.generate_from_json. rewrite is_ok_bind.
  now destruct (CdpProperty.generate_from_json p dict_).
Qed.

Lemma is_ok_generate_header (c : CdpCommand.t) :
  is_ok (CdpCommand.generate_header c) = Wf.command c.
Proof.
  unfold CdpCommand.generate_header, Wf.command.
  rewrite (is_ok_bind_const _ _ (forallb Wf.annotation (CdpCommand.parameters c))).
  - f_equal. destruct (CdpCommand.returns c) as [|r [|r' rs]].
    + reflexivity.
    + simpl. rewrite andb_true_r. apply is_ok_bare_annotation.
    + rewrite (is_ok_bind_const _ _ true) by reflexivity.
      rewrite andb_true_r. apply is_ok_mapM_eq. apply is_ok_bare_annotation.
  - intros ret_type. destruct (CdpCommand.parameters c) as [|p ps] eqn:E.
    + reflexivity.
    + rewrite (is_ok_bind_const _ _ true) by reflexivity.
      rewrite andb_true_r. apply is_ok_mapM_eq. apply is_ok_parameter_code.
Qed.

Lemma annotation_generate_body (c : CdpCommand.t) :
  forallb Wf.annotation (CdpCommand.returns c) = true ->
  is_ok (CdpCommand.generate_body c) = true.
Proof.
  intros H. unfold CdpCommand.generate_body.
  destruct (CdpCommand.returns c) as [|r rs]; [reflexivity|].
  rewrite (is_ok_bind_const _ _ true) by reflexivity.
  rewrite andb_true_r, is_ok_mapM.
  rewrite forallb_forall in H. apply forallb_forall.
  intros q Hq. apply annotation_generate_return. now apply H.
Qed.

(** X2: the function of a command is generated exactly when the annotation
    of each of its results and of each of its parameters can be written. *)
Theorem command_generates_iff (c : CdpCommand.t) :
  is_ok (CdpCommand.generate_code c) = Wf.command c.
Proof.
  unfold CdpCommand.generate_code.
  rewrite is_ok_bind. rewrite <- is_ok_generate_header.
  destruct (CdpCommand.generate_header c) as [header|] eqn:E; [|reflexivity].
  rewrite (is_ok_bind_const _ _ true) by reflexivity.
  rewrite andb_true_r. apply annotation_generate_body.
  pose proof (is_ok_generate_header c) as H. rewrite E in H.
  unfold Wf.command in H. symmetry in H. apply andb_true_iff in H. tauto.
Qed.

(** X3: the class of an event is generated exactly when the annotation of
    each of its parameters can be written. *)
Theorem event_generates_iff (e : CdpEvent.t) :
  is_ok (CdpEvent.generate_code e) = Wf.event e.
Proof.
  unfold CdpEvent.generate_code, Wf.event.
  rewrite is_ok_bind.
  rewrite <- (is_ok_mapM_eq CdpParameter.generate_decl Wf.annotation)
    by apply is_ok_parameter_decl.
  destruct (mapM CdpParameter.generate_decl (CdpEvent.parameters e))
    as [decls|] eqn:E; [|reflexivity].
  rewrite (is_ok_bind_const _ _ true) by reflexivity.
  rewrite andb_true_r, is_ok_mapM.
  pose proof (is_ok_mapM_eq CdpParameter.generate_decl Wf.annotation
                (CdpEvent.parameters e) is_ok_parameter_decl) as H.
  rewrite E in H. symmetry in H. rewrite forallb_forall in H.
  apply forallb_forall. intros p Hp.
  rewrite is_ok_parameter_from_json.
  apply annotation_generate_from_json. now apply H.
Qed.

(** X4: the module of a domain is generated exactly when each of its
    types, each of its commands and each of its events is. *)
Theorem domain_generates_iff (d : CdpDomain.t) :
  is_ok (CdpDomain.generate_code d)
  = forallb (fun t0 => is_ok (CdpType.generate_code t0)) (CdpDomain.types d)
    && forallb (fun c => is_ok (CdpCommand.generate_code c)) (CdpDomain.commands d)
    && forallb (fun e => is_ok (CdpEvent.generate_code e)) (CdpDomain.events d).
Proof.
  unfold CdpDomain.generate_code.
  rewrite <- !is_ok_mapM.
  destruct (mapM CdpType.generate_code (CdpDomain.types d)); [|reflexivity].
  destruct (mapM CdpCommand.generate_code (CdpDomain.commands d)); [|reflexivity].
  destruct (mapM CdpEvent.generate_code (CdpDomain.events d)); reflexivity.
Qed.

(** ** The exceptions of the generators *)

Lemma bind_raises {A B : Type} (P : exn -> Prop) (m : result A)
    (k : A -> result B) :
  (forall e, m = Raise e -> P e) ->
  (forall a e, k a = Raise e -> P e) ->
  forall e, (x <- m ;; k x) = Raise e -> P e.
Proof.
  intros Hm Hk e. destruct m as [a|e']; simpl.
  - apply Hk.
  - intros H. apply Hm. congruence.
Qed.

Lemma mapM_raises {A B : Type} (P : exn -> Prop) (f : A -> result B)
    (l : list A) :
  (forall a e, f a = Raise e -> P e) ->
  forall e, mapM f l = Raise e -> P e.
Proof.
  intros Hf. induction l as [|a l IH]; intros e; simpl; [discriminate|].
  apply bind_raises; [apply Hf|]. intros b.
  apply bind_raises; [apply IH|]. discriminate.
Qed.

Lemma ref_to_python_raises (r : string) (e : exn) :
  ref_to_python r = Raise e -> e = KeyError \/ e = ValueError.
Proof.
  unfold ref_to_python. destruct (contains "." r); [|discriminate].
  destruct (split "." r) as [|a [|b [|c l]]]; intros H; inversion H; auto.
Qed.

Lemma getitem_raises (ty : option string) (e : exn) :
  CdpPrimitiveType.getitem ty = Raise e -> e = KeyError \/ e = ValueError.
Proof.
  unfold CdpPrimitiveType.getitem. destruct ty as [n|].
  - destruct (Json.assoc n CdpPrimitiveType.members); intros H; inversion H; auto.
  - intros H; inversion H; auto.
Qed.

Ltac raises :=
  repeat first
    [ discriminate
    | apply ref_to_python_raises
    | apply getitem_raises
    | apply bind_raises; [|intros ?]
    | apply mapM_raises; intros ? ].

Lemma bare_annotation_raises_only (p : CdpProperty.t) (e : exn) :
  CdpProperty.bare_annotation p = Raise e -> e = KeyError \/ e = ValueError.
Proof.
  revert e. unfold CdpProperty.bare_annotation.
  destruct (CdpProperty.items p) as [it|];
    [destruct (truthy (CdpItems.ref it))|destruct (truthy (CdpProperty.ref p))];
    raises.
Qed.

Lemma generate_from_json_raises_only (p : CdpProperty.t) (dict_ : string)
    (e : exn) :
  CdpProperty.generate_from_json p dict_ = Raise e ->
  e = KeyError \/ e = ValueError.
Proof.
  revert e. unfold CdpProperty.generate_from_json.
  apply bind_raises; [|discriminate].
  destruct (CdpProperty.items p) as [it|];
    [destruct (truthy (CdpItems.ref it))|destruct (truthy (CdpProperty.ref p))];
    raises.
Qed.

Lemma type_raises_only (t0 : CdpType.t) (e : exn) :
  CdpType.generate_code t0 = Raise e -> e = KeyError \/ e = ValueError.
Proof.
  revert e. unfold CdpType.generate_code.
  assert (Hc : forall e, CdpType.generate_class_code t0 = Raise e ->
                         e = KeyError \/ e = ValueError).
  { unfold CdpType.generate_class_code.
    apply bind_raises.
    - apply mapM_raises. intros p. apply bind_raises; [|discriminate].
      unfold CdpProperty.generate_decl. apply bind_raises; [|discriminate].
      unfold CdpProperty.py_annotation. apply bind_raises; [|discriminate].
      intros e. apply bare_annotation_raises_only.
    - intros decls. apply bind_raises; [|discriminate].
      apply mapM_raises. intros p. apply bind_raises; [|discriminate].
      intros e. apply generate_from_json_raises_only. }
  assert (Hp : forall e, CdpType.generate_primitive_code t0 = Raise e ->
                         e = KeyError \/ e = ValueError).
  { unfold CdpType.generate_primitive_code.
    apply bind_raises; [|intros [py_type superclass]; discriminate].
    destruct (CdpType.items t0) as [it|];
      [destruct (truthy (CdpItems.ref it))|]; raises. }
  destruct (CdpType.enum t0) as [[|v vs]|] eqn:E.
  - destruct (CdpType.properties t0); assumption.
  - unfold CdpType.generate_enum_code. rewrite E. discriminate.
  - destruct (CdpType.properties t0); assumption.
Qed.

Lemma command_raises_only (c : CdpCommand.t) (e : exn) :
  CdpCommand.generate_code c = Raise e -> e = KeyError \/ e = ValueError.
Proof.
  revert e. unfold CdpCommand.generate_code.
  apply bind_raises.
  - unfold CdpCommand.generate_header. apply bind_raises.
    + destruct (CdpCommand.returns c) as [|r [|r' rs]].
      * discriminate.
      * intros e. apply bare_annotation_raises_only.
      * apply bind_raises; [|discriminate].
        apply mapM_raises. intros q e. apply bare_annotation_raises_only.
    + intros ret_type. destruct (CdpCommand.parameters c); [discriminate|].
      apply bind_raises; [|discriminate].
      apply mapM_raises. intros q. unfold CdpParameter.generate_code.
      apply bind_raises; [|discriminate].
      intros e. apply bare_annotation_raises_only.
  - intros header. apply bind_raises; [|discriminate].
    unfold CdpCommand.generate_body.
    destruct (CdpCommand.returns c); [discriminate|].
    apply bind_raises; [|discriminate].
    apply mapM_raises. intros q. unfold CdpReturn.generate_return.
    apply bind_raises; [|discriminate].
    intros e. apply generate_from_json_raises_only.
Qed.

Lemma event_raises_only (ev : CdpEvent.t) (e : exn) :
  CdpEvent.generate_code ev = Raise e -> e = KeyError \/ e = ValueError.
Proof.
  revert e. unfold CdpEvent.generate_code.
  apply bind_raises.
  - apply mapM_raises. intros q. unfold CdpParameter.generate_decl.
    apply bind_raises; [|discriminate].
    unfold CdpProperty.py_annotation. apply bind_raises; [|discriminate].
    intros e. apply bare_annotation_raises_only.
  - intros decls. apply bind_raises; [|discriminate].
    apply mapM_raises. intros q. unfold CdpParameter.generate_from_json.
    apply bind_raises; [|discriminate].
    intros e. apply generate_from_json_raises_only.
Qed.

(** X5: when the module of a domain is not generated, the exception is the
    [KeyError] of a kind that is no primitive type or the [ValueError] of a
    reference with two dots or more, and no other. *)
Theorem domain_raises_key_or_value_error (d : CdpDomain.t) (e : exn) :
  CdpDomain.generate_code d = Raise e -> e = KeyError \/ e = ValueError.
Proof.
  revert e. unfold CdpDomain.generate_code.
  apply bind_raises.
  - apply mapM_raises. apply type_raises_only.
  - intros ts. apply bind_raises.
    + apply mapM_raises. apply command_raises_only.
    + intros cs. apply bind_raises; [|discriminate].
      apply mapM_raises. apply event_raises_only.
Qed.

Lemma domain_raises_key_or_value_error_witness :
  CdpDomain.generate_code unknown_kind = Raise KeyError
  /\ (KeyError = KeyError \/ KeyError = ValueError).
Proof.
  assert (H : CdpDomain.generate_code unknown_kind = Raise KeyError)
    by (vm_compute; reflexivity).
  split; [exact H|].
  exact (domain_raises_key_or_value_error unknown_kind KeyError H).
Defined.

(** ** The constructor call of a composite type, again *)

Lemma from_json_needs_snake_case_names_witness :
  exists c,
    Ast.dataclass camel_case = Ok c
    /\ is_ok (Sem.dataclass_from_json wrapper_to_json wrapper_from_json c
                (Sem.VDict [("nodeId", Sem.VInt 1)])) = false.
Proof.
  eexists. split; [vm_compute; reflexivity|].
  apply (from_json_needs_snake_case_names camel_case _
           (CdpProperty.mk "nodeId" None (Some "integer") None None None false)).
  - vm_compute. reflexivity.
  - left. reflexivity.
  - intros q [<-|[]]. vm_compute. discriminate.
Defined.

(** ** The constructor call of an event *)





(** ** An optional value that is not there *)



(** ** The references that resolve *)

Lemma split_no_separator (c : ascii) (s : string) :
  count c s = 0 -> split c s = [s].
Proof.
  induction s as [|a s IH]; simpl; [reflexivity|].
  destruct (Ascii.eqb a c); [discriminate|].
  intros H. now rewrite IH.
Qed.

Lemma split_one_separator (c : ascii) (d n : string) :
  count c d = 0 -> count c n = 0 ->
  split c (d ++ String c n) = [d; n].
Proof.
  intros Hd Hn. induction d as [|a d IH]; simpl.
  - rewrite Ascii.eqb_refl. now rewrite split_no_separator.
  - simpl in Hd. destruct (Ascii.eqb a c); [discriminate|].
    now rewrite IH.
Qed.

Lemma contains_separator (c : ascii) (d n : string) :
  contains c (d ++ String c n) = true.
Proof.
  induction d as [|a d IH]; simpl.
  - now rewrite Ascii.eqb_refl.
  - rewrite IH. apply orb_true_r.
Qed.

Lemma contains_no_separator (c : ascii) (s : string) :
  count c s = 0 -> contains c s = false.
Proof.
  induction s as [|a s IH]; simpl; [reflexivity|].
  destruct (Ascii.eqb a c); [discriminate|]. exact IH.
Qed.

(** X9: a name without a dot is its own Python name, and the reference
    [d.n] to a name of another domain resolves to the snake case of [d], a
    dot, and [n] as it stands. *)
Theorem ref_to_python_dotted (d n : string) :
  count "." d = 0 -> count "." n = 0 ->
  ref_to_python n = Ok n
  /\ ref_to_python (d ++ "." ++ n) = Ok (underscore d ++ "." ++ n).
Proof.
  intros Hd Hn. unfold ref_to_python. split.
  - now rewrite contains_no_separator.
  - change (d ++ "." ++ n) with (d ++ String "." n).
    now rewrite contains_separator, split_one_separator.
Qed.

Lemma ref_to_python_dotted_witness :
  ref_to_python "RemoteObject" = Ok "RemoteObject"
  /\ ref_to_python "DOMSnapshot.RemoteObject" = Ok "dom_snapshot.RemoteObject".
Proof.
  apply (ref_to_python_dotted "DOMSnapshot" "RemoteObject"); reflexivity.
Defined.

(** ** The results of a command *)

Lemma mapM_nth_error {A B : Type} (f : A -> result B) (l : list A)
    (bs : list B) (i : nat) (a : A) :
  mapM f l = Ok bs -> nth_error l i = Some a ->
  exists b, f a = Ok b /\ nth_error bs i = Some b.
Proof.
  revert bs i. induction l as [|x l IH]; intros bs i H Hi.
  - destruct i; discriminate.
  - simpl in H. apply bind_ok in H. destruct H as (b & Hb & H).
    apply bind_ok in H. destruct H as (bs' & Hbs & H). inversion H; subst bs.
    destruct i as [|i]; simpl in Hi.
    + inversion Hi; subst. now exists b.
    + simpl. now apply IH.
Qed.

(** X10: a command with two results or more returns a tuple with one
    component for each result, in the order of the schema: the component
    at a position is the value of the expression [generate_return] emits
    for the result at that position. *)
Theorem results_tuple tj fj (c : CdpCommand.t) (f : Py.function)
    (locals : Sem.env) (response v : Sem.value) :
  2 <= List.length (CdpCommand.returns c) ->
  Ast.function c = Ok f ->
  Sem.resume tj fj f locals response = Ok v ->
  exists vs,
    v = Sem.VTuple vs
    /\ List.length vs = List.length (CdpCommand.returns c)
    /\ forall i r,
         nth_error (CdpCommand.returns c) i = Some r ->
         exists e x,
           Ast.generate_return r "json" = Ok e
           /\ Sem.eval tj fj (Sem.set_key "json" response locals) e = Ok x
           /\ nth_error vs i = Some x.
Proof.
  intros Hlen Hf Hv. unfold Ast.function in Hf.
  apply bind_ok in Hf. destruct Hf as (header & _ & Hf).
  apply bind_ok in Hf. destruct Hf as (rets & Hrets & Hf).
  inversion Hf; subst f. unfold Sem.resume in Hv. cbn [Py.fn_returns] in Hv.
  pose proof (mapM_length _ _ _ Hrets) as Hl.
  assert (Hm : exists vs,
             mapM (Sem.eval tj fj (Sem.set_key "json" response locals)) rets
             = Ok vs /\ v = Sem.VTuple vs).
  { destruct rets as [|e1 [|e2 rets]]; simpl in Hl; [lia|lia|].
    apply fmap_ok in Hv. destruct Hv as (vs & Hvs & ->). now exists vs. }
  destruct Hm as (vs & Hvs & ->). exists vs. split; [reflexivity|].
  split; [rewrite (mapM_length _ _ _ Hvs); exact Hl|].
  intros i r Hi.
  destruct (mapM_nth_error _ _ _ _ _ Hrets Hi) as (e & He & Hei).
  destruct (mapM_nth_error _ _ _ _ _ Hvs Hei) as (x & Hx & Hxi).
  now exists e, x.
Qed.

Lemma results_tuple_witness :
  exists f,
    Ast.function get_pair = Ok f
    /\ exists vs,
         Sem.VTuple [Sem.VStr "v"; Sem.VInt 3] = Sem.VTuple vs
         /\ List.length vs = 2.
Proof.
  pose (f := match Ast.function get_pair with
             | Ok f => f
             | Raise _ => Py.mk_function (Py.mk_header "" [] "") "" false [] "" []
             end).
  exists f. split; [vm_compute; reflexivity|].
  destruct (results_tuple wrapper_to_json wrapper_from_json get_pair f []
              (Sem.VDict [("p", Sem.VStr "v"); ("q", Sem.VInt 3)])
              (Sem.VTuple [Sem.VStr "v"; Sem.VInt 3]))
    as (vs & Hv & Hl & _).
  - simpl. lia.
  - vm_compute. reflexivity.
  - vm_compute. reflexivity.
  - exists vs. split; [exact Hv|exact Hl].
Defined.

(** ** The loaders *)

Lemma mapM_Forall {A B : Type} (P : B -> Prop) (f : A -> result B)
    (l : list A) (bs : list B) :
  (forall a b, f a = Ok b -> P b) -> mapM f l = Ok bs -> Forall P bs.
Proof.
  intros Hf. revert bs. induction l as [|a l IH]; simpl; intros bs H.
  - inversion H. constructor.
  - apply bind_ok in H. destruct H as (b & Hb & H).
    apply bind_ok in H. destruct H as (bs' & Hbs & H). inversion H; subst.
    constructor; [now apply (Hf a)|now apply IH].
Qed.

Ltac bind_inv H :=
  repeat (apply bind_ok in H;
          let x := fresh "x" in
          let Hx := fresh "Hx" in
          destruct H as (x & Hx & H)).

Lemma command_from_json_domain (j : json) (domain : string) (c : CdpCommand.t) :
  CdpCommand.from_json j domain = Ok c -> CdpCommand.domain c = domain.
Proof.
  unfold CdpCommand.from_json. intros H. bind_inv H. now inversion H.
Qed.

Lemma event_from_json_domain (j : json) (domain : string) (e : CdpEvent.t) :
  CdpEvent.from_json j domain = Ok e -> CdpEvent.domain e = domain.
Proof.
  unfold CdpEvent.from_json. intros H. bind_inv H. now inversion H.
Qed.

(** X11: a domain that was loaded has the name its description gives
    under [domain], and each of its commands and events carries this name:
    the method of a request and the tag of an event class are built from
    it. *)
Theorem domain_from_json_names (j : json) (d : CdpDomain.t) :
  CdpDomain.from_json j = Ok d ->
  Json.getitem j "domain" = Ok (JStr (CdpDomain.domain d))
  /\ Forall (fun c => CdpCommand.domain c = CdpDomain.domain d)
            (CdpDomain.commands d)
  /\ Forall (fun e => CdpEvent.domain e = CdpDomain.domain d)
            (CdpDomain.events d).
Proof.
  unfold CdpDomain.from_json. intros H. bind_inv H. inversion H; subst d.
  cbn [CdpDomain.domain CdpDomain.commands CdpDomain.events].
  repeat match goal with
         | Hn : Json.as_name ?j0 = Ok ?n |- _ =>
             destruct j0; try discriminate Hn; inversion Hn; subst; clear Hn
         end.
  split; [assumption|]. split.
  - match goal with
    | Hm : mapM (fun c => CdpCommand.from_json c _) _ = Ok _ |- _ =>
        apply (mapM_Forall _ _ _ _ (fun a b => command_from_json_domain a _ b) Hm)
    end.
  - match goal with
    | Hm : mapM (fun e => CdpEvent.from_json e _) _ = Ok _ |- _ =>
        apply (mapM_Forall _ _ _ _ (fun a b => event_from_json_domain a _ b) Hm)
    end.
Qed.

Lemma domain_from_json_names_witness :
  exists d,
    CdpDomain.from_json dom_json = Ok d
    /\ Json.getitem dom_json "domain" = Ok (JStr (CdpDomain.domain d))
    /\ Forall (fun c => CdpCommand.domain c = CdpDomain.domain d)
              (CdpDomain.commands d)
    /\ Forall (fun e => CdpEvent.domain e = CdpDomain.domain d)
              (CdpDomain.events d).
Proof.
  pose (d := match CdpDomain.from_json dom_json with
             | Ok d => d
             | Raise _ => unknown_kind
             end).
  assert (H : CdpDomain.from_json dom_json = Ok d) by (vm_compute; reflexivity).
  exists d. split; [exact H|].
  exact (domain_from_json_names dom_json d H).
Defined.

(** ** The package directory *)

Lemma remove_key_filter {A : Type} (k : string) (m : list (string * A)) :
  Driver.remove_key k m = filter (fun e => negb (String.eqb k (fst e))) m.
Proof.
  induction m as [|[k' v] m IH]; simpl; [reflexivity|].
  destruct (String.eqb k k'); simpl; now rewrite IH.
Qed.

Lemma remove_key_absent {A : Type} (k : string) (m : list (string * A)) :
  Json.assoc k m = None -> Driver.remove_key k m = m.
Proof.
  induction m as [|[k' v] m IH]; simpl; [reflexivity|].
  destruct (String.eqb k k'); [discriminate|].
  intros H. now rewrite IH.
Qed.

Lemma filter_and {A : Type} (f g : A -> bool) (l : list A) :
  filter f (filter g l) = filter (fun x => g x && f x) l.
Proof.
  induction l as [|a l IH]; simpl; [reflexivity|].
  destruct (g a); simpl; [|assumption].
  destruct (f a); now rewrite IH.
Qed.

Lemma NoDup_fst_inj {A : Type} (l : list (string * A)) (a b : string * A) :
  NoDup (map fst l) -> In a l -> In b l -> fst a = fst b -> a = b.
Proof.
  intros Hnd Ha Hb Hk. destruct a as [k v], b as [k' v']. simpl in Hk. subst k'.
  pose proof (get_key_NoDup k v l Hnd Ha) as H1.
  pose proof (get_key_NoDup k v' l Hnd Hb) as H2.
  congruence.
Qed.

(** The loop of [clear_dirs]: the directories of [l] are removed from the
    entries. *)
Lemma clear_loop (b : list (string * json)) (l cur : list (string * Driver.node)) :
  Driver.for_each
    (fun sub => if Driver.is_dir (snd sub) then Driver.rmdir (fst sub)
                else Driver.ret tt)
    l (Driver.mk_world b (Some (Driver.Dir cur)))
  = (Ok tt,
     Driver.mk_world b
       (Some (Driver.Dir
                (filter (fun e =>
                           negb (existsb (fun d => Driver.is_dir (snd d)
                                                   && String.eqb (fst d) (fst e)) l))
                        cur)))).
Proof.
  revert cur. induction l as [|[k n] l IH]; intros cur.
  - simpl. now rewrite filter_true.
  - cbn [Driver.for_each]. unfold Driver.bind_io. cbn [fst snd].
    destruct n as [content|sub]; cbn [Driver.is_dir].
    + unfold Driver.ret at 1. rewrite IH. reflexivity.
    + unfold Driver.rmdir, Driver.entries, Driver.set_entries.
      cbn [Driver.cdp Driver.build]. rewrite IH.
      rewrite remove_key_filter, filter_and. do 4 f_equal.
      apply filter_ext. intros e. cbn [existsb fst snd Driver.is_dir].
      now rewrite negb_orb.
Qed.

Lemma clear_final (es es1 : list (string * Driver.node)) :
  NoDup (map fst es) ->
  es1 = Driver.remove_key "__init__.py" es ->
  filter (fun e =>
            negb (existsb (fun d => Driver.is_dir (snd d)
                                    && String.eqb (fst d) (fst e)) es1))
         es1
  = filter (fun e => negb (Driver.is_dir (snd e))
                     && negb (String.eqb (fst e) "__init__.py"))
           es.
Proof.
  intros Hnd ->. rewrite remove_key_filter, filter_and.
  apply filter_ext_in. intros e He.
  destruct (String.eqb_spec "__init__.py" (fst e)) as [Heq|Hne].
  - rewrite <- Heq. rewrite String.eqb_refl. simpl. symmetry. apply andb_false_r.
  - assert (Hne2 : String.eqb (fst e) "__init__.py" = false)
      by (apply String.eqb_neq; congruence).
    rewrite Hne2. cbn [negb andb]. rewrite andb_true_r. f_equal.
    destruct (Driver.is_dir (snd e)) eqn:Ed.
    + apply existsb_exists. exists e. split.
      * apply filter_In. split; [assumption|].
        apply negb_true_iff. now apply String.eqb_neq.
      * now rewrite Ed, String.eqb_refl.
    + apply not_true_is_false. intros Hex.
      apply existsb_exists in Hex. destruct Hex as (d & Hd & Hdk).
      apply filter_In in Hd. destruct Hd as [Hd _].
      apply andb_true_iff in Hdk. destruct Hdk as [Hdd Hdk].
      apply String.eqb_eq in Hdk.
      rewrite (NoDup_fst_inj es d e Hnd Hd He Hdk) in Hdd. congruence.
Qed.

(** X12: [clear_dirs] on a package directory whose [__init__.py], if
    there, is a file: it returns, and what is left in the directory is
    its files other than [__init__.py], in their order.  Every
    sub-directory is gone with what it held, and [util.py], the modules
    and [py.typed] of an earlier run stay. *)
Theorem clear_dirs_keeps_files (w : Driver.world)
    (es : list (string * Driver.node)) :
  Driver.cdp w = Some (Driver.Dir es) ->
  NoDup (map fst es) ->
  (forall sub, Json.assoc "__init__.py" es <> Some (Driver.Dir sub)) ->
  Driver.clear_dirs w
  = (Ok tt,
     Driver.mk_world (Driver.build w)
       (Some (Driver.Dir
                (filter (fun e => negb (Driver.is_dir (snd e))
                                  && negb (String.eqb (fst e) "__init__.py"))
                        es)))).
Proof.
  intros Hcdp Hnd Hinit. destruct w as [b c]. simpl in Hcdp. subst c.
  cbn [Driver.build].
  unfold Driver.clear_dirs, Driver.bind_io, Driver.unlink.
  unfold Driver.entries at 1. cbn [Driver.cdp].
  destruct (Json.assoc "__init__.py" es) as [[content|sub]|] eqn:E.
  - unfold Driver.set_entries, Driver.entries. cbn [Driver.cdp Driver.build].
    rewrite clear_loop. do 4 f_equal. now apply clear_final.
  - exfalso. apply (Hinit sub). first [exact E | reflexivity].
  - unfold Driver.entries. cbn [Driver.cdp].
    rewrite clear_loop. do 4 f_equal. apply clear_final; [assumption|].
    symmetry. now apply remove_key_absent.
Qed.

Lemma clear_dirs_keeps_files_witness :
  Driver.clear_dirs earlier_run
  = (Ok tt,
     Driver.mk_world (Driver.build earlier_run)
       (Some (Driver.Dir
                [("util.py", Driver.File "T_JSON_DICT = dict");
                 ("dom.py", Driver.File "class NodeId(int): pass")]))).
Proof.
  assert (Hnd : NoDup ["__init__.py"; "util.py"; "dom.py"; "__pycache__"]).
  { repeat constructor; simpl; intuition discriminate. }
  refine (clear_dirs_keeps_files earlier_run _ eq_refl Hnd _).
  intros sub. vm_compute. discriminate.
Defined.

(** ** The files of the package *)

Lemma assoc_set_same {A : Type} (k : string) (v : A) (m : list (string * A)) :
  Json.assoc k (Sem.set_key k v m) = Some v.
Proof. exact (get_set_same k v m). Qed.

Lemma assoc_set_other {A : Type} (k k' : string) (v : A)
    (m : list (string * A)) :
  k <> k' -> Json.assoc k (Sem.set_key k' v m) = Json.assoc k m.
Proof. exact (get_set_other k k' v m). Qed.

(** [open('w')] on a name that is no directory: the file is there and
    empty. *)
Lemma open_w_file (name : string) (b : list (string * json))
    (es : list (string * Driver.node)) :
  (forall sub, Json.assoc name es <> Some (Driver.Dir sub)) ->
  Driver.open_w name (Driver.mk_world b (Some (Driver.Dir es)))
  = (Ok tt,
     Driver.mk_world b
       (Some (Driver.Dir (Sem.set_key name (Driver.File "") es)))).
Proof.
  intros Hn. unfold Driver.open_w, Driver.entries. cbn [Driver.cdp].
  destruct (Json.assoc name es) as [[content|sub]|] eqn:E; try reflexivity.
  exfalso. apply (Hn sub). first [exact E | reflexivity].
Qed.

(** [write] on a file that was opened: the text goes after what the file
    holds. *)
Lemma write_file (name old text : string) (b : list (string * json))
    (es : list (string * Driver.node)) :
  Driver.write name text
    (Driver.mk_world b
       (Some (Driver.Dir (Sem.set_key name (Driver.File old) es))))
  = (Ok tt,
     Driver.mk_world b
       (Some (Driver.Dir (Sem.set_key name (Driver.File (old ++ text)) es)))).
Proof.
  unfold Driver.write, Driver.entries. cbn [Driver.cdp].
  rewrite assoc_set_same. unfold Driver.set_entries. cbn [Driver.build].
  now rewrite set_set_same.
Qed.

(** X13: the module of a domain, in a package directory where its name is
    no directory.  The file is opened for writing before the code is
    generated: when the generator raises, the exception comes out and the
    file is left there, empty, whatever it held; when the generator
    returns, the file holds the code. *)
Theorem write_module_outcome (d : CdpDomain.t) (w : Driver.world)
    (es : list (string * Driver.node)) :
  Driver.cdp w = Some (Driver.Dir es) ->
  (forall sub,
      Json.assoc (CdpDomain.module d ++ ".py") es <> Some (Driver.Dir sub)) ->
  Driver.write_module d w
  = match CdpDomain.generate_code d with
    | Ok code =>
        (Ok tt,
         Driver.mk_world (Driver.build w)
           (Some (Driver.Dir
                    (Sem.set_key (CdpDomain.module d ++ ".py")
                       (Driver.File code) es))))
    | Raise e =>
        (Raise e,
         Driver.mk_world (Driver.build w)
           (Some (Driver.Dir
                    (Sem.set_key (CdpDomain.module d ++ ".py")
                       (Driver.File "") es))))
    end.
Proof.
  intros Hcdp Hn. destruct w as [b c]. simpl in Hcdp. subst c.
  cbn [Driver.build]. unfold Driver.write_module, Driver.bind_io.
  rewrite (open_w_file _ _ _ Hn). unfold Driver.lift.
  destruct (CdpDomain.generate_code d) as [code|e]; [|reflexivity].
  now rewrite write_file.
Qed.

Lemma write_module_outcome_witness :
  Driver.write_module unknown_kind earlier_run
  = (Raise KeyError,
     Driver.mk_world (Driver.build earlier_run)
       (Some (Driver.Dir
                [("__init__.py", Driver.File "import cdp.dom");
                 ("util.py", Driver.File "T_JSON_DICT = dict");
                 ("dom.py", Driver.File "class NodeId(int): pass");
                 ("__pycache__", Driver.Dir [("dom.pyc", Driver.File "")]);
                 ("page.py", Driver.File "")]))).
Proof.
  refine (write_module_outcome unknown_kind earlier_run _ eq_refl _).
  intros sub. vm_compute. discriminate.
Defined.

Lemma concat_all_cons (x : string) (l : list string) :
  concat_all (x :: l) = x ++ concat_all l.
Proof.
  unfold concat_all. destruct l as [|y l]; simpl; [|reflexivity].
  now rewrite append_nil_r.
Qed.

Lemma write_each {A : Type} (name : string) (line : A -> string) (l : list A)
    (old : string) (b : list (string * json))
    (es : list (string * Driver.node)) :
  Driver.for_each (fun a => Driver.write name (line a)) l
    (Driver.mk_world b
       (Some (Driver.Dir (Sem.set_key name (Driver.File old) es))))
  = (Ok tt,
     Driver.mk_world b
       (Some (Driver.Dir
                (Sem.set_key name
                   (Driver.File (old ++ concat_all (map line l))) es)))).
Proof.
  revert old. induction l as [|a l IH]; intros old.
  - simpl. unfold Driver.ret. now rewrite append_nil_r.
  - cbn [Driver.for_each map]. unfold Driver.bind_io.
    rewrite write_file, IH, concat_all_cons. now rewrite append_assoc.
Qed.

(** X14: [generate_init], in a package directory where [__init__.py] is
    no directory: the file holds the header, the import of [cdp.util], and
    one import for each domain, under the name of its module and in the
    order of the list; what the file held is gone, and nothing else in the
    directory changes. *)
Theorem generate_init_content (domains : list CdpDomain.t) (w : Driver.world)
    (es : list (string * Driver.node)) :
  Driver.cdp w = Some (Driver.Dir es) ->
  (forall sub, Json.assoc "__init__.py" es <> Some (Driver.Dir sub)) ->
  Driver.generate_init domains w
  = (Ok tt,
     Driver.mk_world (Driver.build w)
       (Some (Driver.Dir
                (Sem.set_key "__init__.py" (Driver.File (init_text domains))
                   es)))).
Proof.
  intros Hcdp Hn. destruct w as [b c]. simpl in Hcdp. subst c.
  cbn [Driver.build]. unfold Driver.generate_init, Driver.bind_io.
  rewrite (open_w_file _ _ _ Hn), !write_file, write_each.
  unfold init_text. cbn [append]. now rewrite !append_assoc.
Qed.

Lemma generate_init_content_witness :
  Driver.generate_init [unknown_kind] earlier_run
  = (Ok tt,
     Driver.mk_world (Driver.build earlier_run)
       (Some (Driver.Dir
                [("__init__.py", Driver.File (init_text [unknown_kind]));
                 ("util.py", Driver.File "T_JSON_DICT = dict");
                 ("dom.py", Driver.File "class NodeId(int): pass");
                 ("__pycache__", Driver.Dir [("dom.pyc", Driver.File "")])]))).
Proof.
  refine (generate_init_content [unknown_kind] earlier_run _ eq_refl _).
  intros sub. vm_compute. discriminate.
Defined.

(** ** The order of the modules *)

Section SortByKey.

Context {A K : Type} (key : A -> K) (lt : K -> K -> bool).

Lemma insert_by_key_perm (x : A) (l : list A) :
  Permutation (insert_by_key key lt x l) (x :: l).
Proof.
  induction l as [|y l IH]; simpl; [reflexivity|].
  destruct (lt (key y) (key x)); [|reflexivity].
  rewrite IH. apply perm_swap.
Qed.

Lemma sort_by_key_perm (l : list A) : Permutation (sort_by_key key lt l) l.
Proof.
  induction l as [|x l IH]; simpl; [reflexivity|].
  rewrite insert_by_key_perm. now constructor.
Qed.

Hypothesis lt_asym : forall a b, lt a b = true -> lt b a = false.

Lemma insert_by_key_hd (x y : A) (l : list A) :
  lt (key x) (key y) = false ->
  HdRel (fun a b => lt (key b) (key a) = false) y l ->
  HdRel (fun a b => lt (key b) (key a) = false) y (insert_by_key key lt x l).
Proof.
  intros Hxy Hl. destruct l as [|z l]; simpl.
  - now constructor.
  - destruct (lt (key z) (key x)).
    + constructor. now inversion Hl.
    + now constructor.
Qed.

Lemma insert_by_key_sorted (x : A) (l : list A) :
  Sorted (fun a b => lt (key b) (key a) = false) l ->
  Sorted (fun a b => lt (key b) (key a) = false) (insert_by_key key lt x l).
Proof.
  induction l as [|y l IH]; simpl; intros Hl.
  - repeat constructor.
  - inversion Hl as [|? ? Hs Hhd]; subst.
    destruct (lt (key y) (key x)) eqn:E.
    + constructor; [now apply IH|].
      apply insert_by_key_hd; [now apply lt_asym|assumption].
    + constructor; [assumption|now constructor].
Qed.

Lemma sort_by_key_sorted (l : list A) :
  Sorted (fun a b => lt (key b) (key a) = false) (sort_by_key key lt l).
Proof.
  induction l as [|x l IH]; simpl; [constructor|].
  now apply insert_by_key_sorted.
Qed.

End SortByKey.

Lemma ltb_asym (a b : string) : PyStr.ltb a b = true -> PyStr.ltb b a = false.
Proof.
  unfold PyStr.ltb. rewrite (String.compare_antisym a b).
  now destruct (String.compare b a).
Qed.

(** X15: the list [main] writes the modules and the imports from holds
    the domains of the descriptions, each as often as it was read, and no
    domain in it comes after one with a greater name. *)
Theorem domains_in_name_order (ds : list CdpDomain.t) :
  Permutation (sort_by_key CdpDomain.domain PyStr.ltb ds) ds
  /\ Sorted (fun a b => PyStr.ltb (CdpDomain.domain b) (CdpDomain.domain a) = false)
            (sort_by_key CdpDomain.domain PyStr.ltb ds).
Proof.
  split; [apply sort_by_key_perm|].
  apply sort_by_key_sorted. apply ltb_asym.
Qed.

(** ** A run that returns *)

Lemma bind_io_ok {A B : Type} (m : Driver.io A) (k : A -> Driver.io B)
    (w w' : Driver.world) (b : B) :
  Driver.bind_io m k w = (Ok b, w') ->
  exists a w1, m w = (Ok a, w1) /\ k a w1 = (Ok b, w').
Proof.
  unfold Driver.bind_io. destruct (m w) as [[a|e] w1]; intros H.
  - now exists a, w1.
  - discriminate.
Qed.

Lemma open_w_ok (name : string) (w w' : Driver.world) (u : unit) :
  Driver.open_w name w = (Ok u, w') ->
  exists es,
    Driver.cdp w = Some (Driver.Dir es)
    /\ forall sub, Json.assoc name es <> Some (Driver.Dir sub).
Proof.
  unfold Driver.open_w, Driver.entries.
  destruct (Driver.cdp w) as [[content|es]|]; try discriminate.
  intros H. exists es. split; [reflexivity|].
  intros sub E. rewrite E in H. discriminate.
Qed.

Lemma open_w_build (name : string) (w : Driver.world) :
  Driver.build (snd (Driver.open_w name w)) = Driver.build w.
Proof.
  unfold Driver.open_w. destruct (Driver.entries w) as [es|]; [|reflexivity].
  destruct (Json.assoc name es) as [[|]|]; reflexivity.
Qed.

Lemma write_build (name text : string) (w : Driver.world) :
  Driver.build (snd (Driver.write name text w)) = Driver.build w.
Proof.
  unfold Driver.write. destruct (Driver.entries w) as [es|]; [|reflexivity].
  destruct (Json.assoc name es) as [[|]|]; reflexivity.
Qed.

Lemma write_module_build (d : CdpDomain.t) (w : Driver.world) :
  Driver.build (snd (Driver.write_module d w)) = Driver.build w.
Proof.
  unfold Driver.write_module, Driver.bind_io, Driver.lift.
  pose proof (open_w_build (CdpDomain.module d ++ ".py") w) as Ho.
  destruct (Driver.open_w (CdpDomain.module d ++ ".py") w) as [[u|e] w1];
    simpl in Ho; [|assumption].
  destruct (CdpDomain.generate_code d) as [code|e]; [|assumption].
  now rewrite write_build.
Qed.

Lemma write_module_ok (d : CdpDomain.t) (w w' : Driver.world) :
  Driver.write_module d w = (Ok tt, w') ->
  is_ok (CdpDomain.generate_code d) = true.
Proof.
  unfold Driver.write_module. intros H.
  apply bind_io_ok in H. destruct H as (u & w1 & _ & H).
  apply bind_io_ok in H. destruct H as (code & w2 & Hc & _).
  unfold Driver.lift in Hc. inversion Hc as [[Hg Hw]]. now rewrite Hg.
Qed.

Lemma for_each_ok {A : Type} (f : A -> Driver.io unit) (P : A -> Prop)
    (l : list A) :
  (forall a w w', f a w = (Ok tt, w') -> P a) ->
  forall w w', Driver.for_each f l w = (Ok tt, w') -> Forall P l.
Proof.
  intros Hf. induction l as [|a l IH]; intros w w' H; [constructor|].
  cbn [Driver.for_each] in H. apply bind_io_ok in H.
  destruct H as ([] & w1 & Ha & H).
  constructor; [now apply (Hf a w w1)|now apply (IH w1 w')].
Qed.

Lemma parse_all_result (w w' : Driver.world) (paths : list string) :
  Driver.build w' = Driver.build w ->
  fst (Driver.parse_all paths w') = fst (Driver.parse_all paths w).
Proof.
  intros Hb. induction paths as [|p ps IH]; [reflexivity|].
  cbn [Driver.parse_all]. unfold Driver.bind_io.
  pose proof (parse_result w w' p Hb) as Hp.
  pose proof (parse_reads w p) as Hw. pose proof (parse_reads w' p) as Hw'.
  destruct (Driver.parse p w) as [r w1], (Driver.parse p w') as [r' w1'].
  simpl in Hp, Hw, Hw'. subst r' w1 w1'. destruct r as [ds|e]; [|reflexivity].
  pose proof (parse_all_reads w ps) as Hs.
  pose proof (parse_all_reads w' ps) as Hs'.
  destruct (Driver.parse_all ps w) as [r w2], (Driver.parse_all ps w') as [r' w2'].
  simpl in IH, Hs, Hs'. subst r' w2 w2'. now destruct r.
Qed.

(** X16: a run of [main] that returns has read the domains of both
    descriptions, generated the code of each of them, and left in the
    package directory an [__init__.py] that imports the module of each
    domain, in the order of the names of the domains, and a [py.typed];
    the directory [build] is as it was. *)
Theorem main_returns (w w' : Driver.world) :
  Driver.main w = (Ok tt, w') ->
  exists ds es,
    fst (Driver.parse_all Driver.json_paths w) = Ok ds
    /\ Forall (fun d => is_ok (CdpDomain.generate_code d) = true) ds
    /\ Driver.build w' = Driver.build w
    /\ Driver.cdp w' = Some (Driver.Dir es)
    /\ Json.assoc "__init__.py" es
       = Some (Driver.File
                 (init_text (sort_by_key CdpDomain.domain PyStr.ltb ds)))
    /\ Json.assoc "py.typed" es <> None.
Proof.
  unfold Driver.main. intros H.
  pose proof (prepare_build w) as Hb.
  unfold Driver.bind_io at 1 in Hb.
  apply bind_io_ok in H. destruct H as (u1 & w1 & Hmk & H). rewrite Hmk in Hb.
  unfold Driver.bind_io at 1 in H.
  destruct (Driver.clear_dirs w1) as [[u2|e] w2] eqn:Hcl; [|discriminate].
  simpl in Hb.
  apply bind_io_ok in H. destruct H as (ds & w3 & Hp & H).
  pose proof (parse_all_reads w2 Driver.json_paths) as Hw3.
  rewrite Hp in Hw3. simpl in Hw3. subst w3.
  exists ds.
  unfold Driver.write_all in H.
  apply bind_io_ok in H. destruct H as ([] & w4 & Hmods & H).
  apply bind_io_ok in H. destruct H as ([] & w5 & Hinit & H).
  pose proof (for_each_build Driver.write_module
                (sort_by_key CdpDomain.domain PyStr.ltb ds)
                write_module_build w2) as Hb4.
  rewrite Hmods in Hb4. simpl in Hb4.
  assert (Hopen : exists es4,
             Driver.cdp w4 = Some (Driver.Dir es4)
             /\ forall sub, Json.assoc "__init__.py" es4 <> Some (Driver.Dir sub)).
  { unfold Driver.generate_init in Hinit. apply bind_io_ok in Hinit.
    destruct Hinit as (u & w6 & Ho & _). now apply (open_w_ok _ _ _ _ Ho). }
  destruct Hopen as (es4 & Hc4 & Hn4).
  rewrite (generate_init_content _ w4 es4 Hc4 Hn4) in Hinit.
  inversion Hinit; subst w5. clear Hinit.
  unfold Driver.touch, Driver.entries in H. cbn [Driver.cdp] in H.
  assert (Hds : fst (Driver.parse_all Driver.json_paths w) = Ok ds).
  { rewrite <- (parse_all_result w w2 Driver.json_paths Hb). now rewrite Hp. }
  assert (Hgen : Forall (fun d => is_ok (CdpDomain.generate_code d) = true) ds).
  { apply (Permutation_Forall
             (sort_by_key_perm CdpDomain.domain PyStr.ltb ds)).
    apply (for_each_ok Driver.write_module _ _ write_module_ok _ _ Hmods). }
  destruct (Json.assoc "py.typed" _) as [n|] eqn:Et.
  - inversion H; subst w'. eexists. split; [exact Hds|]. split; [exact Hgen|].
    split; [cbn [Driver.build]; congruence|]. split; [reflexivity|].
    split; [apply assoc_set_same|]. rewrite Et. discriminate.
  - unfold Driver.set_entries in H. cbn [Driver.build] in H.
    inversion H; subst w'. eexists. split; [exact Hds|]. split; [exact Hgen|].
    split; [cbn [Driver.build]; congruence|]. split; [reflexivity|]. split.
    + rewrite assoc_set_other by discriminate. apply assoc_set_same.
    + rewrite assoc_set_same. discriminate.
Qed.

Lemma main_returns_witness :
  exists w' ds es,
    Driver.main first_run = (Ok tt, w')
    /\ fst (Driver.parse_all Driver.json_paths first_run) = Ok ds
    /\ map CdpDomain.domain (sort_by_key CdpDomain.domain PyStr.ltb ds)
       = ["CSS"; "DOM"]
    /\ Driver.cdp w' = Some (Driver.Dir es)
    /\ map fst es = ["css.py"; "dom.py"; "__init__.py"; "py.typed"]
    /\ Json.assoc "__init__.py" es
       = Some (Driver.File
                 (init_text (sort_by_key CdpDomain.domain PyStr.ltb ds))).
Proof.
  pose (w' := snd (Driver.main first_run)).
  assert (H : Driver.main first_run = (Ok tt, w')) by (vm_compute; reflexivity).
  destruct (main_returns first_run w' H) as (ds & es & Hds & _ & _ & Hc & Hi & _).
  exists w', ds, es. split; [exact H|]. split; [exact Hds|].
  assert (Hds' : Ok ds = fst (Driver.parse_all Driver.json_paths first_run))
    by (symmetry; exact Hds).
  vm_compute in Hds'. inversion Hds'; subst ds.
  assert (Hc' : Some (Driver.Dir es) = Driver.cdp w') by (symmetry; exact Hc).
  vm_compute in Hc'. inversion Hc'; subst es.
  split; [vm_compute; reflexivity|]. split; [exact Hc|].
  split; [vm_compute; reflexivity|]. exact Hi.
Defined.

(** ** The round trip of a composite type with plain names *)

Section ScalarRoundTrip.

Variable to_json_of : Sem.value -> result Sem.value.
Variable from_json_of : string -> Sem.value -> result Sem.value.
Variable val : string -> Sem.value.

Lemma exec_to_json_scalar (cls : string) (fields m : list (string * Sem.value))
    (p : CdpProperty.t) :
  scalar p ->
  Sem.get_key (CdpProperty.py_name p) fields = Some (val (CdpProperty.name p)) ->
  Sem.exec to_json_of from_json_of
    [("self", Sem.VObj cls fields); ("json", Sem.VDict m)]
    (Ast.to_json p "json" true)
  = Ok [("self", Sem.VObj cls fields); ("json", Sem.VDict (put_field val m p))].
Proof.
  intros [Hit Href] Hget.
  assert (Hset : Sem.exec to_json_of from_json_of
                   [("self", Sem.VObj cls fields); ("json", Sem.VDict m)]
                   (Py.SSetItem "json" (CdpProperty.name p)
                      (Py.EVar true (CdpProperty.py_name p)))
                 = Ok [("self", Sem.VObj cls fields);
                       ("json", Sem.VDict (Sem.set_key (CdpProperty.name p)
                                             (val (CdpProperty.name p)) m))]).
  { cbn [Sem.exec Sem.eval]. unfold Sem.lookup. cbn [Sem.get_key Json.assoc].
    cbn [String.eqb Ascii.eqb Bool.eqb bind Sem.getattr].
    rewrite Hget. reflexivity. }
  unfold Ast.to_json, Ast.to_json_value, put_field. rewrite Hit, Href.
  destruct (CdpProperty.optional p); [|exact Hset].
  rewrite exec_if_not_none.
  assert (Hev : Sem.eval to_json_of from_json_of
                  [("self", Sem.VObj cls fields); ("json", Sem.VDict m)]
                  (Py.EVar true (CdpProperty.py_name p))
                = Ok (val (CdpProperty.name p))).
  { cbn [Sem.eval]. unfold Sem.lookup. cbn [Sem.get_key Json.assoc].
    cbn [String.eqb Ascii.eqb Bool.eqb bind Sem.getattr].
    now rewrite Hget. }
  rewrite Hev. cbn [bind].
  destruct (val (CdpProperty.name p)); first [reflexivity | exact Hset].
Qed.

Lemma foldM_to_json_scalar (cls : string) (fields : list (string * Sem.value))
    (ps : list CdpProperty.t) (m : list (string * Sem.value)) :
  (forall p, In p ps ->
     scalar p
     /\ Sem.get_key (CdpProperty.py_name p) fields
        = Some (val (CdpProperty.name p))) ->
  Sem.foldM (Sem.exec to_json_of from_json_of)
    [("self", Sem.VObj cls fields); ("json", Sem.VDict m)]
    (map (fun p => Ast.to_json p "json" true) ps)
  = Ok [("self", Sem.VObj cls fields);
        ("json", Sem.VDict (fold_left (put_field val) ps m))].
Proof.
  revert m. induction ps as [|p ps IH]; intros m H; [reflexivity|].
  cbn [map Sem.foldM fold_left].
  destruct (H p (or_introl eq_refl)) as [Hs Hg].
  rewrite (exec_to_json_scalar _ _ _ _ Hs Hg). cbn [bind].
  apply IH. intros q Hq. apply H. now right.
Qed.

Lemma put_field_other (k : string) (ps : list CdpProperty.t)
    (m : list (string * Sem.value)) :
  ~ In k (map CdpProperty.name ps) ->
  Sem.get_key k (fold_left (put_field val) ps m) = Sem.get_key k m.
Proof.
  revert m. induction ps as [|p ps IH]; intros m Hk; [reflexivity|].
  cbn [fold_left]. rewrite IH by (intros Hin; apply Hk; now right).
  assert (Hne : k <> CdpProperty.name p) by (intros ->; apply Hk; now left).
  unfold put_field.
  destruct (CdpProperty.optional p), (val (CdpProperty.name p));
    first [reflexivity | now apply get_set_other].
Qed.

(** The dictionary of [to_json] has the value of a property under its wire
    name, and no entry for an optional property whose value is [None]. *)
Lemma put_field_get (ps : list CdpProperty.t) (p : CdpProperty.t) :
  NoDup (map CdpProperty.name ps) -> In p ps ->
  Sem.get_key (CdpProperty.name p) (fold_left (put_field val) ps [])
  = match CdpProperty.optional p, val (CdpProperty.name p) with
    | true, Sem.VNone => None
    | _, v => Some v
    end.
Proof.
  assert (H : forall m,
             NoDup (map CdpProperty.name ps) -> In p ps ->
             Sem.get_key (CdpProperty.name p) m = None ->
             Sem.get_key (CdpProperty.name p) (fold_left (put_field val) ps m)
             = match CdpProperty.optional p, val (CdpProperty.name p) with
               | true, Sem.VNone => None
               | _, v => Some v
               end).
  { induction ps as [|q ps IH]; intros m Hnd Hin Hm; [contradiction|].
    cbn [map] in Hnd. inversion Hnd as [|? ? Hnotin Hnd']; subst.
    cbn [fold_left]. destruct Hin as [->|Hin].
    - rewrite put_field_other by assumption. unfold put_field.
      destruct (CdpProperty.optional p), (val (CdpProperty.name p));
        first [assumption | apply get_set_same].
    - apply IH; [assumption|assumption|].
      assert (Hne : CdpProperty.name p <> CdpProperty.name q).
      { intros Heq. apply Hnotin. rewrite <- Heq. now apply in_map. }
      unfold put_field.
      destruct (CdpProperty.optional q), (val (CdpProperty.name q));
        first [assumption | now rewrite get_set_other]. }
  intros Hnd Hin. now apply H.
Qed.

Lemma eval_scalar_kwarg (p : CdpProperty.t) (m : list (string * Sem.value)) :
  scalar p ->
  Sem.get_key (CdpProperty.name p) m
  = match CdpProperty.optional p, val (CdpProperty.name p) with
    | true, Sem.VNone => None
    | _, v => Some v
    end ->
  exists e,
    Ast.from_json p "json" = Ok e
    /\ Sem.eval to_json_of from_json_of [("json", Sem.VDict m)] e
       = Ok (val (CdpProperty.name p)).
Proof.
  intros [Hit Href] Hget. unfold Ast.from_json. rewrite Hit, Href. cbn [bind].
  eexists. split; [reflexivity|].
  destruct (CdpProperty.optional p).
  - cbn [Sem.eval]. unfold Sem.lookup. cbn [Sem.get_key Json.assoc].
    cbn [String.eqb Ascii.eqb Bool.eqb bind Sem.contains_str Sem.getitem].
    unfold Sem.has_key. rewrite Hget.
    destruct (val (CdpProperty.name p)); reflexivity.
  - cbn [Sem.eval]. unfold Sem.lookup. cbn [Sem.get_key Json.assoc].
    cbn [String.eqb Ascii.eqb Bool.eqb bind Sem.getitem].
    rewrite Hget. destruct (val (CdpProperty.name p)); reflexivity.
Qed.

Lemma eval_scalar_kwargs (ps : list CdpProperty.t)
    (kwargs : list (string * Py.expr)) (m : list (string * Sem.value)) :
  (forall p, In p ps ->
     scalar p
     /\ Sem.get_key (CdpProperty.name p) m
        = match CdpProperty.optional p, val (CdpProperty.name p) with
          | true, Sem.VNone => None
          | _, v => Some v
          end) ->
  mapM (fun p => e <- Ast.from_json p "json" ;; Ok (CdpProperty.name p, e)) ps
  = Ok kwargs ->
  Sem.eval_kwargs to_json_of from_json_of [("json", Sem.VDict m)] kwargs
  = Ok (map (fun p => (CdpProperty.name p, val (CdpProperty.name p))) ps).
Proof.
  revert kwargs. induction ps as [|p ps IH]; intros kwargs H Hk.
  - inversion Hk. reflexivity.
  - cbn [mapM] in Hk. apply bind_ok in Hk. destruct Hk as (kw & Hkw & Hk).
    apply bind_ok in Hk. destruct Hk as (kws & Hkws & Hk). inversion Hk; subst.
    apply bind_ok in Hkw. destruct Hkw as (e & He & Hkw). inversion Hkw; subst.
    destruct (H p (or_introl eq_refl)) as [Hs Hg].
    destruct (eval_scalar_kwarg p m Hs Hg) as (e' & He' & Hv).
    assert (e' = e) by congruence. subst e'.
    unfold Sem.eval_kwargs in *. cbn [mapM map fst snd]. rewrite Hv. cbn [bind].
    rewrite (IH kws); [reflexivity| |assumption].
    intros q Hq. apply H. now right.
Qed.

Lemma dataclass_init_lookup (cls : string) (fields : list Py.field)
    (vs : list (string * Sem.value)) (g : string -> Sem.value) :
  (forall kw, In kw vs -> In (fst kw) (map Py.f_name fields)) ->
  (forall f, In f fields -> Sem.get_key (Py.f_name f) vs = Some (g (Py.f_name f))) ->
  Sem.dataclass_init cls fields vs
  = Ok (Sem.VObj cls (map (fun k => (k, g k)) (map Py.f_name fields))).
Proof.
  intros Hk Hf. unfold Sem.dataclass_init.
  assert (Hall : forallb (fun kw => existsb (String.eqb (fst kw))
                                      (map Py.f_name fields)) vs = true).
  { apply forallb_forall. intros kw Hkw. apply existsb_eqb_In. now apply Hk. }
  rewrite Hall. clear Hall Hk.
  assert (H : mapM (fun f =>
                      match Sem.get_key (Py.f_name f) vs with
                      | Some v => Ok (Py.f_name f, v)
                      | None =>
                          if Py.f_default f then Ok (Py.f_name f, Sem.VNone)
                          else Raise TypeError
                      end) fields
              = Ok (map (fun k => (k, g k)) (map Py.f_name fields))).
  { induction fields as [|f fields IH]; [reflexivity|].
    cbn [mapM map]. rewrite (Hf f (or_introl eq_refl)). cbn [bind].
    rewrite IH; [reflexivity|]. intros f' Hf'. apply Hf. now right. }
  now rewrite H.
Qed.

End ScalarRoundTrip.

Lemma NoDup_distinct (l : list string) : NoDup l -> Py.distinct l = true.
Proof.
  induction 1 as [|x l Hx _ IH]; [reflexivity|].
  cbn [Py.distinct]. rewrite IH, andb_true_r. apply negb_true_iff.
  apply not_true_is_false. intros H. now apply existsb_eqb_In in H.
Qed.

(** The class of a valid composite type: its names are in order, and no
    field hides [to_json]. *)
Lemma valid_composite_class (t0 : CdpType.t) (c : Py.dataclass) :
  Ast.dataclass t0 = Ok c ->
  Valid.composite t0 = true ->
  Sem.dataclass_names_ok c = true
  /\ existsb (String.eqb "to_json") (map Py.f_name (Py.dc_fields c)) = false.
Proof.
  intros Hc Hv.
  destruct (dataclass_parts _ _ Hc) as (fields & kwargs & Hf & _ & ->).
  apply property_field_names in Hf.
  unfold Valid.composite in Hv.
  apply andb_true_iff in Hv. destruct Hv as [Hv Hres].
  apply andb_true_iff in Hv. destruct Hv as [Hv Hdis].
  apply andb_true_iff in Hv. destruct Hv as [Hv Hprops].
  apply andb_true_iff in Hv. destruct Hv as [Hv _].
  apply andb_true_iff in Hv. destruct Hv as [Hid Hnd].
  rewrite forallb_forall in Hres, Hprops.
  assert (Hin : forall x,
             In x (map CdpProperty.py_name (CdpType.sorted_props t0)) ->
             exists p, In p (CdpType.properties t0)
                       /\ CdpProperty.py_name p = x).
  { intros x Hx. apply in_map_iff in Hx. destruct Hx as (p & <- & Hp).
    exists p. split; [now apply sorted_props_In|reflexivity]. }
  unfold Sem.dataclass_names_ok. cbn [Py.dc_name Py.dc_fields]. rewrite Hf.
  split.
  - apply andb_true_iff. split; [apply andb_true_iff; split|].
    + rewrite Hnd, andb_true_r.
      cbn [forallb]. rewrite Hid. cbn [andb]. apply forallb_forall.
      intros x Hx. destruct (Hin x Hx) as (p & Hp & <-).
      specialize (Hprops p Hp). unfold Valid.property in Hprops.
      apply andb_true_iff in Hprops. tauto.
    + apply NoDup_distinct.
      apply (Permutation_NoDup
               (l := map CdpProperty.py_name (CdpType.properties t0))).
      * apply Permutation_map. symmetry. apply sort_by_key_perm.
      * now apply distinct_NoDup.
    + apply forallb_forall. intros x Hx. destruct (Hin x Hx) as (p & Hp & <-).
      specialize (Hres p Hp). apply negb_true_iff in Hres.
      cbn [existsb] in Hres. apply orb_false_iff in Hres.
      apply negb_true_iff. tauto.
  - apply not_true_is_false. intros Hex. apply existsb_eqb_In in Hex.
    destruct (Hin _ Hex) as (p & Hp & Heq).
    specialize (Hres p Hp). apply negb_true_iff in Hres.
    cbn [existsb] in Hres. apply orb_false_iff in Hres.
    destruct Hres as [Hres _]. rewrite Heq in Hres. discriminate Hres.
Qed.

(** X17: a composite type whose names are what the generator supposes
    them to be (identifiers, the class not [dict], the fields pairwise
    distinct and none of [to_json], [from_json], [typing] and
    [classmethod]), and whose properties have wire names that are their
    own Python names and are written and read as they are (no items, no
    reference).  For every instance of the emitted
    dataclass, [to_json] returns a dictionary that has each value under
    its wire name, an optional property whose value is [None] left out,
    and [from_json] of this dictionary returns the instance. *)
Theorem scalar_round_trip tj fj (t0 : CdpType.t) (c : Py.dataclass)
    (val : string -> Sem.value) :
  Ast.dataclass t0 = Ok c ->
  Valid.composite t0 = true ->
  NoDup (map CdpProperty.name (CdpType.properties t0)) ->
  (forall p, In p (CdpType.properties t0) ->
     CdpProperty.py_name p = CdpProperty.name p
     /\ CdpProperty.items p = None
     /\ truthy (CdpProperty.ref p) = None) ->
  exists m,
    Sem.dataclass_to_json tj fj c (instance_of t0 val) = Ok (Sem.VDict m)
    /\ (forall p, In p (CdpType.properties t0) ->
          Sem.get_key (CdpProperty.name p) m
          = match CdpProperty.optional p, val (CdpProperty.name p) with
            | true, Sem.VNone => None
            | _, v => Some v
            end)
    /\ Sem.dataclass_from_json tj fj c (Sem.VDict m) = Ok (instance_of t0 val).
Proof.
  intros Hc Hv Hnd Hp.
  destruct (valid_composite_class t0 c Hc Hv) as [Hok Hnt].
  destruct (dataclass_parts _ _ Hc) as (fields & kwargs & Hf & Hk & ->).
  apply property_field_names in Hf.
  pose proof (sort_by_key_perm CdpProperty.optional bool_lt
                (CdpType.properties t0)) as Hperm.
  fold (CdpType.sorted_props t0) in Hperm.
  assert (Hnds : NoDup (map CdpProperty.name (CdpType.sorted_props t0))).
  { apply (Permutation_NoDup (l := map CdpProperty.name (CdpType.properties t0)));
      [|assumption].
    apply Permutation_map. now symmetry. }
  assert (Hpy : map CdpProperty.py_name (CdpType.sorted_props t0)
                = map CdpProperty.name (CdpType.sorted_props t0)).
  { apply map_ext_in. intros q Hq. apply Hp. now apply sorted_props_In. }
  exists (fold_left (put_field val) (CdpType.sorted_props t0) []).
  assert (Hm : forall p, In p (CdpType.properties t0) ->
             Sem.get_key (CdpProperty.name p)
               (fold_left (put_field val) (CdpType.sorted_props t0) [])
             = match CdpProperty.optional p, val (CdpProperty.name p) with
               | true, Sem.VNone => None
               | _, v => Some v
               end).
  { intros p Hin. apply put_field_get; [assumption|now apply sorted_props_In]. }
  split; [|split; [exact Hm|]].
  - unfold Sem.dataclass_to_json, instance_of. rewrite Hok, Hnt.
    cbn [Py.dc_to_json].
    rewrite (foldM_to_json_scalar tj fj val).
    + reflexivity.
    + intros p Hin. split; [apply Hp; now apply sorted_props_In|].
      apply get_key_NoDup.
      * rewrite map_map. cbn [fst]. exact (eq_ind_r (fun l => NoDup l) Hnds Hpy).
      * apply in_map_iff. now exists p.
  - unfold Sem.dataclass_from_json. cbn [Py.dc_from_json Py.dc_name Py.dc_fields].
    rewrite (eval_scalar_kwargs tj fj val _ _ _
               (fun p Hin => conj (proj2 (Hp p Hin)) (Hm p Hin)) Hk).
    cbn [bind].
    rewrite (dataclass_init_lookup _ _ _ val).
    + unfold instance_of. do 2 f_equal. rewrite Hf, map_map.
      apply map_ext_in. intros q Hq.
      destruct (Hp q (proj1 (sorted_props_In t0 q) Hq)) as [-> _]. reflexivity.
    + intros kw Hkw. apply in_map_iff in Hkw. destruct Hkw as (q & <- & Hq).
      cbn [fst]. rewrite Hf, Hpy. apply in_map. now apply sorted_props_In.
    + intros f Hfin.
      assert (Hn : In (Py.f_name f) (map CdpProperty.name (CdpType.properties t0))).
      { apply (in_map Py.f_name) in Hfin. rewrite Hf, Hpy in Hfin.
        apply in_map_iff in Hfin. destruct Hfin as (q & <- & Hq).
        apply in_map. now apply sorted_props_In. }
      apply in_map_iff in Hn. destruct Hn as (q & <- & Hq).
      apply get_key_NoDup.
      * rewrite map_map. cbn [fst]. exact Hnd.
      * apply in_map_iff. now exists q.
Qed.

Lemma scalar_round_trip_witness :
  exists c m,
    Ast.dataclass labelled = Ok c
    /\ Valid.composite labelled = true
    /\ instance_of labelled
         (fun x => if String.eqb x "x" then Sem.VInt 1 else Sem.VNone)
       = Sem.VObj "Labelled" [("x", Sem.VInt 1); ("label", Sem.VNone)]
    /\ Sem.dataclass_to_json wrapper_to_json wrapper_from_json c
         (Sem.VObj "Labelled" [("x", Sem.VInt 1); ("label", Sem.VNone)])
       = Ok (Sem.VDict m)
    /\ Sem.dataclass_from_json wrapper_to_json wrapper_from_json c (Sem.VDict m)
       = Ok (Sem.VObj "Labelled" [("x", Sem.VInt 1); ("label", Sem.VNone)]).
Proof.
  pose (c := match Ast.dataclass labelled with
             | Ok c => c
             | Raise _ => Py.mk_dataclass "" "" [] [] []
             end).
  assert (Hc : Ast.dataclass labelled = Ok c) by (vm_compute; reflexivity).
  assert (Hnd : NoDup (map CdpProperty.name (CdpType.properties labelled))).
  { repeat constructor; simpl; intuition discriminate. }
  destruct (scalar_round_trip wrapper_to_json wrapper_from_json labelled c
              (fun x => if String.eqb x "x" then Sem.VInt 1 else Sem.VNone)
              Hc eq_refl Hnd)
    as (m & Hto & _ & Hfrom).
  - intros p [<-|[<-|[]]]; repeat split; reflexivity.
  - exists c, m. split; [exact Hc|]. split; [reflexivity|].
    split; [reflexivity|]. split; [exact Hto|exact Hfrom].
Defined.

(** * The module [cdp/media.py] *)

(** X18: the dataclasses of [cdp/media.py] whose fields are strings.
    [to_json] writes the fields under their wire keys ([type_] and
    [error_code] under [type] and [errorCode]), and [from_json] of the
    dictionary [to_json] returns is the object again. *)
Theorem media_round_trip (a b : string) :
  (Media.PlayerMessage.to_json (Media.PlayerMessage.init (Sem.VStr a) (Sem.VStr b))
   = Ok (Sem.VDict [("level", Sem.VStr a); ("message", Sem.VStr b)])
   /\ Media.PlayerMessage.from_json
        (Sem.VDict [("level", Sem.VStr a); ("message", Sem.VStr b)])
      = Ok (Media.PlayerMessage.init (Sem.VStr a) (Sem.VStr b)))
  /\ (Media.PlayerProperty.to_json
        (Media.PlayerProperty.init (Sem.VStr a) (Sem.VStr b))
      = Ok (Sem.VDict [("name", Sem.VStr a); ("value", Sem.VStr b)])
      /\ Media.PlayerProperty.from_json
           (Sem.VDict [("name", Sem.VStr a); ("value", Sem.VStr b)])
         = Ok (Media.PlayerProperty.init (Sem.VStr a) (Sem.VStr b)))
  /\ (Media.PlayerError.to_json (Media.PlayerError.init (Sem.VStr a) (Sem.VStr b))
      = Ok (Sem.VDict [("type", Sem.VStr a); ("errorCode", Sem.VStr b)])
      /\ Media.PlayerError.from_json
           (Sem.VDict [("type", Sem.VStr a); ("errorCode", Sem.VStr b)])
         = Ok (Media.PlayerError.init (Sem.VStr a) (Sem.VStr b))).
Proof. repeat split. Qed.

Lemma list_from_json_map {A : Type} (f : Sem.value -> result Sem.value)
    (wire obj : A -> Sem.value) (l : list A) (m : list (string * Sem.value))
    (key : string) :
  (forall a, f (wire a) = Ok (obj a)) ->
  Sem.get_key key m = Some (Sem.VList (map wire l)) ->
  Media.list_from_json f (Sem.VDict m) key = Ok (Sem.VList (map obj l)).
Proof.
  intros Hf Hk. unfold Media.list_from_json, Sem.getitem. rewrite Hk.
  cbn [bind Sem.iterate].
  assert (H : mapM f (map wire l) = Ok (map obj l)).
  { clear Hk. induction l as [|a l IH]; [reflexivity|].
    cbn [map mapM]. now rewrite Hf, IH. }
  now rewrite H.
Qed.

Lemma list_from_json_raises (f : Sem.value -> result Sem.value)
    (l : list Sem.value) (bad : Sem.value) (m : list (string * Sem.value))
    (key : string) :
  Sem.get_key key m = Some (Sem.VList l) ->
  In bad l -> is_ok (f bad) = false ->
  is_ok (Media.list_from_json f (Sem.VDict m) key) = false.
Proof.
  intros Hk Hin Hbad. unfold Media.list_from_json, Sem.getitem. rewrite Hk.
  cbn [bind Sem.iterate].
  pose proof (mapM_raise f l bad Hin Hbad) as H.
  now destruct (mapM f l).
Qed.

(** X19: the events of [cdp/media.py] that carry lists.  [from_json]
    decodes a list of any length, element by element and in order: the
    errors, messages and properties into the objects whose [to_json] gives
    the elements, and the players into their identifiers. *)
Theorem media_events_decode (player : string) (l : list (string * string))
    (players : list string) :
  Media.PlayerErrorsRaised.from_json
    (Sem.VDict
       [("playerId", Sem.VStr player);
        ("errors",
         Sem.VList
           (map (fun e => Sem.VDict [("type", Sem.VStr (fst e));
                                     ("errorCode", Sem.VStr (snd e))]) l))])
  = Ok (Sem.VObj "PlayerErrorsRaised"
          [("player_id", Sem.VStr player);
           ("errors",
            Sem.VList
              (map (fun e => Media.PlayerError.init (Sem.VStr (fst e))
                               (Sem.VStr (snd e))) l))])
  /\ Media.PlayerMessagesLogged.from_json
       (Sem.VDict
          [("playerId", Sem.VStr player);
           ("messages",
            Sem.VList
              (map (fun e => Sem.VDict [("level", Sem.VStr (fst e));
                                        ("message", Sem.VStr (snd e))]) l))])
     = Ok (Sem.VObj "PlayerMessagesLogged"
             [("player_id", Sem.VStr player);
              ("messages",
               Sem.VList
                 (map (fun e => Media.PlayerMessage.init (Sem.VStr (fst e))
                                  (Sem.VStr (snd e))) l))])
  /\ Media.PlayerPropertiesChanged.from_json
       (Sem.VDict
          [("playerId", Sem.VStr player);
           ("properties",
            Sem.VList
              (map (fun e => Sem.VDict [("name", Sem.VStr (fst e));
                                        ("value", Sem.VStr (snd e))]) l))])
     = Ok (Sem.VObj "PlayerPropertiesChanged"
             [("player_id", Sem.VStr player);
              ("properties",
               Sem.VList
                 (map (fun e => Media.PlayerProperty.init (Sem.VStr (fst e))
                                  (Sem.VStr (snd e))) l))])
  /\ Media.PlayersCreated.from_json
       (Sem.VDict [("players", Sem.VList (map Sem.VStr players))])
     = Ok (Sem.VObj "PlayersCreated"
             [("players", Sem.VList (map Sem.VStr players))]).
Proof.
  repeat split.
  - unfold Media.PlayerErrorsRaised.from_json.
    rewrite (list_from_json_map Media.PlayerError.from_json
               (fun e => Sem.VDict [("type", Sem.VStr (fst e));
                                    ("errorCode", Sem.VStr (snd e))])
               (fun e => Media.PlayerError.init (Sem.VStr (fst e))
                           (Sem.VStr (snd e))) l);
      reflexivity.
  - unfold Media.PlayerMessagesLogged.from_json.
    rewrite (list_from_json_map Media.PlayerMessage.from_json
               (fun e => Sem.VDict [("level", Sem.VStr (fst e));
                                    ("message", Sem.VStr (snd e))])
               (fun e => Media.PlayerMessage.init (Sem.VStr (fst e))
                           (Sem.VStr (snd e))) l);
      reflexivity.
  - unfold Media.PlayerPropertiesChanged.from_json.
    rewrite (list_from_json_map Media.PlayerProperty.from_json
               (fun e => Sem.VDict [("name", Sem.VStr (fst e));
                                    ("value", Sem.VStr (snd e))])
               (fun e => Media.PlayerProperty.init (Sem.VStr (fst e))
                           (Sem.VStr (snd e))) l);
      reflexivity.
  - unfold Media.PlayersCreated.from_json.
    rewrite (list_from_json_map Media.PlayerId.from_json Sem.VStr Sem.VStr
               players);
      reflexivity.
Qed.

(** X20: one element of the list that [PlayerError.from_json] does not
    accept, an error without the key [errorCode], say, makes [from_json]
    of the whole event [PlayerErrorsRaised] raise. *)
Theorem media_event_bad_element (player : Sem.value) (l : list Sem.value)
    (bad : Sem.value) :
  In bad l ->
  is_ok (Media.PlayerError.from_json bad) = false ->
  is_ok (Media.PlayerErrorsRaised.from_json
           (Sem.VDict [("playerId", player); ("errors", Sem.VList l)]))
  = false.
Proof.
  intros Hin Hbad. unfold Media.PlayerErrorsRaised.from_json.
  destruct (v <- Sem.getitem _ "playerId" ;; Media.PlayerId.from_json v);
    [|reflexivity].
  cbn [bind].
  pose proof (list_from_json_raises Media.PlayerError.from_json l bad
                [("playerId", player); ("errors", Sem.VList l)]
                "errors" eq_refl Hin Hbad) as H.
  now destruct (Media.list_from_json _ _ _).
Qed.

Lemma media_event_bad_element_witness :
  Media.PlayerErrorsRaised.from_json
    (Sem.VDict
       [("playerId", Sem.VStr "1");
        ("errors",
         Sem.VList
           [Sem.VDict [("type", Sem.VStr "a"); ("errorCode", Sem.VStr "b")];
            Sem.VDict [("type", Sem.VStr "c")]])])
  = Raise KeyError
  /\ is_ok (Media.PlayerErrorsRaised.from_json
              (Sem.VDict
                 [("playerId", Sem.VStr "1");
                  ("errors",
                   Sem.VList
                     [Sem.VDict [("type", Sem.VStr "a");
                                 ("errorCode", Sem.VStr "b")];
                      Sem.VDict [("type", Sem.VStr "c")]])]))
     = false.
Proof.
  split; [reflexivity|].
  apply (media_event_bad_element (Sem.VStr "1") _
           (Sem.VDict [("type", Sem.VStr "c")])).
  - right. left. reflexivity.
  - reflexivity.
Defined.
